(** * biofaster: benchmark-result aggregation and derived metrics

    A shallow embedding of the data pipeline of [src/biofaster/funcitons.py]:
    the benchmark-key parser, the result loader, the file-size resolver and
    the aggregation functions behind the mean-time grid, the scaling
    analysis and the throughput table.

    Conventions of the embedding.
    - Python [str] is [string]; the texts of the model are ASCII texts, on
      which [lower], [upper] and [isdigit] are Python's.
    - Python [float] is modelled by [pyfloat]: a rational, or one of the
      three non-finite values.  Within the range of a double the results
      are exact (the rounding to 53 bits is left out); beyond it they are
      those of the doubles: a result too large is an infinity or raises
      [OverflowError], a result too small is zero.  Division raises
      [ZeroDivisionError] on a zero divisor, as in Python.
    - What [json.load] returns keeps [int] apart from [float];
      [pl.DataFrame(records)] keeps the records whose values have the
      types of their columns and raises [TypeError] on a list of run
      times that starts with an [int] and goes on with a [float]; the
      other conversions of polars are a parameter of the loader.
    - [sorted] is the list sort of CPython on short lists (a first run,
      then binary insertion); it is the stable sort by [<] whenever [<]
      orders the keys, which a NaN key prevents.  A sort by polars puts
      NaN after every number.
    - A Python [dict] is an association list in insertion order.
    - Code that may raise returns a [res]; [print] output is collected
      as a list of structured log entries.
    - Charts are represented by the data they are built from. *)

From Stdlib Require Import Bool List Arith ZArith QArith Qabs Lia.
From Stdlib Require Import Ascii String.
From Stdlib Require Import Permutation Sorted.
Import ListNotations.

Local Open Scope string_scope.
Local Open Scope list_scope.

(* ================================================================== *)
(** * Python strings *)
(* ================================================================== *)

Module PyStr.

(** [c.lower()] on one ASCII character. *)
Definition lower_char (c : ascii) : ascii :=
  let n := nat_of_ascii c in
  if (65 <=? n)%nat && (n <=? 90)%nat then ascii_of_nat (n + 32) else c.

(** [c.upper()] on one ASCII character. *)
Definition upper_char (c : ascii) : ascii :=
  let n := nat_of_ascii c in
  if (97 <=? n)%nat && (n <=? 122)%nat then ascii_of_nat (n - 32) else c.

Fixpoint map_chars (f : ascii -> ascii) (s : string) : string :=
  match s with
  | EmptyString => EmptyString
  | String c s' => String (f c) (map_chars f s')
  end.

(** [s.isascii()]: every character of the text is below 128. *)
Fixpoint isascii (s : string) : bool :=
  match s with
  | EmptyString => true
  | String c s' => (nat_of_ascii c <? 128)%nat && isascii s'
  end.

(** [s.lower()] and [s.upper()] on an ASCII text: the letters A to Z and
    a to z change case and every other character stays.  Python maps a
    character outside ASCII by the Unicode tables (the upper case of a
    sharp s is two letters); the model leaves it as it is, so the two
    functions are Python's where [isascii] holds. *)
Definition lower (s : string) : string := map_chars lower_char s.

Definition upper (s : string) : string := map_chars upper_char s.

(** [s.startswith(p)] *)
Fixpoint startswith (p s : string) : bool :=
  match p, s with
  | EmptyString, _ => true
  | String _ _, EmptyString => false
  | String a p', String b s' => Ascii.eqb a b && startswith p' s'
  end.

(** [needle in s] *)
Fixpoint contains (needle s : string) : bool :=
  startswith needle s ||
  match s with
  | EmptyString => false
  | String _ s' => contains needle s'
  end.

(** [s.endswith(suffix)] *)
Fixpoint endswith (suffix s : string) : bool :=
  String.eqb suffix s ||
  match s with
  | EmptyString => false
  | String _ s' => endswith suffix s'
  end.

(** [s.split(sep)] for a non-empty [sep]: the text is scanned from the
    left; at a position where [sep] starts, the part read so far is
    emitted and the next [length sep] characters are skipped ([skip]
    counts the characters of the separator still to pass over). *)
Fixpoint split_go (sep : string) (skip : nat) (cur : string) (s : string)
  : list string :=
  match s with
  | EmptyString => [cur]
  | String c s' =>
      match skip with
      | S k => split_go sep k cur s'
      | O =>
          if startswith sep s
          then cur :: split_go sep (String.length sep - 1) EmptyString s'
          else split_go sep 0 (cur ++ String c EmptyString) s'
      end
  end.

Definition split (sep s : string) : list string :=
  split_go sep 0 EmptyString s.

(** [s.replace(c, '')] for a one-character [c]. *)
Fixpoint remove_char (c : ascii) (s : string) : string :=
  match s with
  | EmptyString => EmptyString
  | String a s' =>
      if Ascii.eqb a c then remove_char c s' else String a (remove_char c s')
  end.

(** [c.isdigit()] *)
Definition isdigit (c : ascii) : bool :=
  let n := nat_of_ascii c in (48 <=? n)%nat && (n <=? 57)%nat.

(** [any(pred(c) for c in s)] *)
Fixpoint any_char (pred : ascii -> bool) (s : string) : bool :=
  match s with
  | EmptyString => false
  | String c s' => pred c || any_char pred s'
  end.

(** [x in (a, b, ...)] for a tuple of strings. *)
Definition in_tuple (x : string) (t : list string) : bool :=
  existsb (String.eqb x) t.

End PyStr.

(* ================================================================== *)
(** * Benchmark keys *)
(* ================================================================== *)

Module Key.
Import PyStr.

(** [_parse_benchmark_key(name)]; [None] is Python's [None]. *)
Definition _parse_benchmark_key (name : string)
  : option (string * string * string) :=
  let name_lower := lower name in
  if contains "really_cold" name_lower then
    let parts := split "_really_cold_" name_lower in
    match parts with
    | [size; compression] =>
        if in_tuple compression ["raw"; "gz"; "bgz"]
        then Some (size, "really_cold", compression)
        else None
    | _ => None
    end
  else
    let parts := split "_" name_lower in
    let three :=
      match parts with
      | size :: p1 :: p2 :: _ =>
          let cache_type := if in_tuple p1 ["hot"; "cold"] then Some p1 else None in
          let compression :=
            if in_tuple p2 ["raw"; "gz"; "bgz"] then Some p2 else None in
          match cache_type, compression with
          | Some ca, Some co => Some (size, ca, co)
          | _, _ => None
          end
      | _ => None
      end in
    match three with
    | Some r => Some r
    | None =>
        match parts with
        | [p0; p1] =>
            if in_tuple p0 ["hot"; "cold"] && in_tuple p1 ["raw"; "gz"; "bgz"]
            then Some ("default", p0, p1)
            else None
        | _ => None
        end
    end.

End Key.

(* ================================================================== *)
(** * Exceptions *)
(* ================================================================== *)

Module Py.

(** The exceptions (all subclasses of [Exception]) that the modelled
    code can meet. *)
Inductive exn : Type :=
| JSONDecodeError (msg : string)
| KeyError (key : string)
| TypeError (msg : string)
| AttributeError (msg : string)
| ValueError (msg : string)
| OSError (msg : string)
| OverflowError (msg : string)
| ZeroDivisionError.

Inductive res (A : Type) : Type :=
| Ok (a : A)
| Raise (e : exn).
Arguments Ok {A} a.
Arguments Raise {A} e.

Definition bind {A B : Type} (m : res A) (k : A -> res B) : res B :=
  match m with
  | Ok a => k a
  | Raise e => Raise e
  end.

(** [try: body  except Exception: return None] around a body that
    returns an optional value. *)
Definition try_except_None {A : Type} (body : res (option A)) : res (option A) :=
  match body with
  | Ok v => Ok v
  | Raise _ => Ok None
  end.

End Py.

Notation "x <- m ;; k" := (Py.bind m (fun x => k))
  (at level 61, m at next level, right associativity).

(* ================================================================== *)
(** * Python floats *)
(* ================================================================== *)

Module PyFloat.
Import Py PyStr.

Inductive pyfloat : Type :=
| Fin (q : Q)
| PInf
| NInf
| NaN.

Definition of_Z (z : Z) : pyfloat := Fin (inject_Z z).

Definition Qltb (a b : Q) : bool := negb (Qle_bool b a).

(** [x < y] *)
Definition ltb (x y : pyfloat) : bool :=
  match x, y with
  | NaN, _ | _, NaN => false
  | Fin a, Fin b => Qltb a b
  | NInf, NInf => false
  | NInf, _ => true
  | _, NInf => false
  | PInf, _ => false
  | Fin _, PInf => true
  end.

(** [x > y] *)
Definition gtb (x y : pyfloat) : bool := ltb y x.

(** The order in which polars sorts a float column: that of the
    numbers, with NaN after all of them. *)
Definition polars_ltb (x y : pyfloat) : bool :=
  match x, y with
  | NaN, _ => false
  | _, NaN => true
  | _, _ => ltb x y
  end.

(** [x == y] *)
Definition eqb (x y : pyfloat) : bool :=
  match x, y with
  | Fin a, Fin b => Qeq_bool a b
  | PInf, PInf => true
  | NInf, NInf => true
  | _, _ => false
  end.

Definition is_zero (x : pyfloat) : bool := eqb x (Fin 0).

Definition is_finite (x : pyfloat) : bool :=
  match x with Fin _ => true | _ => false end.

Definition neg (x : pyfloat) : pyfloat :=
  match x with
  | Fin q => Fin (- q)
  | PInf => NInf
  | NInf => PInf
  | NaN => NaN
  end.

Definition signed_inf (negative : bool) : pyfloat :=
  if negative then NInf else PInf.

(** ** The range of a double

    Within the range of a double the arithmetic is that of the
    rationals: the rounding of a result to 53 bits is left out.  At the
    two ends of the range the result is the one of IEEE 754 arithmetic
    with rounding to nearest: a magnitude of at least
    [2^1024 - 2^970] (the largest double plus half a unit in its last
    place) gives an infinity, a magnitude of at most [2^-1075] (half the
    smallest positive double) gives zero. *)
Definition overflow_bound : Q := inject_Z (2 ^ 1024 - 2 ^ 970).

Definition underflow_bound : Q := 1 # (2 ^ 1075).

Definition overflows (q : Q) : bool := Qle_bool overflow_bound (Qabs q).

Definition underflows (q : Q) : bool := Qle_bool (Qabs q) underflow_bound.

(** The float an operation returns for the exact result [q]. *)
Definition rounded (q : Q) : pyfloat :=
  if overflows q then signed_inf (Qltb q 0)
  else if underflows q then Fin 0
  else Fin q.

(** [x * y] *)
Definition mul (x y : pyfloat) : pyfloat :=
  match x, y with
  | NaN, _ | _, NaN => NaN
  | Fin a, Fin b => rounded (a * b)
  | Fin a, PInf | PInf, Fin a =>
      if Qeq_bool a 0 then NaN else signed_inf (Qltb a 0)
  | Fin a, NInf | NInf, Fin a =>
      if Qeq_bool a 0 then NaN else signed_inf (negb (Qltb a 0))
  | PInf, PInf | NInf, NInf => PInf
  | PInf, NInf | NInf, PInf => NInf
  end.

(** [x / y]: Python raises on a zero divisor whatever the dividend. *)
Definition div (x y : pyfloat) : res pyfloat :=
  if is_zero y then Raise ZeroDivisionError
  else Ok
    match x, y with
    | NaN, _ | _, NaN => NaN
    | Fin a, Fin b => rounded (a / b)
    | Fin _, (PInf | NInf) => Fin 0
    | PInf, Fin b => signed_inf (Qltb b 0)
    | NInf, Fin b => signed_inf (negb (Qltb b 0))
    | (PInf | NInf), (PInf | NInf) => NaN
    end.

(** [x ** 2]: the power of a float raises [OverflowError] when its
    result is out of range; a result too small for a double is zero. *)
Definition pow2 (x : pyfloat) : res pyfloat :=
  match x with
  | Fin q =>
      if overflows (q * q)
      then Raise (OverflowError "(34, 'Numerical result out of range')")
      else Ok (rounded (q * q))
  | PInf | NInf => Ok PInf
  | NaN => Ok NaN
  end.

(** [a / b] on two integers, [b] not zero: the quotient as a float, or
    [OverflowError] when it is too large for one. *)
Definition int_truediv (a b : Z) : res pyfloat :=
  if overflows (inject_Z a / inject_Z b)
  then Raise (OverflowError "integer division result too large for a float")
  else Ok (rounded (inject_Z a / inject_Z b)).

(** ** [float(s)] on a string

    The accepted grammar is CPython's: surrounding white space is
    dropped, an underscore may stand between two digits, and the rest is
    an optional sign followed by [inf], [infinity] or [nan] in any case,
    or by a decimal numeral with an optional exponent. *)

Definition isspace (c : ascii) : bool :=
  let n := nat_of_ascii c in
  (n =? 32)%nat || ((9 <=? n)%nat && (n <=? 13)%nat).

Fixpoint lstrip (s : string) : string :=
  match s with
  | String c s' => if isspace c then lstrip s' else s
  | EmptyString => s
  end.

Fixpoint rstrip (s : string) : string :=
  match s with
  | EmptyString => EmptyString
  | String c s' =>
      match rstrip s' with
      | EmptyString => if isspace c then EmptyString else String c EmptyString
      | r => String c r
      end
  end.

Definition strip (s : string) : string := rstrip (lstrip s).

(** Underscores: each must have a digit on both sides; they are then
    removed.  [prev_digit] tells whether the previous character was a
    digit, [prev_us] whether it was an underscore. *)
Fixpoint drop_underscores (prev_digit prev_us : bool) (s : string)
  : option string :=
  match s with
  | EmptyString => if prev_us then None else Some EmptyString
  | String c s' =>
      if Ascii.eqb c "_"
      then if prev_digit then drop_underscores false true s' else None
      else if prev_us && negb (isdigit c) then None
      else match drop_underscores (isdigit c) false s' with
           | Some r => Some (String c r)
           | None => None
           end
  end.

Definition digit_val (c : ascii) : Z := Z.of_nat (nat_of_ascii c - 48).

(** A maximal run of digits: its value on top of [acc], the number of
    digits read on top of [n], and the rest of the text. *)
Fixpoint read_digits (s : string) (acc : Z) (n : nat) : Z * nat * string :=
  match s with
  | String c s' =>
      if isdigit c then read_digits s' (10 * acc + digit_val c)%Z (S n)
      else (acc, n, s)
  | EmptyString => (acc, n, s)
  end.

Definition read_sign (s : string) : bool * string :=
  match s with
  | String c s' =>
      if Ascii.eqb c "-" then (true, s')
      else if Ascii.eqb c "+" then (false, s')
      else (false, s)
  | EmptyString => (false, s)
  end.

Definition parse_exponent (s : string) : option Z :=
  let (negative, r) := read_sign s in
  let '(e, n, rest) := read_digits r 0%Z 0%nat in
  match n, rest with
  | S _, EmptyString => Some (if negative then (- e)%Z else e)
  | _, _ => None
  end.

Definition parse_decimal (s : string) : option Q :=
  let '(ip, ni, r1) := read_digits s 0%Z 0%nat in
  let '(m, nf, r2) :=
    match r1 with
    | String c r =>
        if Ascii.eqb c "." then read_digits r ip 0%nat else (ip, 0%nat, r1)
    | EmptyString => (ip, 0%nat, r1)
    end in
  if (ni + nf =? 0)%nat then None
  else
    let mant : Q := Qmake m (Z.to_pos (10 ^ Z.of_nat nf)) in
    match r2 with
    | EmptyString => Some mant
    | String c r3 =>
        if Ascii.eqb c "e" || Ascii.eqb c "E"
        then match parse_exponent r3 with
             | Some e => Some (mant * Qpower (10 # 1) e)
             | None => None
             end
        else None
    end.

(** [float(s)]; [None] is the [ValueError] of a malformed literal. *)
Definition py_float (s : string) : option pyfloat :=
  match drop_underscores false false (strip s) with
  | None => None
  | Some t =>
      let (negative, r) := read_sign t in
      let w := lower r in
      if String.eqb w "inf" || String.eqb w "infinity"
      then Some (signed_inf negative)
      else if String.eqb w "nan" then Some NaN
      else match parse_decimal r with
           | Some q => Some (rounded (if negative then - q else q))
           | None => None
           end
  end.

End PyFloat.

(* ================================================================== *)
(** * Sorting, sets and dictionaries *)
(* ================================================================== *)

Module PyData.
Import PyFloat.

Section Sorting.
Context {A : Type}.

(** Insertion after the last element that is not greater: the sort
    built on it is stable, as Python's [sorted] is.  [lt x y] is
    Python's [x < y] on the sort keys. *)
Fixpoint insert_sorted (lt : A -> A -> bool) (x : A) (l : list A) : list A :=
  match l with
  | [] => [x]
  | y :: l' => if lt x y then x :: l else y :: insert_sorted lt x l'
  end.

(** The stable sort by [lt]. *)
Definition sort_with (lt : A -> A -> bool) (l : list A) : list A :=
  fold_left (fun acc x => insert_sorted lt x acc) l [].

(** ** [sorted] as CPython sorts a short list

    A list of fewer than 64 elements (here: every list) is one run:
    [count_run] finds how far the list is already in order from its
    start, non-descending or strictly descending (the latter is
    reversed), and [binarysort] inserts the remaining elements one by one
    at the place a binary search gives.  Only [x < y] is asked.  When
    [<] orders the keys the result is the stable sort; with a NaN among
    the keys it is whatever these steps leave. *)

(** The elements that continue a non-descending run after [prev], and
    the rest. *)
Fixpoint ascending_run (lt : A -> A -> bool) (prev : A) (l : list A)
  : list A * list A :=
  match l with
  | [] => ([], [])
  | x :: l' =>
      if lt x prev then ([], l)
      else let (run, rest) := ascending_run lt x l' in (x :: run, rest)
  end.

(** The elements that continue a strictly descending run after [prev],
    and the rest. *)
Fixpoint descending_run (lt : A -> A -> bool) (prev : A) (l : list A)
  : list A * list A :=
  match l with
  | [] => ([], [])
  | x :: l' =>
      if lt x prev
      then let (run, rest) := descending_run lt x l' in (x :: run, rest)
      else ([], l)
  end.

(** [count_run], with the reversal of a descending run: the first run
    in ascending order, and the rest of the list. *)
Definition count_run (lt : A -> A -> bool) (l : list A) : list A * list A :=
  match l with
  | [] => ([], [])
  | [x] => ([x], [])
  | x0 :: x1 :: l' =>
      if lt x1 x0
      then let (run, rest) := descending_run lt x1 l' in
           (rev (x0 :: x1 :: run), rest)
      else let (run, rest) := ascending_run lt x1 l' in
           (x0 :: x1 :: run, rest)
  end.

(** The binary search of [binarysort] for the place of [pivot] in [a],
    between the indices [l] and [r]. *)
Fixpoint bisect (lt : A -> A -> bool) (pivot : A) (a : list A)
         (l r fuel : nat) : nat :=
  match fuel with
  | O => l
  | S fuel' =>
      if (l <? r)%nat then
        let p := (l + (r - l) / 2)%nat in
        match nth_error a p with
        | Some y =>
            if lt pivot y then bisect lt pivot a l p fuel'
            else bisect lt pivot a (S p) r fuel'
        | None => l
        end
      else l
  end.

(** One step of [binarysort]: [pivot] is put at its place in [a]. *)
Definition binary_insert (lt : A -> A -> bool) (a : list A) (pivot : A)
  : list A :=
  let k := bisect lt pivot a 0 (List.length a) (List.length a) in
  (firstn k a ++ pivot :: skipn k a)%list.

(** [sorted(l)] under the comparison [lt]. *)
Definition py_sorted (lt : A -> A -> bool) (l : list A) : list A :=
  let (run, rest) := count_run lt l in
  fold_left (binary_insert lt) rest run.

(** [sorted(l, key=key)] with numeric keys. *)
Definition sorted_by (key : A -> pyfloat) (l : list A) : list A :=
  py_sorted (fun x y => ltb (key x) (key y)) l.

(** The order a sort by [lt] establishes between an element [x] and an
    element [y] that stands later: [y] is not less than [x]. *)
Definition not_after (lt : A -> A -> bool) (x y : A) : Prop := lt y x = false.

(** Elements in the order of their first occurrence, without repeats. *)
Fixpoint dedup (eqb : A -> A -> bool) (l : list A) : list A :=
  match l with
  | [] => []
  | x :: l' => x :: filter (fun y => negb (eqb x y)) (dedup eqb l')
  end.
End Sorting.

(** [sorted(l)] on strings. *)
Definition sorted_str (l : list string) : list string :=
  py_sorted String.ltb l.

(** [set(l)] on strings.  CPython iterates a set in hash order; the
    model iterates it in the order of first insertion.  Where the set is
    sorted afterwards only the relative order of elements with equal sort
    keys depends on this choice. *)
Definition py_set (l : list string) : list string := dedup String.eqb l.

Section Dict.
Context {K V : Type}.
Variable keq : K -> K -> bool.

(** [d.get(k)] *)
Fixpoint dict_get (d : list (K * V)) (k : K) : option V :=
  match d with
  | [] => None
  | (k', v) :: d' => if keq k k' then Some v else dict_get d' k
  end.

(** [d[k] = v]: a present key keeps its position. *)
Fixpoint dict_set (d : list (K * V)) (k : K) (v : V) : list (K * V) :=
  match d with
  | [] => [(k, v)]
  | (k', v') :: d' =>
      if keq k k' then (k', v) :: d' else (k', v') :: dict_set d' k v
  end.

(** [k in d] *)
Definition dict_mem (d : list (K * V)) (k : K) : bool :=
  match dict_get d k with Some _ => true | None => false end.
End Dict.

End PyData.

(* ================================================================== *)
(** * File-size resolver *)
(* ================================================================== *)

Module Resolver.
Import Py PyStr.

(** The file system as the resolver sees it: [Path.exists()] and
    [Path.stat().st_size] on a path, each of which may raise. *)
Record FS : Type := {
  fs_exists : string -> res bool;
  fs_size : string -> res Z
}.

(** ** [pathlib] on POSIX paths

    The components of a path are the non-empty pieces between slashes
    other than [.]; a leading slash adds the root as one more part. *)
Definition path_components (p : string) : list string :=
  filter (fun c => negb (String.eqb c "") && negb (String.eqb c "."))
         (split "/" p).

(** [len(Path(p).parts)] *)
Definition parts_len (p : string) : nat :=
  (if startswith "/" p then 1 else 0)%nat + List.length (path_components p).

(** [Path(p).parent.name] *)
Definition parent_name (p : string) : string :=
  match rev (path_components p) with
  | _ :: d :: _ => d
  | _ => ""
  end.

(** The test size read off the directory structure. *)
Definition test_size_of (json_path : string) : option string :=
  if (2 <=? parts_len json_path)%nat then
    let parent_dir := parent_name json_path in
    if endswith "m" parent_dir && any_char isdigit parent_dir
    then Some parent_dir
    else None
  else None.

(** [data_dir / f"{test_size}{file_suffix}"] with [data_dir = Path('test-data')] *)
Definition fixture_path (test_size file_suffix : string) : string :=
  "test-data/" ++ test_size ++ file_suffix.

(** The body of the [try] block of [get_file_size_bytes]. *)
Definition get_file_size_bytes_body (fs : FS) (json_path : string)
  : res (option Z) :=
  let json_path_str := json_path in
  if contains "really_cold_10mb" json_path_str then Ok (Some (10 * 1024 ^ 2)%Z)
  else if contains "really_cold_100mb" json_path_str then Ok (Some (100 * 1024 ^ 2)%Z)
  else if contains "really_cold_1gb" json_path_str then Ok (Some (1 * 1024 ^ 3)%Z)
  else if contains "really_cold_4gb" json_path_str then Ok (Some (4 * 1024 ^ 3)%Z)
  else
    let test_size := test_size_of json_path in
    let suffix :=
      if contains "raw" json_path_str
         || endswith "hot_raw.json" json_path_str
         || endswith "cold_raw.json" json_path_str
      then Some ".fastq"
      else if contains "bgz" json_path_str then Some ".fastq_bgzipped.gz"
      else if contains "gz" json_path_str then Some ".fastq.gz"
      else None in
    match suffix with
    | None => Ok None
    | Some file_suffix =>
        match test_size with
        | Some ts =>
            dir_ok <- fs_exists fs "test-data" ;;
            if dir_ok then
              let file_path := fixture_path ts file_suffix in
              there <- fs_exists fs file_path ;;
              if there then
                n <- fs_size fs file_path ;; Ok (Some n)
              else Ok None
            else Ok None
        | None => Ok None
        end
    end.

(** [get_file_size_bytes(json_path)]: the body under
    [try ... except Exception: return None]. *)
Definition get_file_size_bytes (fs : FS) (json_path : string)
  : res (option Z) :=
  try_except_None (get_file_size_bytes_body fs json_path).

(** Number formatting of the size description: [str(n)] on an integer
    and the [.1f] and [.2f] float formats. *)
Record Fmt : Type := {
  fmt_int : Z -> string;
  fmt_1f : Q -> string;
  fmt_2f : Q -> string
}.

Definition get_file_size_from_results_body (fs : FS) (fmt : Fmt)
           (json_path : string) : res (option string) :=
  let json_path_str := json_path in
  if contains "really_cold_10mb" json_path_str then Ok (Some "~10 MB, raw")
  else if contains "really_cold_100mb" json_path_str then Ok (Some "~100 MB, raw")
  else if contains "really_cold_1gb" json_path_str then Ok (Some "~1 GB, raw")
  else if contains "really_cold_4gb" json_path_str then Ok (Some "~4 GB, raw")
  else
    let test_size := test_size_of json_path in
    let chosen :=
      if contains "raw" json_path_str
         || endswith "hot_raw.json" json_path_str
         || endswith "cold_raw.json" json_path_str
      then Some (".fastq", "raw")
      else if contains "bgz" json_path_str then Some (".fastq_bgzipped.gz", "bgzip")
      else if contains "gz" json_path_str then Some (".fastq.gz", "gzip")
      else None in
    match chosen with
    | None => Ok None
    | Some (file_suffix, compression_type) =>
        match test_size with
        | Some ts =>
            dir_ok <- fs_exists fs "test-data" ;;
            if dir_ok then
              let file_path := fixture_path ts file_suffix in
              there <- fs_exists fs file_path ;;
              if there then
                size_bytes <- fs_size fs file_path ;;
                let size_str : string :=
                  if (size_bytes <? 1024)%Z
                  then (fmt_int fmt size_bytes ++ " B")%string
                  else if (size_bytes <? 1024 ^ 2)%Z
                  then (fmt_1f fmt (inject_Z size_bytes / inject_Z 1024) ++ " KB")%string
                  else if (size_bytes <? 1024 ^ 3)%Z
                  then (fmt_1f fmt (inject_Z size_bytes / inject_Z (1024 ^ 2)) ++ " MB")%string
                  else (fmt_2f fmt (inject_Z size_bytes / inject_Z (1024 ^ 3)) ++ " GB")%string in
                Ok (Some (size_str ++ ", " ++ compression_type)%string)
              else Ok None
            else Ok None
        | None => Ok None
        end
    end.

(** [get_file_size_from_results(json_path)] *)
Definition get_file_size_from_results (fs : FS) (fmt : Fmt)
           (json_path : string) : res (option string) :=
  try_except_None (get_file_size_from_results_body fs fmt json_path).

End Resolver.

(* ================================================================== *)
(** * Result loader *)
(* ================================================================== *)

Module Loader.
Import Py PyStr PyFloat PyData Resolver.

(** What [json.load] returns: a number written without fraction and
    exponent is an [int], any other number a [float]; an object is the
    list of its items. *)
#[local] Unset Elimination Schemes.
Inductive json : Type :=
| JNull
| JBool (b : bool)
| JInt (z : Z)
| JFloat (x : pyfloat)
| JStr (s : string)
| JArr (items : list json)
| JObj (fields : list (string * json)).
#[local] Set Elimination Schemes.

(** [d.get(k)] on a parsed object. *)
Definition get (d : list (string * json)) (k : string) : option json :=
  dict_get String.eqb d k.

(** [d.get(k, default)] *)
Definition get_default (d : list (string * json)) (k : string) (default : json)
  : json :=
  match get d k with Some v => v | None => default end.

(** Truth value of a Python object. *)
Definition truthy (v : json) : bool :=
  match v with
  | JNull => false
  | JBool b => b
  | JInt z => negb (z =? 0)%Z
  | JFloat x => negb (is_zero x)
  | JStr s => negb (String.eqb s "")
  | JArr l => match l with [] => false | _ => true end
  | JObj d => match d with [] => false | _ => true end
  end.

Fixpoint chars_of (s : string) : list json :=
  match s with
  | EmptyString => []
  | String c s' => JStr (String c EmptyString) :: chars_of s'
  end.

(** [for x in v]: the elements of a list, the keys of a dict, the
    characters of a string; anything else is not iterable. *)
Definition iterate (v : json) : res (list json) :=
  match v with
  | JArr l => Ok l
  | JObj d => Ok (map (fun kv => JStr (fst kv)) d)
  | JStr s => Ok (chars_of s)
  | _ => Raise (TypeError "object is not iterable")
  end.

(** [code != 0] *)
Definition ne_zero (code : json) : bool :=
  match code with
  | JInt z => negb (z =? 0)%Z
  | JFloat x => negb (is_zero x)
  | JBool b => b
  | _ => true
  end.

(** [v[k]] for a string key. *)
Definition subscript (v : json) (k : string) : res json :=
  match v with
  | JObj d => match get d k with
              | Some x => Ok x
              | None => Raise (KeyError k)
              end
  | _ => Raise (TypeError "indices must be integers or object is not subscriptable")
  end.

(** One element of [records]. *)
Record record : Type := {
  command : json;
  mean : json;
  stddev : json;
  median : json;
  min : json;
  max : json;
  times : json
}.

Inductive dtype : Type := Utf8 | Float64 | ListOf (t : dtype).

(** The two ways the loader builds a table: [pl.DataFrame(schema=...)]
    and [pl.DataFrame(records)]. *)
Inductive DataFrame : Type :=
| EmptyWithSchema (schema : list (string * dtype))
| FromRecords (records : list record).

(** [len(df)] *)
Definition len (df : DataFrame) : nat :=
  match df with
  | EmptyWithSchema _ => 0
  | FromRecords rs => List.length rs
  end.

Definition rows (df : DataFrame) : list record :=
  match df with
  | EmptyWithSchema _ => []
  | FromRecords rs => rs
  end.

Definition metrics_schema : list (string * dtype) :=
  [("command", Utf8); ("mean", Float64); ("stddev", Float64);
   ("median", Float64); ("min", Float64); ("max", Float64);
   ("times", ListOf Float64)].

(** The lines the loader prints, with the values they are formatted from. *)
Inductive log_entry : Type :=
| SkippingInvalidJson (json_path : string) (error : string)
| CommandFailed (command : json) (failed_runs total_runs : nat)
| NoTimingData (command : json)
| NoSuccessfulResults (json_path : string).

(** [load_hyperfine_results(json_path)]: [read_json] stands for opening
    the file and running [json.load] on it. *)
Definition load_hyperfine_results (read_json : string -> res json)
           (json_path : string) : res json :=
  data <- read_json json_path ;; Ok data.

(** [exit_codes and any(code != 0 for code in exit_codes)]: when it
    holds, the number of failed runs and the number of runs. *)
Definition failed_runs_of (exit_codes : json) : res (option (nat * nat)) :=
  if truthy exit_codes then
    codes <- iterate exit_codes ;;
    if existsb ne_zero codes
    then Ok (Some (List.length (filter ne_zero codes), List.length codes))
    else Ok None
  else Ok None.

(** The [record] dictionary built from an entry [d] whose command is
    [c] and whose mean is [m]. *)
Definition make_record (d : list (string * json)) (c m : json) : record :=
  {| command := c;
     mean := m;
     stddev := get_default d "stddev" (JFloat (Fin 0));
     median := get_default d "median" m;
     min := get_default d "min" m;
     max := get_default d "max" m;
     times := get_default d "times" (JArr [m]) |}.

(** ** [pl.DataFrame(records)]

    polars gives every column one type and builds the columns from the
    values of the records.  Two cases are modelled.  When every value
    already has the type of its column in the metrics schema (a string
    command, float timings, a non-empty list of floats as run times) the
    table holds the records as they are.  When the records are typed so
    except that some list of run times starts with an [int] and holds a
    [float] among its first values, the construction raises [TypeError].
    For any other table the conversions are polars' own: they are the
    parameter [polars], which gives the exception raised or what becomes
    of each record. *)

Definition is_str (v : json) : bool :=
  match v with JStr _ => true | _ => false end.

Definition is_float (v : json) : bool :=
  match v with JFloat _ => true | _ => false end.

Definition is_number (v : json) : bool :=
  match v with JInt _ | JFloat _ => true | _ => false end.

Definition typed_scalars (r : record) : bool :=
  is_str (command r) && is_float (mean r) && is_float (stddev r)
  && is_float (median r) && is_float (min r) && is_float (max r).

Definition typed_record (r : record) : bool :=
  typed_scalars r
  && match times r with
     | JArr (t :: ts) => forallb is_float (t :: ts)
     | _ => false
     end.

(** The number of values polars reads to type a list. *)
Definition list_infer_length : nat := 25.

Definition int_then_float (r : record) : bool :=
  typed_scalars r
  && match times r with
     | JArr (JInt _ :: ts) =>
         forallb is_number ts
         && existsb is_float (firstn (list_infer_length - 1) ts)
     | _ => false
     end.

Definition frame_of_records (polars : list record -> res (record -> record))
           (records : list record) : res DataFrame :=
  if forallb typed_record records then Ok (FromRecords records)
  else if forallb (fun r => typed_record r || int_then_float r) records
  then Raise (TypeError "unexpected value while building Series")
  else
    convert <- polars records ;;
    Ok (FromRecords (map convert records)).

(** The loop over [data['results']]: the records kept so far, the lines
    printed so far, and the outcome. *)
Fixpoint collect_records (results : list json) (records : list record)
         (log : list log_entry) : res (list record) * list log_entry :=
  match results with
  | [] => (Ok records, log)
  | result :: rest =>
      match result with
      | JObj d =>
          let exit_codes := get_default d "exit_codes" (JArr []) in
          match failed_runs_of exit_codes with
          | Raise e => (Raise e, log)
          | Ok (Some (failed_runs, total)) =>
              collect_records rest records
                (log ++ [CommandFailed (get_default d "command" (JStr "unknown"))
                                       failed_runs total])
          | Ok None =>
              match get d "mean" with
              | None | Some JNull =>
                  collect_records rest records
                    (log ++ [NoTimingData (get_default d "command" (JStr "unknown"))])
              | Some m =>
                  match get d "command" with
                  | None => (Raise (KeyError "command"), log)
                  | Some c =>
                      collect_records rest (records ++ [make_record d c m]) log
                  end
              end
          end
      | _ => (Raise (AttributeError "object has no attribute 'get'"), log)
      end
  end.

(** [parse_benchmark_data(json_path)]: the outcome and the lines printed. *)
Definition parse_benchmark_data (read_json : string -> res json)
           (polars : list record -> res (record -> record))
           (fs : FS) (fmt : Fmt) (json_path : string)
  : res DataFrame * list log_entry :=
  match load_hyperfine_results read_json json_path with
  | Raise (JSONDecodeError e) =>
      (Ok (EmptyWithSchema metrics_schema), [SkippingInvalidJson json_path e])
  | Raise e => (Raise e, [])
  | Ok data =>
      let file_size := get_file_size_from_results fs fmt json_path in
      match (v <- subscript data "results" ;; iterate v) with
      | Raise e => (Raise e, [])
      | Ok results =>
          match collect_records results [] [] with
          | (Raise e, log) => (Raise e, log)
          | (Ok [], log) =>
              (Ok (EmptyWithSchema metrics_schema),
               log ++ [NoSuccessfulResults json_path])
          | (Ok records, log) => (frame_of_records polars records, log)
          end
      end
  end.

End Loader.

(* ================================================================== *)
(** * Aggregation and derived metrics *)
(* ================================================================== *)

Module Engine.
Import Py PyStr Key PyFloat PyData Resolver.

(** One row of a loaded table.  The columns are typed: [command] is a
    string, the timing columns are floats, and [stddev] may be null. *)
Record Row : Type := {
  command : string;
  mean : pyfloat;
  stddev : option pyfloat;
  median : pyfloat;
  min : pyfloat;
  max : pyfloat;
  times : list pyfloat
}.

(** A table is the list of its rows; [all_data] and [data_dict] map a
    benchmark name to its table. *)
Definition Table : Type := list Row.
Definition DataDict : Type := list (string * Table).

(** [d[k]] on a [DataDict] for a key taken from [d.keys()]. *)
Definition table_of (d : DataDict) (k : string) : Table :=
  match dict_get String.eqb d k with Some df => df | None => [] end.

(** [row['stddev'] if row['stddev'] is not None else 0.0] *)
Definition stddev_or_zero (row : Row) : pyfloat :=
  match stddev row with Some s => s | None => Fin 0 end.

(** The sort key of sizes (a local function of [plot_mean_times]). *)
Definition size_sort_key (s : string) : pyfloat :=
  if String.eqb s "default" then Fin 0
  else match py_float (remove_char "M" (remove_char "m" s)) with
       | Some v => v
       | None => Fin 999
       end.

(** [{'raw': 0, 'gz': 1, 'bgz': 2}.get(x, 3)] *)
Definition compression_sort_key (x : string) : pyfloat :=
  if String.eqb x "raw" then Fin 0
  else if String.eqb x "gz" then Fin 1
  else if String.eqb x "bgz" then Fin 2
  else Fin 3.

(** ** The mean-time grid ([plot_mean_times] with [grid_layout=True]) *)

Definition cell_key : Type := (string * string)%type.

Definition cell_key_eqb (a b : cell_key) : bool :=
  String.eqb (fst a) (fst b) && String.eqb (snd a) (snd b).

(** [organized_data]: [(compression, size)] to [(name, df)]. *)
Definition Organized : Type := list (cell_key * (string * Table)).

Definition organize_step (cache_type : string) (organized_data : Organized)
           (item : string * Table) : Organized :=
  let (name, df) := item in
  if (List.length df =? 0)%nat then organized_data
  else match _parse_benchmark_key name with
       | None => organized_data
       | Some (size, cache, compression) =>
           if negb (String.eqb cache cache_type) then organized_data
           else dict_set cell_key_eqb organized_data (compression, size) (name, df)
       end.

Definition organize (data_dict : DataDict) (cache_type : string) : Organized :=
  fold_left (organize_step cache_type) data_dict [].

Record CombinedRow : Type := {
  c_command : string;
  c_mean : pyfloat;
  c_stddev : pyfloat;
  c_min : pyfloat;
  c_max : pyfloat;
  c_compression : string;
  c_size : string;
  c_benchmark_name : string
}.

Definition combined_rows_of (organized_data : Organized) : list CombinedRow :=
  flat_map
    (fun entry : cell_key * (string * Table) =>
       let '((comp, size), (name, df)) := entry in
       map (fun row =>
              {| c_command := command row;
                 c_mean := mean row;
                 c_stddev := stddev_or_zero row;
                 c_min := min row;
                 c_max := max row;
                 c_compression := comp;
                 c_size := size;
                 c_benchmark_name := name |}) df)
    organized_data.

(** [compression_labels.get(compression, compression)] *)
Definition compression_label (compression : string) : string :=
  if String.eqb compression "raw" then "Raw FASTQ"
  else if String.eqb compression "gz" then "Gzipped"
  else if String.eqb compression "bgz" then "Bgzipped"
  else compression.

(** One panel of the grid: a bar chart over the rows of the cell with
    the colour scale's domain, or the placeholder of an empty cell. *)
Inductive cell : Type :=
| BarChart (title : string) (cell_df : list CombinedRow)
           (color_domain : list string)
| NoData (title : string).

Record grid_row : Type := {
  row_label : string;
  row_charts : list cell
}.

Definition grid_cell (organized_data : Organized)
           (combined_df : list CombinedRow) (all_parsers : list string)
           (file_sizes : option (list (string * string)))
           (size compression : string) : cell :=
  match dict_get cell_key_eqb organized_data (compression, size) with
  | Some (name, _) =>
      let cell_df :=
        filter (fun r => String.eqb (c_compression r) compression
                         && String.eqb (c_size r) size) combined_df in
      let chart_title := compression_label compression in
      let chart_title :=
        match file_sizes with
        | Some fsz =>
            match dict_get String.eqb fsz name with
            | Some descr => (chart_title ++ " (" ++ descr ++ ")")%string
            | None => chart_title
            end
        | None => chart_title
        end in
      BarChart chart_title cell_df all_parsers
  | None => NoData (compression_label compression)
  end.

(** [sorted(set(comp for comp, _ in organized_data.keys()), key=...)] *)
Definition grid_compressions (organized_data : Organized) : list string :=
  sorted_by compression_sort_key
            (py_set (map (fun e => fst (fst e)) organized_data)).

(** [sorted(set(size for _, size in organized_data.keys()), key=size_sort_key)] *)
Definition grid_sizes (organized_data : Organized) : list string :=
  sorted_by size_sort_key (py_set (map (fun e => snd (fst e)) organized_data)).

(** [sorted(combined_df['command'].unique().to_list())] *)
Definition grid_parsers (combined_df : list CombinedRow) : list string :=
  sorted_str (dedup String.eqb (map c_command combined_df)).

(** The text of the row label. *)
Definition size_row_label (size : string) : string :=
  let size_display :=
    if negb (String.eqb size "default") then upper size else "Default" in
  (size_display ++ " reads")%string.

Definition plot_mean_times (data_dict : DataDict)
           (file_sizes : option (list (string * string)))
           (cache_type : string) : option (list grid_row) :=
  let organized_data := organize data_dict cache_type in
  match organized_data with
  | [] => None
  | _ =>
      let compressions := grid_compressions organized_data in
      let sizes := grid_sizes organized_data in
      let combined_rows := combined_rows_of organized_data in
      match combined_rows with
      | [] => None
      | _ =>
          let combined_df := combined_rows in
          let all_parsers := grid_parsers combined_df in
          let rows :=
            flat_map
              (fun size =>
                 let row_charts :=
                   map (grid_cell organized_data combined_df all_parsers
                                  file_sizes size) compressions in
                 match row_charts with
                 | [] => []
                 | _ => [{| row_label := size_row_label size;
                            row_charts := row_charts |}]
                 end)
              sizes in
          match rows with
          | [] => None
          | _ => Some rows
          end
      end
  end.

(** ** Keys of one cache state and file format *)

Definition key_matches (all_data : DataDict) (cache_type file_format k : string)
  : bool :=
  contains ("_" ++ cache_type ++ "_") k
  && endswith ("_" ++ file_format) k
  && negb (contains "really_cold" k)
  && (0 <? List.length (table_of all_data k))%nat.

Definition matching_keys (all_data : DataDict) (cache_type file_format : string)
  : list string :=
  filter (key_matches all_data cache_type file_format) (map fst all_data).

(** [extract_size_info(key)]: the numeric size (or [None]), the size
    label and its display form. *)
Definition extract_size_info (key : string)
  : option pyfloat * string * string :=
  let size_str := hd "" (split "_" key) in
  match py_float (remove_char "M" (remove_char "m" size_str)) with
  | Some size_value => (Some size_value, size_str, upper size_str)
  | None => (None, size_str, size_str)
  end.

(** [[size_map[s] for s in sorted(size_map.keys())]] *)
Definition size_order_of (size_map : list (pyfloat * string)) : list string :=
  map snd (py_sorted (fun a b => ltb (fst a) (fst b)) size_map).

(** ** Scaling across test sizes ([plot_test_size_scaling]) *)

Record ScalingRow : Type := {
  s_size_value : pyfloat;
  s_size_display : string;
  s_command : string;
  s_mean : pyfloat;
  s_stddev : pyfloat
}.

Fixpoint collect_scaling (all_data : DataDict) (keys : list string)
         (scaling_rows : list ScalingRow) (size_map : list (pyfloat * string))
  : list ScalingRow * list (pyfloat * string) :=
  match keys with
  | [] => (scaling_rows, size_map)
  | key :: rest =>
      let df := table_of all_data key in
      let '(size_value, size_key, size_display) := extract_size_info key in
      match size_value with
      | None => collect_scaling all_data rest scaling_rows size_map
      | Some v =>
          let size_map := dict_set eqb size_map v size_display in
          let new_rows :=
            map (fun row =>
                   {| s_size_value := v;
                      s_size_display := size_display;
                      s_command := command row;
                      s_mean := mean row;
                      s_stddev := stddev_or_zero row |}) df in
          collect_scaling all_data rest (scaling_rows ++ new_rows) size_map
      end
  end.

(** The lines of the printed scaling analysis, with the values they
    are formatted from. *)
Inductive report_line : Type :=
| ParserHeader (parser : string)
| SizeLine (size_display : string) (mean stddev : pyfloat)
| ScalingLine (time_ratio size_ratio : pyfloat)
| EfficiencyLine (scaling_efficiency : pyfloat).

(** [scaling_df.filter(pl.col('command') == parser).sort('size_value')]:
    polars sorts a float column in ascending order with NaN after every
    number.  It leaves the order of rows of equal size open; the model
    keeps them as they stand. *)
Definition parser_series (scaling_df : list ScalingRow) (parser : string)
  : list ScalingRow :=
  sort_with (fun a b => polars_ltb (s_size_value a) (s_size_value b))
            (filter (fun r => String.eqb (s_command r) parser) scaling_df).

(** The scaling ratio of one parser: time ratio, size ratio, efficiency. *)
Definition scaling_ratio (parser_data : list ScalingRow)
  : res (option (pyfloat * pyfloat * pyfloat)) :=
  match parser_data with
  | first :: _ :: _ =>
      let final := last parser_data first in
      let smallest_time := s_mean first in
      let largest_time := s_mean final in
      let smallest_size := s_size_value first in
      let largest_size := s_size_value final in
      if gtb smallest_time (Fin 0) && gtb smallest_size (Fin 0) then
        time_ratio <- div largest_time smallest_time ;;
        size_ratio <- div largest_size smallest_size ;;
        scaling_efficiency <-
          (if gtb size_ratio (Fin 0) then div time_ratio size_ratio
           else Ok (Fin 0)) ;;
        Ok (Some (time_ratio, size_ratio, scaling_efficiency))
      else Ok None
  | _ => Ok None
  end.

Definition analyse_parser (scaling_df : list ScalingRow) (parser : string)
  : res (list report_line) :=
  let parser_data := parser_series scaling_df parser in
  match parser_data with
  | [] => Ok []
  | _ =>
      let lines :=
        ParserHeader parser
        :: map (fun r => SizeLine (s_size_display r) (s_mean r) (s_stddev r))
               parser_data in
      ratio <- scaling_ratio parser_data ;;
      match ratio with
      | Some (time_ratio, size_ratio, scaling_efficiency) =>
          Ok (lines ++ [ScalingLine time_ratio size_ratio;
                        EfficiencyLine scaling_efficiency])
      | None => Ok lines
      end
  end.

Fixpoint analyse_parsers (scaling_df : list ScalingRow) (parsers : list string)
  : res (list report_line) :=
  match parsers with
  | [] => Ok []
  | parser :: rest =>
      here <- analyse_parser scaling_df parser ;;
      there <- analyse_parsers scaling_df rest ;;
      Ok (here ++ there)
  end.

Record ScalingChart : Type := {
  sc_rows : list ScalingRow;
  sc_size_order : list string;
  sc_color_domain : list string;
  sc_report : list report_line
}.

Definition plot_test_size_scaling (all_data : DataDict)
           (cache_type file_format : string) : res (option ScalingChart) :=
  match matching_keys all_data cache_type file_format with
  | [] => Ok None
  | keys =>
      let (scaling_rows, size_map) := collect_scaling all_data keys [] [] in
      match scaling_rows with
      | [] => Ok None
      | _ =>
          let scaling_df := scaling_rows in
          let size_order := size_order_of size_map in
          let all_parsers := sorted_str (py_set (map s_command scaling_df)) in
          let parsers := sorted_str (py_set (map s_command scaling_df)) in
          report <- analyse_parsers scaling_df parsers ;;
          Ok (Some {| sc_rows := scaling_df;
                      sc_size_order := size_order;
                      sc_color_domain := all_parsers;
                      sc_report := report |})
      end
  end.

(** ** Throughput ([plot_throughput]) *)

Record ThroughputRow : Type := {
  t_size_value : pyfloat;
  t_size_display : string;
  t_command : string;
  throughput_gbs : pyfloat;
  throughput_stddev : pyfloat;
  file_size_mb : pyfloat;
  mean_time : pyfloat
}.

(** The body of the loop over the rows of one table. *)
Definition throughput_of_row (file_size_bytes : Z) (file_size_gb : pyfloat)
           (size_value : pyfloat) (size_display : string) (row : Row)
  : res (option ThroughputRow) :=
  let mean_time := mean row in
  let stddev_time := stddev_or_zero row in
  if gtb mean_time (Fin 0) then
    throughput_gbs <- div file_size_gb mean_time ;;
    mean_time_squared <- pow2 mean_time ;;
    throughput_stddev <-
      div (mul file_size_gb stddev_time) mean_time_squared ;;
    file_size_mb <- int_truediv file_size_bytes (1024 ^ 2) ;;
    Ok (Some {| t_size_value := size_value;
                t_size_display := size_display;
                t_command := command row;
                throughput_gbs := throughput_gbs;
                throughput_stddev := throughput_stddev;
                file_size_mb := file_size_mb;
                mean_time := mean_time |})
  else Ok None.

Fixpoint throughput_of_rows (file_size_bytes : Z) (file_size_gb : pyfloat)
         (size_value : pyfloat) (size_display : string) (df : Table)
         (throughput_rows : list ThroughputRow) : res (list ThroughputRow) :=
  match df with
  | [] => Ok throughput_rows
  | row :: rest =>
      r <- throughput_of_row file_size_bytes file_size_gb size_value
                             size_display row ;;
      throughput_of_rows file_size_bytes file_size_gb size_value size_display
        rest (match r with
              | Some t => throughput_rows ++ [t]
              | None => throughput_rows
              end)
  end.

(** The loop over the matching keys. *)
Fixpoint collect_throughput (fs : FS) (all_data : DataDict)
         (available_results : list (string * string)) (keys : list string)
         (throughput_rows : list ThroughputRow)
         (size_map : list (pyfloat * string))
  : res (list ThroughputRow * list (pyfloat * string)) :=
  match keys with
  | [] => Ok (throughput_rows, size_map)
  | key :: rest =>
      let df := table_of all_data key in
      match dict_get String.eqb available_results key with
      | None =>
          collect_throughput fs all_data available_results rest
                             throughput_rows size_map
      | Some json_path =>
          file_size_bytes <- get_file_size_bytes fs json_path ;;
          match file_size_bytes with
          | None =>
              collect_throughput fs all_data available_results rest
                                 throughput_rows size_map
          | Some bytes =>
              if (bytes =? 0)%Z then
                collect_throughput fs all_data available_results rest
                                   throughput_rows size_map
              else
                let '(size_value, size_key, size_display) :=
                  extract_size_info key in
                match size_value with
                | None =>
                    collect_throughput fs all_data available_results rest
                                       throughput_rows size_map
                | Some v =>
                    let size_map := dict_set eqb size_map v size_display in
                    file_size_gb <- int_truediv bytes (1024 ^ 3) ;;
                    rows <- throughput_of_rows bytes file_size_gb v size_display
                                               df throughput_rows ;;
                    collect_throughput fs all_data available_results rest
                                       rows size_map
                end
          end
      end
  end.

Record ThroughputChart : Type := {
  tc_rows : list ThroughputRow;
  tc_size_order : list string;
  tc_color_domain : list string
}.

(** [plot_throughput]: the table the chart is drawn from.  The printed
    per-parser summary is not modelled. *)
Definition plot_throughput (fs : FS) (all_data : DataDict)
           (available_results : list (string * string))
           (cache_type file_format : string) : res (option ThroughputChart) :=
  match matching_keys all_data cache_type file_format with
  | [] => Ok None
  | keys =>
      collected <- collect_throughput fs all_data available_results keys [] [] ;;
      let (throughput_rows, size_map) :=
        (collected : list ThroughputRow * list (pyfloat * string)) in
      match throughput_rows with
      | [] => Ok None
      | _ =>
          let throughput_df := throughput_rows in
          Ok (Some {| tc_rows := throughput_df;
                      tc_size_order := size_order_of size_map;
                      tc_color_domain :=
                        sorted_str (py_set (map t_command throughput_df)) |})
      end
  end.

End Engine.

(* ================================================================== *)
(** * The specification's reading of the loader and the resolver *)
(* ================================================================== *)

Module LoaderSpec.
Import Py PyFloat PyData Loader.

(** An entry of a well-formed results document: an object whose
    [command] is a string, whose [mean] is absent, null or a number and
    whose [exit_codes], when present, is a list of numbers. *)
Definition well_formed_entry (e : json) : bool :=
  match e with
  | JObj d =>
      match get d "command" with Some (JStr _) => true | _ => false end
      && match get d "mean" with
         | None | Some JNull | Some (JInt _) | Some (JFloat _) => true
         | _ => false
         end
      && match get d "exit_codes" with
         | None => true
         | Some (JArr codes) => forallb is_number codes
         | _ => false
         end
  | _ => false
  end.

Definition is_zero_code (v : json) : bool :=
  match v with
  | JInt z => (z =? 0)%Z
  | JFloat x => is_zero x
  | _ => false
  end.

(** The timing values of the entry are written as floats: its [mean]
    when it has one, and [stddev], [median], [min], [max] and the run
    times (a non-empty list) when they are present. *)
Definition float_or_absent (v : option json) : bool :=
  match v with None | Some (JFloat _) => true | _ => false end.

Definition float_typed_entry (e : json) : bool :=
  match e with
  | JObj d =>
      match get d "mean" with
      | None | Some JNull | Some (JFloat _) => true
      | _ => false
      end
      && float_or_absent (get d "stddev")
      && float_or_absent (get d "median")
      && float_or_absent (get d "min")
      && float_or_absent (get d "max")
      && match get d "times" with
         | None => true
         | Some (JArr (t :: ts)) => forallb is_float (t :: ts)
         | _ => false
         end
  | _ => false
  end.

(** "Mean is present and non-null, and the exit codes (when present) are
    all zero." *)
Definition kept (e : json) : bool :=
  match e with
  | JObj d =>
      match get d "mean" with None | Some JNull => false | Some _ => true end
      && match get d "exit_codes" with
         | None => true
         | Some (JArr codes) => forallb is_zero_code codes
         | Some _ => false
         end
  | _ => false
  end.

(** The row of a kept entry, with the defaults of the omitted fields. *)
Definition row_of_entry (e : json) : record :=
  match e with
  | JObj d => make_record d (get_default d "command" JNull)
                            (get_default d "mean" JNull)
  | _ => make_record [] JNull JNull
  end.

(** "The entry has a non-zero exit code." *)
Definition has_failed_run (e : json) : bool :=
  match e with
  | JObj d =>
      match get d "exit_codes" with
      | Some (JArr codes) => existsb ne_zero codes
      | _ => false
      end
  | _ => false
  end.

End LoaderSpec.

Module ResolverSpec.
Import Py Resolver.

(** The size on disk of the fixture [test-data/<test_size><suffix>],
    unknown when there is no test size, no data directory, no such file
    or a failing file-system call. *)
Definition fixture_size (fs : FS) (test_size : option string) (suffix : string)
  : res (option Z) :=
  match test_size with
  | None => Ok None
  | Some ts =>
      match fs_exists fs "test-data" with
      | Ok true =>
          match fs_exists fs (fixture_path ts suffix) with
          | Ok true =>
              match fs_size fs (fixture_path ts suffix) with
              | Ok n => Ok (Some n)
              | Raise _ => Ok None
              end
          | _ => Ok None
          end
      | _ => Ok None
      end
  end.

(** The text of a size in bytes: bytes below 1024, then KB, MB and GB
    in powers of 1024. *)
Definition size_text (fmt : Fmt) (size_bytes : Z) : string :=
  if (size_bytes <? 1024)%Z
  then (fmt_int fmt size_bytes ++ " B")%string
  else if (size_bytes <? 1024 ^ 2)%Z
  then (fmt_1f fmt (inject_Z size_bytes / inject_Z 1024) ++ " KB")%string
  else if (size_bytes <? 1024 ^ 3)%Z
  then (fmt_1f fmt (inject_Z size_bytes / inject_Z (1024 ^ 2)) ++ " MB")%string
  else (fmt_2f fmt (inject_Z size_bytes / inject_Z (1024 ^ 3)) ++ " GB")%string.

(** The description of the fixture [test-data/<test_size><suffix>]: the
    text of its size on disk and the name of its compression, unknown
    when the size is. *)
Definition fixture_description (fs : FS) (fmt : Fmt)
           (test_size : option string) (suffix compression_type : string)
  : res (option string) :=
  match fixture_size fs test_size suffix with
  | Ok (Some n) =>
      Ok (Some (size_text fmt n ++ ", " ++ compression_type)%string)
  | _ => Ok None
  end.

(** The really-cold tier does not apply. *)
Definition not_really_cold_tier (p : string) : bool :=
  negb (PyStr.contains "really_cold_10mb" p)
  && negb (PyStr.contains "really_cold_100mb" p)
  && negb (PyStr.contains "really_cold_1gb" p)
  && negb (PyStr.contains "really_cold_4gb" p).

End ResolverSpec.

(** Concrete worlds for the examples. *)
Module Examples.
Import Py Resolver Loader.

(** A file system with no file at all. *)
Definition no_files : FS :=
  {| fs_exists := fun _ => Ok false;
     fs_size := fun _ => Raise (OSError "No such file or directory") |}.

(** A file system whose only entries are the data directory and the
    fixture [test-data/1m.fastq] of 42 bytes. *)
Definition one_fixture : FS :=
  {| fs_exists := fun p =>
       Ok (String.eqb p "test-data" || String.eqb p "test-data/1m.fastq");
     fs_size := fun p =>
       if String.eqb p "test-data/1m.fastq" then Ok 42%Z
       else Raise (OSError "No such file or directory") |}.

(** A file system on which every call fails. *)
Definition broken_fs : FS :=
  {| fs_exists := fun _ => Raise (OSError "Permission denied");
     fs_size := fun _ => Raise (OSError "Permission denied") |}.

Definition plain_fmt : Fmt :=
  {| fmt_int := fun _ => "?"; fmt_1f := fun _ => "?"; fmt_2f := fun _ => "?" |}.

(** A reader for which the file holds the given document. *)
Definition holds (doc : json) : string -> res json := fun _ => Ok doc.

(** Three entries: a successful one, one with a failed run and one
    without timing data. *)
Definition sample_results : list json :=
  [JObj [("command", JStr "needletail"); ("mean", JFloat (PyFloat.Fin 1.5));
         ("exit_codes", JArr [JInt 0; JInt 0])];
   JObj [("command", JStr "biopython"); ("mean", JFloat (PyFloat.Fin 9));
         ("exit_codes", JArr [JInt 0; JInt 1])];
   JObj [("command", JStr "kseq"); ("mean", JNull)]].

(** Two entries, each with a failed run. *)
Definition failed_results : list json :=
  [JObj [("command", JStr "needletail"); ("mean", JFloat (PyFloat.Fin 1.5));
         ("exit_codes", JArr [JInt 1])];
   JObj [("exit_codes", JArr [JInt 0; JInt 2])]].

(** One successful entry whose run times are written [[1, 2.5]]. *)
Definition int_among_times : list json :=
  [JObj [("command", JStr "needletail"); ("mean", JFloat (PyFloat.Fin 1.75));
         ("times", JArr [JInt 1; JFloat (PyFloat.Fin 2.5)])]].

(** A polars that refuses every table it would have to convert. *)
Definition strict : list record -> res (record -> record) :=
  fun _ => Raise (TypeError "unexpected value while building Series").

(** A reader that fails on the syntax of the file. *)
Definition garbled : string -> res json :=
  fun _ => Raise (JSONDecodeError "Expecting value: line 1 column 1 (char 0)").

End Examples.

(* ================================================================== *)
(** * The specification's reading of the derived series *)
(* ================================================================== *)

Module EngineSpec.
Import Py PyStr Key PyFloat PyData Resolver Engine.

(** The throughput entry [r] comes from a measured row: a row of the
    table of one of the [keys], whose results file is known, whose file
    size resolved to a non-zero number of bytes, whose size label is a
    number and whose mean time is positive. *)
Definition entry_from (fs : FS) (all_data : DataDict)
           (available_results : list (string * string)) (keys : list string)
           (r : ThroughputRow) : Prop :=
  exists key json_path bytes file_size_gb size_value row,
    In key keys
    /\ dict_get String.eqb available_results key = Some json_path
    /\ get_file_size_bytes fs json_path = Ok (Some bytes)
    /\ bytes <> 0%Z
    /\ int_truediv bytes (1024 ^ 3) = Ok file_size_gb
    /\ fst (fst (extract_size_info key)) = Some size_value
    /\ In row (table_of all_data key)
    /\ gtb (mean row) (Fin 0) = true
    /\ throughput_of_row bytes file_size_gb size_value
                         (snd (extract_size_info key)) row = Ok (Some r).

(** The scaling point [r] is a measurement: a row of the table of one
    of the [keys], at the size read off that key. *)
Definition measured_point (all_data : DataDict) (keys : list string)
           (r : ScalingRow) : Prop :=
  exists key row,
    In key keys
    /\ In row (table_of all_data key)
    /\ fst (fst (extract_size_info key)) = Some (s_size_value r)
    /\ s_command r = command row
    /\ s_mean r = mean row.

(** The tables of [data_dict] that the grid shows for [cache_type]. *)
Definition placed (data_dict : DataDict) (cache_type : string)
           (name : string) (df : Table) : Prop :=
  exists compression size,
    In ((compression, size), (name, df)) (organize data_dict cache_type).

(** The row of the combined table that stands for [row] of the table
    [name] placed at [compression] and [size]. *)
Definition shown_row (compression size name : string) (row : Row)
  : CombinedRow :=
  {| c_command := command row;
     c_mean := mean row;
     c_stddev := stddev_or_zero row;
     c_min := min row;
     c_max := max row;
     c_compression := compression;
     c_size := size;
     c_benchmark_name := name |}.

End EngineSpec.

(** Concrete tables for the examples. *)
Module EngineExamples.
Import Py PyFloat Resolver Engine.

Definition timing (parser : string) (mean_time deviation : Q) : Row :=
  {| command := parser;
     mean := Fin mean_time;
     stddev := Some (Fin deviation);
     median := Fin mean_time;
     min := Fin mean_time;
     max := Fin mean_time;
     times := [Fin mean_time] |}.

(** A file system whose only entries are the data directory and the
    fixture [test-data/1m.fastq] of one GiB. *)
Definition gib_fixture : FS :=
  {| fs_exists := fun p =>
       Ok (String.eqb p "test-data" || String.eqb p "test-data/1m.fastq");
     fs_size := fun p =>
       if String.eqb p "test-data/1m.fastq" then Ok (1024 ^ 3)%Z
       else Raise (OSError "No such file or directory") |}.

(** Parser A measured at one million reads, parser B at ten million. *)
Definition two_parsers : DataDict :=
  [("1m_hot_raw", [timing "A" 1 0.1]); ("10m_hot_raw", [timing "B" 9 0.5])].

(** Parser A measured hot, parser B measured cold only. *)
Definition hot_and_cold : DataDict :=
  [("1m_hot_raw", [timing "A" 1 0.1]); ("1m_cold_raw", [timing "B" 2 0.1])].

(** One parser with the same timing at one and at ten million reads. *)
Definition flat_scaling : DataDict :=
  [("1m_hot_raw", [timing "A" 2 0.1]); ("10m_hot_raw", [timing "A" 2 0.1])].

End EngineExamples.

(* ================================================================== *)
(** * Result discovery and the really-cold series *)
(* ================================================================== *)

Module Discovery.
Import Py PyData.

(** What [Path('benchmark_results')] is on disk: nothing, a directory
    with its entries (name and [is_dir()]), or something that is not a
    directory. *)
Inductive results_dir_state : Type :=
| Missing
| Directory (entries : list (string * bool))
| NotADirectory.

(** [find_latest_results_dir()].  The subdirectories are [Path] objects
    with one common parent, so that [sorted] orders them by their names
    (POSIX paths compare case-sensitively). *)
Definition find_latest_results_dir (results_dir : results_dir_state)
  : res (option string) :=
  match results_dir with
  | Missing => Ok None
  | NotADirectory => Raise (OSError "Not a directory: 'benchmark_results'")
  | Directory entries =>
      let subdirs := map fst (filter snd entries) in
      match subdirs with
      | [] => Ok None
      | d :: _ =>
          let latest := last (sorted_str subdirs) d in
          Ok (Some ("benchmark_results/" ++ latest)%string)
      end
  end.

End Discovery.

Module ReallyCold.
Import Py PyStr PyFloat PyData Engine.

Record ColdRow : Type := {
  rc_size : string;
  rc_command : string;
  rc_mean : pyfloat;
  rc_stddev : pyfloat
}.

Definition size_order : list string := ["10mb"; "100mb"; "1gb"; "4gb"].

Definition size_display : list (string * string) :=
  [("10mb", "10 MB"); ("100mb", "100 MB"); ("1gb", "1 GB"); ("4gb", "4 GB")].

(** [{k: v for k, v in all_data.items() if 'really_cold' in k}] *)
Definition really_cold_results (all_data : DataDict) : DataDict :=
  filter (fun kv => contains "really_cold" (fst kv)) all_data.

(** The loop over [size_order].  The notices printed for skipped tables
    are not modelled. *)
Fixpoint collect_cold (really_cold_results : DataDict) (sizes : list string)
         (scaling_rows : list ColdRow) : res (list ColdRow) :=
  match sizes with
  | [] => Ok scaling_rows
  | size_key :: rest =>
      let result_key := ("really_cold_" ++ size_key)%string in
      match dict_get String.eqb really_cold_results result_key with
      | None => collect_cold really_cold_results rest scaling_rows
      | Some df =>
          if (List.length df =? 0)%nat then
            collect_cold really_cold_results rest scaling_rows
          else
            match dict_get String.eqb size_display size_key with
            | None => Raise (KeyError size_key)
            | Some display =>
                let new_rows :=
                  map (fun row =>
                         {| rc_size := display;
                            rc_command := command row;
                            rc_mean := mean row;
                            rc_stddev := stddev_or_zero row |}) df in
                collect_cold really_cold_results rest
                             (scaling_rows ++ new_rows)
            end
      end
  end.

(** [max(means, key=lambda x: x[1])]: the first item with the greatest
    key, an item replacing the current one only when its key is greater. *)
Definition py_max (means : list (string * pyfloat)) : res (string * pyfloat) :=
  match means with
  | [] => Raise (ValueError "max() arg is an empty sequence")
  | x :: rest =>
      Ok (fold_left (fun best item =>
                       if gtb (snd item) (snd best) then item else best)
                    rest x)
  end.

(** [min(means, key=lambda x: x[1])] *)
Definition py_min (means : list (string * pyfloat)) : res (string * pyfloat) :=
  match means with
  | [] => Raise (ValueError "min() arg is an empty sequence")
  | x :: rest =>
      Ok (fold_left (fun best item =>
                       if ltb (snd item) (snd best) then item else best)
                    rest x)
  end.

(** The lines of the printed analysis, with the values they are
    formatted from. *)
Inductive cold_line : Type :=
| SizeHeader (size : string)
| ParserLine (parser : string) (mean std : pyfloat)
| SpeedupLine (speedup : pyfloat) (fastest_parser slowest_parser : string).

(** The body of the loop over the sizes of the analysis. *)
Definition analyse_size (scaling_df : list ColdRow) (parsers : list string)
           (size : string) : res (list cold_line) :=
  let size_data := filter (fun r => String.eqb (rc_size r) size) scaling_df in
  match size_data with
  | [] => Ok []
  | _ =>
      let lines :=
        SizeHeader size
        :: flat_map
             (fun parser =>
                match filter (fun r => String.eqb (rc_command r) parser)
                             size_data with
                | [] => []
                | r :: _ => [ParserLine parser (rc_mean r) (rc_stddev r)]
                end) parsers in
      if (2 <=? List.length size_data)%nat then
        let means := map (fun r => (rc_command r, rc_mean r)) size_data in
        slowest <- py_max means ;;
        fastest <- py_min means ;;
        if gtb (snd slowest) (Fin 0) then
          speedup <- div (snd slowest) (snd fastest) ;;
          Ok (lines ++ [SpeedupLine speedup (fst fastest) (fst slowest)])
        else Ok lines
      else Ok lines
  end.

Fixpoint analyse_sizes (scaling_df : list ColdRow) (parsers : list string)
         (sizes : list string) : res (list cold_line) :=
  match sizes with
  | [] => Ok []
  | size :: rest =>
      here <- analyse_size scaling_df parsers size ;;
      there <- analyse_sizes scaling_df parsers rest ;;
      Ok (here ++ there)
  end.

Record ColdChart : Type := {
  cc_rows : list ColdRow;
  cc_color_domain : list string;
  cc_report : list cold_line
}.

Definition plot_really_cold_scaling (all_data : DataDict)
  : res (option ColdChart) :=
  let really_cold_results := really_cold_results all_data in
  match really_cold_results with
  | [] => Ok None
  | _ =>
      scaling_rows <- collect_cold really_cold_results size_order [] ;;
      match scaling_rows with
      | [] => Ok None
      | _ =>
          let scaling_df := scaling_rows in
          let all_parsers := sorted_str (py_set (map rc_command scaling_df)) in
          let sizes := ["10 MB"; "100 MB"; "1 GB"; "4 GB"]%string in
          let parsers := sorted_str (py_set (map rc_command scaling_df)) in
          report <- analyse_sizes scaling_df parsers sizes ;;
          Ok (Some {| cc_rows := scaling_df;
                      cc_color_domain := all_parsers;
                      cc_report := report |})
      end
  end.

End ReallyCold.

Module ReallyColdNotions.
Import Py PyStr PyFloat PyData Engine ReallyCold.

(** The rows of the table filed under [really_cold_<size_key>], as the
    chart shows them under the label [display]. *)
Definition rows_of_size (all_data : DataDict) (size_key display : string)
  : list ColdRow :=
  map (fun row =>
         {| rc_size := display;
            rc_command := command row;
            rc_mean := mean row;
            rc_stddev := stddev_or_zero row |})
      (table_of all_data ("really_cold_" ++ size_key)).

(** The four tables in the order of the sizes. *)
Definition rows_by_size (all_data : DataDict) : list ColdRow :=
  (rows_of_size all_data "10mb" "10 MB"
   ++ rows_of_size all_data "100mb" "100 MB"
   ++ rows_of_size all_data "1gb" "1 GB"
   ++ rows_of_size all_data "4gb" "4 GB")%list.

End ReallyColdNotions.

Module ReallyColdExamples.
Import PyFloat Engine EngineExamples.

(** Two parsers timed on the 10 MB file. *)
Definition cold_pair : DataDict :=
  [("really_cold_10mb"%string,
    [timing "needletail" 2 0.5; timing "seqio" 3 0.5])].

(** A run recorded with a mean of zero beside an ordinary one. *)
Definition cold_zero : DataDict :=
  [("really_cold_1gb"%string,
    [timing "needletail" 0 0; timing "seqio" 3 0.5])].

End ReallyColdExamples.

(* ================================================================== *)
(** * Individual runs: scatter plots and distributions *)
(* ================================================================== *)

Module Runs.
Import Py PyStr Key PyFloat PyData Engine.

(** [s.replace(a, b)] for one-character [a] and [b]. *)
Definition replace_char (a b : ascii) (s : string) : string :=
  map_chars (fun c => if Ascii.eqb c a then b else c) s.

(** A cased ASCII character. *)
Definition is_cased (c : ascii) : bool :=
  let n := nat_of_ascii c in
  ((65 <=? n)%nat && (n <=? 90)%nat) || ((97 <=? n)%nat && (n <=? 122)%nat).

(** [s.title()] on ASCII text: a cased character is put in upper case
    after an uncased one (or at the start) and in lower case after a
    cased one. *)
Fixpoint title_go (previous_is_cased : bool) (s : string) : string :=
  match s with
  | EmptyString => EmptyString
  | String c s' =>
      if is_cased c then
        String (if previous_is_cased then lower_char c else upper_char c)
               (title_go true s')
      else String c (title_go false s')
  end.

Definition title (s : string) : string := title_go false s.

(** The title of a chart of the simple layouts. *)
Definition chart_title (name : string)
           (file_sizes : option (list (string * string))) : string :=
  let chart_title := title (replace_char "_" " " name) in
  match file_sizes with
  | Some fsz =>
      match dict_get String.eqb fsz name with
      | Some descr => (chart_title ++ " (" ++ descr ++ ")")%string
      | None => chart_title
      end
  | None => chart_title
  end.

(** [enumerate(l)], counting from [start]. *)
Fixpoint enumerate {A : Type} (start : nat) (l : list A) : list (nat * A) :=
  match l with
  | [] => []
  | x :: l' => (start, x) :: enumerate (S start) l'
  end.

Record RunPoint : Type := {
  p_command : string;
  p_run : nat;
  p_time : pyfloat;
  p_mean : pyfloat
}.

(** The rows of [run_df]: one per run of each row of the table. *)
Definition expand_runs (df : Table) : list RunPoint :=
  flat_map (fun row =>
              map (fun it : nat * pyfloat =>
                     {| p_command := command row;
                        p_run := fst it;
                        p_time := snd it;
                        p_mean := mean row |})
                  (enumerate 0 (times row)))
           df.

Record Sample : Type := {
  d_command : string;
  d_time : pyfloat
}.

(** The rows of [dist_df]. *)
Definition expand_times (df : Table) : list Sample :=
  flat_map (fun row =>
              map (fun time_val =>
                     {| d_command := command row; d_time := time_val |})
                  (times row))
           df.

(** The loop [plot_scatter_runs] and [plot_distributions] both start
    with: the tables of the hot cache by compression and size, and the
    commands added to the set [all_parsers], in the order of the
    additions. *)
Definition hot_step (state : Organized * list string) (item : string * Table)
  : Organized * list string :=
  let (organized_data, all_parsers) := state in
  let (name, df) := item in
  if (List.length df =? 0)%nat then state
  else match _parse_benchmark_key name with
       | None => state
       | Some (size, cache, compression) =>
           if negb (String.eqb cache "hot") then state
           else (dict_set cell_key_eqb organized_data (compression, size)
                          (name, df),
                 (all_parsers ++ map command df)%list)
       end.

Definition organize_hot (data_dict : DataDict) : Organized * list string :=
  fold_left hot_step data_dict ([], []).

(** [compression_labels.get(compression, compression)] of the two
    functions. *)
Definition short_label (compression : string) : string :=
  if String.eqb compression "raw" then "Raw"
  else if String.eqb compression "gz" then "Gzip"
  else if String.eqb compression "bgz" then "Bgzip"
  else compression.

(** [size.upper() if size != 'default' else 'Default'] *)
Definition size_display (size : string) : string :=
  if negb (String.eqb size "default") then upper size else "Default".

(** ** Scatter plots ([plot_scatter_runs]) *)

Inductive scatter_panel : Type :=
| RunsChart (title : string) (run_df : list RunPoint)
            (color_domain : list string)
| NoRuns (title : string).

Record scatter_row : Type := {
  scatter_label : string;
  scatter_charts : list scatter_panel
}.

Record simple_scatter : Type := {
  simple_title : string;
  simple_run_df : list RunPoint
}.

Inductive scatter_result : Type :=
| ScatterGrid (rows : list scatter_row)
| ScatterSimple (charts : list simple_scatter).

Definition _plot_scatter_runs_simple (data_dict : DataDict)
           (file_sizes : option (list (string * string)))
  : option scatter_result :=
  let charts :=
    flat_map (fun item : string * Table =>
                let (name, df) := item in
                if (List.length df =? 0)%nat then []
                else [{| simple_title := chart_title name file_sizes;
                         simple_run_df := expand_runs df |}])
             data_dict in
  match charts with
  | [] => None
  | _ => Some (ScatterSimple charts)
  end.

Definition scatter_cell (organized_data : Organized)
           (all_parsers : list string) (size compression : string)
  : scatter_panel :=
  match dict_get cell_key_eqb organized_data (compression, size) with
  | Some (name, df) =>
      RunsChart (short_label compression) (expand_runs df) all_parsers
  | None => NoRuns (short_label compression)
  end.

Definition plot_scatter_runs (data_dict : DataDict)
           (file_sizes : option (list (string * string)))
  : option scatter_result :=
  let (organized_data, all_parsers) := organize_hot data_dict in
  match organized_data with
  | [] => _plot_scatter_runs_simple data_dict file_sizes
  | _ =>
      let all_parsers := sorted_str (py_set all_parsers) in
      let compressions := grid_compressions organized_data in
      let sizes := grid_sizes organized_data in
      let rows :=
        flat_map
          (fun size =>
             let row_charts :=
               map (scatter_cell organized_data all_parsers size)
                   compressions in
             match row_charts with
             | [] => []
             | _ => [{| scatter_label := size_display size;
                        scatter_charts := row_charts |}]
             end)
          sizes in
      match rows with
      | [] => _plot_scatter_runs_simple data_dict file_sizes
      | _ => Some (ScatterGrid rows)
      end
  end.

(** ** Distributions ([plot_distributions]) *)

Inductive dist_panel : Type :=
| BoxPlot (title : string) (dist_df : list Sample)
          (color_domain : list string)
| NoSamples (title : string).

Record dist_row : Type := {
  dist_label : string;
  dist_charts : list dist_panel
}.

Record simple_dist : Type := {
  simple_dist_title : string;
  simple_dist_df : list Sample
}.

Inductive dist_result : Type :=
| DistGrid (rows : list dist_row)
| DistSimple (charts : list simple_dist).

Definition _plot_distributions_horizontal (data_dict : DataDict)
           (file_sizes : option (list (string * string)))
  : option dist_result :=
  let charts :=
    flat_map (fun item : string * Table =>
                let (name, df) := item in
                if (List.length df =? 0)%nat then []
                else [{| simple_dist_title := chart_title name file_sizes;
                         simple_dist_df := expand_times df |}])
             data_dict in
  match charts with
  | [] => None
  | _ => Some (DistSimple charts)
  end.

Definition dist_cell (organized_data : Organized)
           (all_parsers : list string) (size compression : string)
  : dist_panel :=
  match dict_get cell_key_eqb organized_data (compression, size) with
  | Some (name, df) =>
      BoxPlot (short_label compression) (expand_times df) all_parsers
  | None => NoSamples (short_label compression)
  end.

Definition plot_distributions (data_dict : DataDict)
           (file_sizes : option (list (string * string)))
  : option dist_result :=
  let (organized_data, all_parsers) := organize_hot data_dict in
  match organized_data with
  | [] => _plot_distributions_horizontal data_dict file_sizes
  | _ =>
      let all_parsers := sorted_str (py_set all_parsers) in
      let compressions := grid_compressions organized_data in
      let sizes := grid_sizes organized_data in
      let rows :=
        flat_map
          (fun size =>
             let row_charts :=
               map (dist_cell organized_data all_parsers size) compressions in
             match row_charts with
             | [] => []
             | _ => [{| dist_label := size_display size;
                        dist_charts := row_charts |}]
             end)
          sizes in
      match rows with
      | [] => _plot_distributions_horizontal data_dict file_sizes
      | _ => Some (DistGrid rows)
      end
  end.

End Runs.

Module RunsNotions.
Import PyFloat Engine Runs.

(** A point of a scatter plot without its run number and mean: the
    sample a box plot is drawn from. *)
Definition sample_of (p : RunPoint) : Sample :=
  {| d_command := p_command p; d_time := p_time p |}.

Definition dist_panel_of (c : scatter_panel) : dist_panel :=
  match c with
  | RunsChart title run_df color_domain =>
      BoxPlot title (map sample_of run_df) color_domain
  | NoRuns title => NoSamples title
  end.

Definition dist_row_of (r : scatter_row) : dist_row :=
  {| dist_label := scatter_label r;
     dist_charts := map dist_panel_of (scatter_charts r) |}.

Definition simple_dist_of (c : simple_scatter) : simple_dist :=
  {| simple_dist_title := simple_title c;
     simple_dist_df := map sample_of (simple_run_df c) |}.

Definition dist_result_of (r : scatter_result) : dist_result :=
  match r with
  | ScatterGrid rows => DistGrid (map dist_row_of rows)
  | ScatterSimple charts => DistSimple (map simple_dist_of charts)
  end.

(** The panels of a grid. *)
Definition panels_of (r : scatter_result) : list scatter_panel :=
  match r with
  | ScatterGrid rows => flat_map scatter_charts rows
  | ScatterSimple _ => []
  end.

End RunsNotions.

Module RunsExamples.
Import PyFloat Engine.

Definition three_runs (parser : string) (a b c : Q) : Row :=
  {| command := parser;
     mean := Fin ((a + b + c) / 3);
     stddev := None;
     median := Fin b;
     min := Fin a;
     max := Fin c;
     times := [Fin a; Fin b; Fin c] |}.

(** Two tables of the hot cache fall on the same panel (the key is read
    without regard to case), and one table of the cold cache. *)
Definition overlapping : DataDict :=
  [("1m_hot_raw"%string, [three_runs "needletail" 1 2 3]);
   ("1M_HOT_RAW"%string, [three_runs "seqio" 4 5 6]);
   ("1m_cold_raw"%string, [three_runs "kseq" 7 8 9])].

End RunsExamples.

(* ================================================================== *)
(** * Notions on floats *)
(* ================================================================== *)

Module FloatNotions.
Import PyFloat.

(** The exact result [q] of an operation is kept as it is: it is zero,
    or its magnitude lies strictly between the two ends of the range. *)
Definition exact (q : Q) : bool :=
  Qeq_bool q 0 || (negb (overflows q) && negb (underflows q)).

(** The float [x] is the number [q]. *)
Definition is_value (x : pyfloat) (q : Q) : Prop :=
  exists e, x = Fin e /\ (e == q)%Q.

Definition is_nan (x : pyfloat) : bool :=
  match x with NaN => true | _ => false end.

End FloatNotions.

(* ================================================================== *)
(** * Notions used by the further properties *)
(* ================================================================== *)

Module LoaderNotions.
Import Py PyFloat PyData Loader.

(** The lines printed for a dropped entry. *)
Definition is_drop_line (l : log_entry) : bool :=
  match l with
  | CommandFailed _ _ _ | NoTimingData _ => true
  | _ => false
  end.

(** The row [r] is the record of the entry [d]: the entry has no failed
    run, a command and a non-null mean, and the fields it omits take
    their defaults. *)
Definition record_of (d : list (string * json)) (r : record) : Prop :=
  failed_runs_of (get_default d "exit_codes" (JArr [])) = Ok None
  /\ get d "command" = Some (command r)
  /\ get d "mean" = Some (mean r)
  /\ mean r <> JNull
  /\ stddev r = get_default d "stddev" (JFloat (Fin 0))
  /\ median r = get_default d "median" (mean r)
  /\ min r = get_default d "min" (mean r)
  /\ max r = get_default d "max" (mean r)
  /\ times r = get_default d "times" (JArr [mean r]).

End LoaderNotions.

Module EngineNotions.
Import Py PyStr Key PyFloat PyData Resolver Engine.

(** Some table of [data_dict] can be shown for [cache_type]: it is not
    empty and its name parses to that cache state. *)
Definition eligible (data_dict : DataDict) (cache_type : string) : Prop :=
  exists name df size compression,
    In (name, df) data_dict
    /\ df <> []
    /\ _parse_benchmark_key name = Some (size, cache_type, compression).

(** Some placed table has the compression [c]. *)
Definition has_compression (organized_data : Organized) (c : string) : bool :=
  existsb (fun e => String.eqb c (fst (fst e))) organized_data.

End EngineNotions.

(* ================================================================== *)
(** * Facts about strings *)
(* ================================================================== *)

Module StrFacts.
Import PyStr.

#[local] Arguments Ascii.eqb : simpl never.

Lemma append_assoc (a b c : string) : ((a ++ b) ++ c = a ++ (b ++ c))%string.
Proof. induction a as [|x a IH]; simpl; [reflexivity | now rewrite IH]. Qed.

Lemma append_empty_r (a : string) : (a ++ "")%string = a.
Proof. induction a as [|x a IH]; simpl; [reflexivity | now rewrite IH]. Qed.

Lemma lower_app (a b : string) : lower (a ++ b) = (lower a ++ lower b)%string.
Proof.
  unfold lower. induction a as [|x a IH]; simpl; [reflexivity | now rewrite IH].
Qed.

Lemma lower_char_underscore (c : ascii) :
  lower_char c = "_"%char -> c = "_"%char.
Proof.
  destruct c as [[] [] [] [] [] [] [] []]; vm_compute; intro H;
    first [reflexivity | discriminate H].
Qed.

Lemma contains_cons_false (p : string) (c : ascii) (s : string) :
  contains p (String c s) = false ->
  startswith p (String c s) = false /\ contains p s = false.
Proof. simpl. intro H. apply orb_false_elim in H. exact H. Qed.

(** Every suffix of a text without [p] does not start with [p]. *)
Lemma contains_false_suffix (p u v : string) :
  contains p (u ++ v) = false -> startswith p v = false.
Proof.
  induction u as [|c u IH]; simpl.
  - intro H. destruct v; simpl in H; apply orb_false_elim in H; tauto.
  - intro H. apply orb_false_elim in H. apply IH. tauto.
Qed.

Lemma contains_app_r (p a s : string) :
  contains p s = true -> contains p (a ++ s) = true.
Proof.
  intro H. induction a as [|c a IH]; simpl; [exact H |].
  rewrite IH. apply orb_true_r.
Qed.

Lemma lower_no_underscore (s : string) :
  contains "_" s = false -> contains "_" (lower s) = false.
Proof.
  induction s as [|c s IH]; [reflexivity |].
  intro H. apply contains_cons_false in H. destruct H as [H1 H2].
  change (lower (String c s)) with (String (lower_char c) (lower s)).
  cbn [contains startswith]. rewrite (IH H2). cbn [startswith] in H1.
  destruct (Ascii.eqb_spec "_" (lower_char c)) as [E | E]; [| reflexivity].
  symmetry in E. apply lower_char_underscore in E. subst c.
  discriminate H1.
Qed.

Lemma endswith_cons_false (p : string) (c : ascii) (s : string) :
  endswith p (String c s) = false -> endswith p s = false.
Proof. simpl. intro H. apply orb_false_elim in H. tauto. Qed.

Lemma endswith_self_false (p s : string) : endswith p s = false -> s <> p.
Proof.
  intros H E. subst s. destruct p; simpl in H.
  - discriminate H.
  - rewrite Ascii.eqb_refl, String.eqb_refl in H. discriminate H.
Qed.

(** Scanning for [sep] passes over a stretch in which it does not start. *)
Lemma split_go_pass (sep : string) (a : string) :
  forall cur s,
    (forall u v, a = (u ++ v)%string -> v <> ""%string ->
                 startswith sep (v ++ s) = false) ->
    split_go sep 0 cur (a ++ s) = split_go sep 0 (cur ++ a) s.
Proof.
  induction a as [|c a IH]; intros cur s H.
  - simpl. now rewrite append_empty_r.
  - change ((String c a ++ s)%string) with (String c (a ++ s)).
    cbn [split_go].
    assert (E : startswith sep (String c (a ++ s)) = false).
    { apply (H ""%string (String c a)); [reflexivity | discriminate]. }
    rewrite E. rewrite IH.
    + rewrite append_assoc. reflexivity.
    + intros u v Huv Hv. apply (H (String c u) v); [| exact Hv].
      simpl. now rewrite Huv.
Qed.

(** A one-character separator. *)
Lemma split_go_pass_char (c : ascii) (a cur s : string) :
  contains (String c "") a = false ->
  split_go (String c "") 0 cur (a ++ s)
  = split_go (String c "") 0 (cur ++ a) s.
Proof.
  intro H. apply split_go_pass. intros u v Huv Hv. subst a.
  apply contains_false_suffix in H.
  destruct v as [|x v]; [contradiction |].
  simpl in *. destruct (Ascii.eqb c x); [discriminate H | reflexivity].
Qed.

Ltac case_char :=
  match goal with
  | |- context [Ascii.eqb ?a ?b] =>
      let E := fresh "E" in
      destruct (Ascii.eqb_spec a b) as [E | E];
      [ try discriminate E; try subst | ]; cbn
  end.

(** [really_cold] cannot start inside a stretch without underscores
    unless the stretch is exactly [really] and [_cold] follows. *)
Lemma no_really_cold_start (v rest : string) :
  contains "_" v = false ->
  (v = "really" -> startswith "cold" rest = false) ->
  startswith "really_cold" (v ++ String "_" rest) = false.
Proof.
  intros Hu Hr.
  destruct v as [|c1 [|c2 [|c3 [|c4 [|c5 [|c6 [|c7 v]]]]]]]; cbn;
    repeat (first [reflexivity | case_char]).
  - now apply Hr.
  - cbn in Hu. discriminate Hu.
Qed.

Lemma no_really_cold (a rest : string) :
  contains "_" a = false ->
  (endswith "really" a = false \/ startswith "cold" rest = false) ->
  contains "really_cold" (String "_" rest) = false ->
  contains "really_cold" (a ++ String "_" rest) = false.
Proof.
  intros Hu Hr Hrest. induction a as [|c a IH]; [exact Hrest |].
  change ((String c a ++ String "_" rest)%string)
    with (String c (a ++ String "_" rest)).
  cbn [contains].
  apply contains_cons_false in Hu. destruct Hu as [Hc Ha].
  rewrite IH.
  - rewrite orb_false_r.
    apply (no_really_cold_start (String c a) rest).
    + simpl. cbn in Hc. rewrite Hc, Ha. reflexivity.
    + intro E. destruct Hr as [Hr | Hr]; [| exact Hr].
      apply endswith_self_false in Hr. contradiction.
  - exact Ha.
  - destruct Hr as [Hr | Hr]; [left | right; exact Hr].
    eapply endswith_cons_false; eassumption.
Qed.

(** The separator [_really_cold_] cannot start inside a stretch that
    does not hold [_really_cold]. *)
Lemma no_early_separator (v rest : string) :
  v <> ""%string ->
  startswith "_really_cold" v = false ->
  startswith "_really_cold_" (v ++ "_really_cold_" ++ rest) = false.
Proof.
  intros Hv Hs.
  destruct v as [|c1 [|c2 [|c3 [|c4 [|c5 [|c6 [|c7 [|c8 [|c9 [|c10 [|c11
                [|c12 v]]]]]]]]]]]]; [contradiction | ..]; cbn;
    repeat (first [reflexivity | case_char]);
    cbn in Hs; discriminate Hs.
Qed.

Lemma existsb_eqb_In (x : string) (l : list string) :
  in_tuple x l = true <-> In x l.
Proof.
  unfold in_tuple. rewrite existsb_exists. split.
  - intros [y [Hy E]]. apply String.eqb_eq in E. now subst.
  - intro H. exists x. split; [exact H | apply String.eqb_refl].
Qed.

End StrFacts.

(* ================================================================== *)
(** * Benchmark keys: theorems *)
(* ================================================================== *)

Module KeyFacts.
Import PyStr Key StrFacts.

(** C5, as the claim states it, fails on an upper-case size label: the
    parser lower-cases the whole name first, so ["1M_hot_raw"] yields the
    size ["1m"], not ["1M"]. *)
Lemma three_part_uppercase_size :
  _parse_benchmark_key ("1M" ++ "_" ++ "hot" ++ "_" ++ "raw")
  = Some ("1m", "hot", "raw")
  /\ _parse_benchmark_key ("1M" ++ "_" ++ "hot" ++ "_" ++ "raw")
     <> Some ("1M", "hot", "raw").
Proof. split; [reflexivity | discriminate]. Qed.

(** C5 (amended): for a size label without underscore that does not
    end in [really] (in any case) when the cache state is [cold], parsing
    the name [size_cache_compression] with cache in {hot, cold} and
    compression in {raw, gz, bgz} yields the lower-cased size, the cache
    state and the compression. *)
Theorem parse_three_part (size cache compression : string) :
  In cache ["hot"; "cold"] ->
  In compression ["raw"; "gz"; "bgz"] ->
  contains "_" size = false ->
  (cache = "cold" -> endswith "really" (lower size) = false) ->
  _parse_benchmark_key (size ++ "_" ++ cache ++ "_" ++ compression)
  = Some (lower size, cache, compression).
Proof.
  intros Hcache Hcomp Hu Hr.
  apply lower_no_underscore in Hu.
  unfold _parse_benchmark_key. cbv zeta.
  rewrite lower_app.
  assert (Hrc : forall rest,
             lower ("_" ++ cache ++ "_" ++ compression) = String "_" rest ->
             (cache = "cold" \/ startswith "cold" rest = false) ->
             contains "really_cold" (String "_" rest) = false ->
             contains "really_cold"
               (lower size ++ lower ("_" ++ cache ++ "_" ++ compression))
             = false).
  { intros rest E Hc Hrest. rewrite E. apply no_really_cold; auto.
    destruct Hc as [Hc | Hc]; [left; auto | right; exact Hc]. }
  simpl in Hcache, Hcomp.
  destruct Hcache as [<- | [<- | []]];
    destruct Hcomp as [<- | [<- | [<- | []]]];
    (rewrite (Hrc _ eq_refl);
     [ unfold split; cbn [lower map_chars append];
       rewrite split_go_pass_char by exact Hu; reflexivity
     | first [left; reflexivity | right; reflexivity]
     | reflexivity ]).
Qed.

Lemma parse_three_part_witness :
  _parse_benchmark_key ("0.1m" ++ "_" ++ "cold" ++ "_" ++ "gz")
  = Some (lower "0.1m", "cold", "gz").
Proof.
  apply parse_three_part;
    [ simpl; tauto | simpl; tauto | reflexivity | intros _; reflexivity ].
Defined.

(** C6, as the claim states it, fails when the infix occurs twice: the
    name below holds [_really_cold_] followed by [raw], yet the split
    gives three parts and the name is rejected. *)
Lemma really_cold_twice_rejected :
  contains "_really_cold_" ("a_really_cold_b" ++ "_really_cold_" ++ "raw") = true
  /\ _parse_benchmark_key ("a_really_cold_b" ++ "_really_cold_" ++ "raw") = None.
Proof. split; reflexivity. Qed.

(** C6 (amended): a name made of a prefix that does not itself hold
    [_really_cold] (in any case), the infix [_really_cold_] and a token
    in {raw, gz, bgz} parses to the lower-cased prefix as size, the cache
    state [really_cold] and the token as compression.  And any name that
    holds [really_cold] after lower-casing never reaches the generic
    split: it is rejected, or it is split on [_really_cold_] into exactly
    a size and a compression in {raw, gz, bgz}. *)
Theorem parse_really_cold :
  (forall prefix compression : string,
      In compression ["raw"; "gz"; "bgz"] ->
      contains "_really_cold" (lower prefix) = false ->
      _parse_benchmark_key (prefix ++ "_really_cold_" ++ compression)
      = Some (lower prefix, "really_cold", compression))
  /\
  (forall name : string,
      contains "really_cold" (lower name) = true ->
      _parse_benchmark_key name = None
      \/ exists size compression,
          _parse_benchmark_key name = Some (size, "really_cold", compression)
          /\ In compression ["raw"; "gz"; "bgz"]
          /\ split "_really_cold_" (lower name) = [size; compression]).
Proof.
  split.
  - intros prefix compression Hcomp Hp.
    unfold _parse_benchmark_key. cbv zeta. rewrite lower_app.
    assert (Hsplit : forall rest,
               split "_really_cold_" (lower prefix ++ "_really_cold_" ++ rest)
               = split_go "_really_cold_" 0 (lower prefix) ("_really_cold_" ++ rest)).
    { intro rest. unfold split. rewrite split_go_pass; [reflexivity |].
      intros u v E Hv. apply no_early_separator; [exact Hv |].
      rewrite E in Hp. eapply contains_false_suffix; eassumption. }
    simpl in Hcomp.
    destruct Hcomp as [<- | [<- | [<- | []]]];
      match goal with
      | |- context [lower (?a ++ ?b)%string] =>
          change (lower (a ++ b)%string) with (a ++ b)%string
      end;
      rewrite contains_app_r by reflexivity;
      rewrite Hsplit; reflexivity.
  - intros name H. unfold _parse_benchmark_key. cbv zeta. rewrite H.
    destruct (split "_really_cold_" (lower name)) as [|size [|compression [|x l]]];
      try (left; reflexivity).
    destruct (in_tuple compression ["raw"; "gz"; "bgz"]) eqn:E;
      [| left; reflexivity].
    right. exists size, compression. repeat split.
    now apply existsb_eqb_In.
Qed.

Lemma parse_really_cold_witness :
  _parse_benchmark_key ("0.1m" ++ "_really_cold_" ++ "bgz")
  = Some (lower "0.1m", "really_cold", "bgz")
  /\ (_parse_benchmark_key "1m_really_cold_warm" = None
      \/ exists size compression,
          _parse_benchmark_key "1m_really_cold_warm"
          = Some (size, "really_cold", compression)
          /\ In compression ["raw"; "gz"; "bgz"]
          /\ split "_really_cold_" (lower "1m_really_cold_warm")
             = [size; compression]).
Proof.
  split.
  - apply (proj1 parse_really_cold); [simpl; tauto | reflexivity].
  - apply (proj2 parse_really_cold). reflexivity.
Defined.

End KeyFacts.

(* ================================================================== *)
(** * Result loader: theorems *)
(* ================================================================== *)

Module LoaderFacts.
Import Py PyFloat PyData Resolver Loader LoaderSpec Examples.

(** C1, as the claim states it, fails on a structural failure: the
    syntactically valid document [{}] has no [results] key and the loader
    raises [KeyError]. *)
Lemma missing_results_key_raises :
  fst (parse_benchmark_data (holds (JObj [])) strict no_files plain_fmt
                            "hot_raw.json")
  = Raise (KeyError "results").
Proof. reflexivity. Qed.

(** C1 (amended): when reading the file fails with a JSON syntax error,
    the loader prints one warning and returns the empty table with the
    metrics schema; any other failure of reading the file is raised to
    the caller. *)
Theorem loader_on_decode_error
        (read_json : string -> res json)
        (polars : list record -> res (record -> record)) (fs : FS) (fmt : Fmt)
        (json_path : string) :
  (forall msg, read_json json_path = Raise (JSONDecodeError msg) ->
     parse_benchmark_data read_json polars fs fmt json_path
     = (Ok (EmptyWithSchema metrics_schema),
        [SkippingInvalidJson json_path msg]))
  /\
  (forall e, read_json json_path = Raise e ->
     (forall msg, e <> JSONDecodeError msg) ->
     fst (parse_benchmark_data read_json polars fs fmt json_path) = Raise e).
Proof.
  unfold parse_benchmark_data, load_hyperfine_results. split.
  - intros msg H. rewrite H. reflexivity.
  - intros e H Hne. rewrite H. cbn [bind].
    destruct e; try reflexivity. now destruct (Hne msg).
Qed.

Lemma loader_on_decode_error_witness :
  parse_benchmark_data garbled strict no_files plain_fmt "hot_raw.json"
  = (Ok (EmptyWithSchema metrics_schema),
     [SkippingInvalidJson "hot_raw.json"
        "Expecting value: line 1 column 1 (char 0)"]).
Proof.
  apply (proj1 (loader_on_decode_error garbled strict no_files plain_fmt
                                       "hot_raw.json")).
  reflexivity.
Defined.

(** On a list of numbers, "some code differs from zero" is the negation
    of "all codes are zero". *)
Lemma any_ne_zero_numbers (codes : list json) :
  forallb is_number codes = true ->
  existsb ne_zero codes = negb (forallb is_zero_code codes).
Proof.
  induction codes as [|c codes IH]; [reflexivity |].
  cbn [forallb existsb]. intro H. apply andb_true_iff in H.
  destruct H as [Hc H]. rewrite (IH H).
  destruct c; try discriminate Hc; cbn [ne_zero is_zero_code];
    now rewrite negb_andb.
Qed.

Lemma failed_runs_of_numbers (codes : list json) :
  forallb is_number codes = true ->
  exists n, failed_runs_of (JArr codes)
            = Ok (if forallb is_zero_code codes then None else Some n).
Proof.
  intro H. unfold failed_runs_of. destruct codes as [|c codes].
  - exists (0, 0)%nat. reflexivity.
  - cbn [truthy iterate bind]. rewrite (any_ne_zero_numbers _ H).
    eexists. destruct (forallb is_zero_code (c :: codes)); reflexivity.
Qed.

(** The loop keeps exactly the entries the specification keeps. *)
Lemma collect_records_well_formed (results : list json) :
  forallb well_formed_entry results = true ->
  forall records log,
  exists log',
    collect_records results records log
    = (Ok (records ++ map row_of_entry (filter kept results)), log').
Proof.
  induction results as [|e results IH]; intros H records log.
  - exists log. cbn. now rewrite app_nil_r.
  - cbn [forallb] in H. apply andb_true_iff in H. destruct H as [He H].
    specialize (IH H).
    destruct e as [| | | | | |d]; try discriminate He.
    cbn [well_formed_entry] in He.
    apply andb_true_iff in He. destruct He as [He Hcodes].
    apply andb_true_iff in He. destruct He as [Hcmd Hmean].
    cbn [collect_records filter kept]. unfold get_default.
    destruct (get d "command") as [c|] eqn:Ec; [| discriminate Hcmd].
    assert (Hfail : exists n,
               failed_runs_of
                 match get d "exit_codes" with Some v => v | None => JArr [] end
               = Ok (if match get d "exit_codes" with
                        | None => true
                        | Some (JArr codes) => forallb is_zero_code codes
                        | Some _ => false
                        end then None else Some n)).
    { destruct (get d "exit_codes") as [[| | | | |codes|]|];
        try discriminate Hcodes.
      - now apply failed_runs_of_numbers.
      - exists (0, 0)%nat. reflexivity. }
    destruct Hfail as [[failed total] Hfail]. rewrite Hfail.
    destruct (match get d "exit_codes" with
              | None => true
              | Some (JArr codes) => forallb is_zero_code codes
              | Some _ => false
              end).
    + rewrite andb_true_r.
      destruct (get d "mean") as [[| |z|m| | |]|] eqn:Em; try discriminate Hmean.
      * apply IH.
      * destruct (IH (records ++ [make_record d c (JInt z)]) log) as [log' E].
        exists log'. rewrite E. cbn [map row_of_entry]. unfold get_default.
        rewrite Ec, Em. now rewrite <- app_assoc.
      * destruct (IH (records ++ [make_record d c (JFloat m)]) log) as [log' E].
        exists log'. rewrite E. cbn [map row_of_entry]. unfold get_default.
        rewrite Ec, Em. now rewrite <- app_assoc.
      * apply IH.
    + rewrite andb_false_r. apply IH.
Qed.

(** The record of a kept entry whose timing values are floats has the
    types of the metrics schema. *)
Lemma typed_row_of_entry (e : json) :
  well_formed_entry e = true -> kept e = true -> float_typed_entry e = true ->
  typed_record (row_of_entry e) = true.
Proof.
  destruct e as [| | | | | |d]; try discriminate.
  cbn [well_formed_entry kept float_typed_entry row_of_entry].
  intros Hw Hk Hf.
  apply andb_true_iff in Hw. destruct Hw as [Hw _].
  apply andb_true_iff in Hw. destruct Hw as [Hcmd _].
  apply andb_true_iff in Hk. destruct Hk as [Hmean _].
  repeat (apply andb_true_iff in Hf; destruct Hf as [Hf ?]).
  unfold typed_record, typed_scalars, make_record, get_default, float_or_absent
    in *.
  cbn [command mean stddev median min max times].
  destruct (get d "command") as [[]|]; try discriminate Hcmd.
  destruct (get d "mean") as [[]|]; try discriminate Hmean;
    try discriminate Hf.
  destruct (get d "stddev") as [[]|]; try discriminate.
  all: destruct (get d "median") as [[]|]; try discriminate.
  all: destruct (get d "min") as [[]|]; try discriminate.
  all: destruct (get d "max") as [[]|]; try discriminate.
  all: destruct (get d "times") as [[| | | | |[|t ts]|]|]; try discriminate.
  all: cbn [is_str is_float andb forallb]; try reflexivity; assumption.
Qed.

Lemma typed_rows_of_entries (results : list json) :
  forallb well_formed_entry results = true ->
  forallb float_typed_entry (filter kept results) = true ->
  forallb typed_record (map row_of_entry (filter kept results)) = true.
Proof.
  induction results as [|e results IH]; [reflexivity |].
  cbn [forallb filter]. intro Hw. apply andb_true_iff in Hw.
  destruct Hw as [He Hw]. destruct (kept e) eqn:Ek; [| now apply IH].
  cbn [forallb map]. intro Hf. apply andb_true_iff in Hf.
  destruct Hf as [Hfe Hf]. apply andb_true_iff. split.
  - now apply typed_row_of_entry.
  - now apply IH.
Qed.

(** An entry with a failed run is dropped before its other fields are
    looked at. *)
Lemma collect_records_all_failed (results : list json) :
  forallb has_failed_run results = true ->
  forall records log,
  exists log', collect_records results records log = (Ok records, log').
Proof.
  induction results as [|e results IH]; intros H records log.
  - exists log. reflexivity.
  - cbn [forallb] in H. apply andb_true_iff in H. destruct H as [He H].
    destruct e as [| | | | | |d]; try discriminate He.
    cbn [has_failed_run] in He. cbn [collect_records]. unfold get_default.
    destruct (get d "exit_codes") as [[| | | | |codes|]|]; try discriminate He.
    unfold failed_runs_of.
    destruct codes as [|c codes]; [discriminate He |].
    cbn [truthy iterate bind]. rewrite He. apply IH, H.
Qed.

(** C2, as the claim states it, fails on a well-formed document that
    writes a run time as an integer: with the run times [[1, 2.5]] the
    entry is kept by the loop, but the table cannot be built from its
    record and the loader raises [TypeError], whatever polars does with
    the tables it converts. *)
Lemma int_among_run_times_refused :
  forallb well_formed_entry int_among_times = true
  /\ filter kept int_among_times = int_among_times
  /\ (forall polars,
        fst (parse_benchmark_data
               (holds (JObj [("results", JArr int_among_times)]))
               polars no_files plain_fmt "hot_raw.json")
        = Raise (TypeError "unexpected value while building Series")).
Proof. repeat split. Qed.

(** C2 (amended): for a well-formed results document in which the
    entries with a non-null mean and no failed run write their timing
    values as floats, the loaded table holds exactly those entries, in
    the order of the results array; and when every entry has a non-zero
    exit code the loader returns the empty table with the metrics schema
    and raises nothing. *)
Theorem loader_keeps_successful_entries
        (read_json : string -> res json)
        (polars : list record -> res (record -> record)) (fs : FS) (fmt : Fmt)
        (json_path : string) (doc : list (string * json))
        (results : list json) :
  read_json json_path = Ok (JObj doc) ->
  get doc "results" = Some (JArr results) ->
  (forallb well_formed_entry results = true ->
   forallb float_typed_entry (filter kept results) = true ->
   exists df,
     fst (parse_benchmark_data read_json polars fs fmt json_path) = Ok df
     /\ rows df = map row_of_entry (filter kept results))
  /\
  (forallb has_failed_run results = true ->
   fst (parse_benchmark_data read_json polars fs fmt json_path)
   = Ok (EmptyWithSchema metrics_schema)).
Proof.
  intros Hread Hres.
  unfold parse_benchmark_data, load_hyperfine_results.
  rewrite Hread. cbn [bind subscript]. rewrite Hres. cbn [bind iterate].
  split.
  - intros H Hf.
    destruct (collect_records_well_formed results H [] []) as [log' E].
    rewrite E. cbn [app].
    pose proof (typed_rows_of_entries results H Hf) as Ht.
    destruct (map row_of_entry (filter kept results)) as [|r rs] eqn:Erows.
    + eexists. split; reflexivity.
    + cbn [fst]. unfold frame_of_records. rewrite Ht.
      eexists. split; reflexivity.
  - intro H.
    destruct (collect_records_all_failed results H [] []) as [log' E].
    rewrite E. reflexivity.
Qed.

Lemma loader_keeps_successful_entries_witness :
  (exists df,
     fst (parse_benchmark_data (holds (JObj [("results", JArr sample_results)]))
            strict no_files plain_fmt "hot_raw.json") = Ok df
     /\ rows df = map row_of_entry (filter kept sample_results))
  /\ fst (parse_benchmark_data (holds (JObj [("results", JArr failed_results)]))
            strict no_files plain_fmt "hot_raw.json")
     = Ok (EmptyWithSchema metrics_schema).
Proof.
  split.
  - apply (proj1 (loader_keeps_successful_entries
                    (holds (JObj [("results", JArr sample_results)]))
                    strict no_files plain_fmt "hot_raw.json"
                    [("results", JArr sample_results)] sample_results
                    eq_refl eq_refl)); reflexivity.
  - apply (proj2 (loader_keeps_successful_entries
                    (holds (JObj [("results", JArr failed_results)]))
                    strict no_files plain_fmt "hot_raw.json"
                    [("results", JArr failed_results)] failed_results
                    eq_refl eq_refl)).
    reflexivity.
Defined.

End LoaderFacts.

(* ================================================================== *)
(** * File-size resolver: theorems *)
(* ================================================================== *)

Module ResolverFacts.
Import Py PyStr Resolver ResolverSpec Examples.

(** A text that ends with a suffix holds whatever the suffix holds. *)
Lemma endswith_contains (p suffix s : string) :
  contains p suffix = true -> endswith suffix s = true -> contains p s = true.
Proof.
  intros Hp. induction s as [|c s IH]; cbn [endswith]; intro H.
  - rewrite orb_false_r in H. apply String.eqb_eq in H. now subst.
  - apply orb_true_iff in H. destruct H as [H | H].
    + apply String.eqb_eq in H. now subst.
    + cbn [contains]. rewrite (IH H). apply orb_true_r.
Qed.

Lemma raw_test (p : string) :
  contains "raw" p || endswith "hot_raw.json" p || endswith "cold_raw.json" p
  = contains "raw" p.
Proof.
  destruct (contains "raw" p) eqn:E; [reflexivity |].
  destruct (endswith "hot_raw.json" p) eqn:E1.
  - rewrite (endswith_contains "raw" "hot_raw.json" p eq_refl E1) in E.
    discriminate E.
  - destruct (endswith "cold_raw.json" p) eqn:E2; [| reflexivity].
    rewrite (endswith_contains "raw" "cold_raw.json" p eq_refl E2) in E.
    discriminate E.
Qed.

Lemma fixture_lookup (fs : FS) (test_size : option string) (suffix : string) :
  try_except_None
    match test_size with
    | Some ts =>
        dir_ok <- fs_exists fs "test-data" ;;
        if dir_ok then
          there <- fs_exists fs (fixture_path ts suffix) ;;
          if there then
            n <- fs_size fs (fixture_path ts suffix) ;; Ok (Some n)
          else Ok None
        else Ok None
    | None => Ok None
    end
  = fixture_size fs test_size suffix.
Proof.
  unfold fixture_size. destruct test_size as [ts|]; [| reflexivity].
  destruct (fs_exists fs "test-data") as [[]|]; cbn [bind try_except_None];
    try reflexivity.
  destruct (fs_exists fs (fixture_path ts suffix)) as [[]|];
    cbn [bind try_except_None]; try reflexivity.
  destruct (fs_size fs (fixture_path ts suffix)); reflexivity.
Qed.

Lemma description_lookup (fs : FS) (fmt : Fmt) (test_size : option string)
      (suffix compression_type : string) :
  try_except_None
    match test_size with
    | Some ts =>
        dir_ok <- fs_exists fs "test-data" ;;
        if dir_ok then
          there <- fs_exists fs (fixture_path ts suffix) ;;
          if there then
            size_bytes <- fs_size fs (fixture_path ts suffix) ;;
            Ok (Some (size_text fmt size_bytes ++ ", " ++ compression_type)%string)
          else Ok None
        else Ok None
    | None => Ok None
    end
  = fixture_description fs fmt test_size suffix compression_type.
Proof.
  unfold fixture_description, fixture_size.
  destruct test_size as [ts|]; [| reflexivity].
  destruct (fs_exists fs "test-data") as [[]|]; cbn [bind try_except_None];
    try reflexivity.
  destruct (fs_exists fs (fixture_path ts suffix)) as [[]|];
    cbn [bind try_except_None]; try reflexivity.
  destruct (fs_size fs (fixture_path ts suffix)); reflexivity.
Qed.

Lemma get_file_size_bytes_total (fs : FS) (json_path : string) :
  exists v, get_file_size_bytes fs json_path = Ok v.
Proof.
  unfold get_file_size_bytes, try_except_None.
  destruct (get_file_size_bytes_body fs json_path); eexists; reflexivity.
Qed.

(** C10: the resolver never raises, whatever the path and whatever the
    file system does; and past the really-cold tier the suffix of the
    fixture is chosen by the substrings of the whole path: [raw] selects
    [.fastq] (even next to [gz]), otherwise [bgz] selects
    [.fastq_bgzipped.gz], otherwise [gz] selects [.fastq.gz], and with
    none of the three the size is unknown.  The size description of
    [get_file_size_from_results] never raises either, describes the
    fixture chosen with the same precedence, under the names [raw],
    [bgzip] and [gzip], and is unknown in the same case. *)
Theorem resolver_suffix_precedence (fs : FS) (json_path : string) :
  (exists v, get_file_size_bytes fs json_path = Ok v)
  /\
  (not_really_cold_tier json_path = true ->
   get_file_size_bytes fs json_path
   = if contains "raw" json_path
     then fixture_size fs (test_size_of json_path) ".fastq"
     else if contains "bgz" json_path
     then fixture_size fs (test_size_of json_path) ".fastq_bgzipped.gz"
     else if contains "gz" json_path
     then fixture_size fs (test_size_of json_path) ".fastq.gz"
     else Ok None)
  /\
  (forall fmt,
      (exists v, get_file_size_from_results fs fmt json_path = Ok v)
      /\ (not_really_cold_tier json_path = true ->
          contains "raw" json_path = false ->
          contains "bgz" json_path = false ->
          contains "gz" json_path = false ->
          get_file_size_from_results fs fmt json_path = Ok None)
      /\ (not_really_cold_tier json_path = true ->
          get_file_size_from_results fs fmt json_path
          = if contains "raw" json_path
            then fixture_description fs fmt (test_size_of json_path)
                                     ".fastq" "raw"
            else if contains "bgz" json_path
            then fixture_description fs fmt (test_size_of json_path)
                                     ".fastq_bgzipped.gz" "bgzip"
            else if contains "gz" json_path
            then fixture_description fs fmt (test_size_of json_path)
                                     ".fastq.gz" "gzip"
            else Ok None)).
Proof.
  split; [| split].
  - apply get_file_size_bytes_total.
  - unfold not_really_cold_tier. intro H.
    repeat (apply andb_true_iff in H; destruct H as [H ?]).
    repeat match goal with
           | H : negb _ = true |- _ => apply negb_true_iff in H
           end.
    unfold get_file_size_bytes, get_file_size_bytes_body. cbv zeta.
    repeat match goal with
           | H : contains _ json_path = false |- _ => rewrite H; clear H
           end.
    rewrite raw_test.
    destruct (contains "raw" json_path); [apply fixture_lookup |].
    destruct (contains "bgz" json_path); [apply fixture_lookup |].
    destruct (contains "gz" json_path); [apply fixture_lookup | reflexivity].
  - intro fmt. split; [| split].
    + unfold get_file_size_from_results, try_except_None.
      destruct (get_file_size_from_results_body fs fmt json_path);
        eexists; reflexivity.
    + unfold not_really_cold_tier. intros H Hraw Hbgz Hgz.
      repeat (apply andb_true_iff in H; destruct H as [H ?]).
      repeat match goal with
             | H : negb _ = true |- _ => apply negb_true_iff in H
             end.
      unfold get_file_size_from_results, get_file_size_from_results_body.
      cbv zeta. rewrite raw_test.
      repeat match goal with
             | H : contains _ json_path = false |- _ => rewrite H; clear H
             end.
      reflexivity.
    + unfold not_really_cold_tier. intro H.
      repeat (apply andb_true_iff in H; destruct H as [H ?]).
      repeat match goal with
             | H : negb _ = true |- _ => apply negb_true_iff in H
             end.
      unfold get_file_size_from_results, get_file_size_from_results_body.
      cbv zeta.
      repeat match goal with
             | H : contains _ json_path = false |- _ => rewrite H; clear H
             end.
      rewrite raw_test.
      destruct (contains "raw" json_path);
        [apply (description_lookup fs fmt _ ".fastq" "raw") |].
      destruct (contains "bgz" json_path);
        [apply (description_lookup fs fmt _ ".fastq_bgzipped.gz" "bgzip") |].
      destruct (contains "gz" json_path);
        [apply (description_lookup fs fmt _ ".fastq.gz" "gzip") | reflexivity].
Qed.

Lemma resolver_suffix_precedence_witness :
  get_file_size_bytes one_fixture "benchmark_results/run/1m/raw_vs_gz.json"
  = Ok (Some 42%Z)
  /\ get_file_size_from_results one_fixture plain_fmt
       "benchmark_results/run/1m/raw_vs_gz.json"
     = Ok (Some "? B, raw").
Proof.
  split.
  - exact (eq_trans
             (proj1 (proj2 (resolver_suffix_precedence one_fixture
                              "benchmark_results/run/1m/raw_vs_gz.json"))
                    eq_refl)
             eq_refl).
  - exact (eq_trans
             (proj2 (proj2 (proj2 (proj2 (resolver_suffix_precedence one_fixture
                                            "benchmark_results/run/1m/raw_vs_gz.json"))
                                  plain_fmt))
                    eq_refl)
             eq_refl).
Defined.

End ResolverFacts.

(* ================================================================== *)
(** * Facts about floats and sorting *)
(* ================================================================== *)

Module FloatFacts.
Import Py PyFloat.

Lemma Qltb_lt (a b : Q) : Qltb a b = true <-> (a < b)%Q.
Proof.
  unfold Qltb. rewrite negb_true_iff. split.
  - intro H. apply Qnot_le_lt. intro L.
    apply Qle_bool_iff in L. congruence.
  - intro H. destruct (Qle_bool b a) eqn:E; [| reflexivity].
    apply Qle_bool_iff in E. exfalso. exact (Qlt_not_le _ _ H E).
Qed.

Lemma Qltb_ge (a b : Q) : Qltb a b = false <-> (b <= a)%Q.
Proof.
  unfold Qltb. rewrite negb_false_iff. apply Qle_bool_iff.
Qed.

Lemma ltb_asym (x y : pyfloat) : ltb x y = true -> ltb y x = false.
Proof.
  destruct x as [a| | |], y as [b| | |]; cbn; try congruence.
  intro H. apply Qltb_lt in H. apply Qltb_ge. now apply Qlt_le_weak.
Qed.

Lemma ltb_trans (x y z : pyfloat) :
  ltb x y = true -> ltb y z = true -> ltb x z = true.
Proof.
  destruct x as [a| | |], y as [b| | |], z as [c| | |]; cbn; try congruence.
  intros H1 H2. apply Qltb_lt in H1, H2. apply Qltb_lt.
  eapply Qlt_trans; eassumption.
Qed.

Lemma gtb_zero (m : Q) : gtb (Fin m) (Fin 0) = true <-> (0 < m)%Q.
Proof. unfold gtb. cbn. apply Qltb_lt. Qed.

Lemma is_zero_Fin (q : Q) : is_zero (Fin q) = false <-> ~ (q == 0)%Q.
Proof.
  unfold is_zero. cbn. split.
  - intros H E. apply Qeq_bool_iff in E. congruence.
  - intro H. destruct (Qeq_bool q 0) eqn:E; [| reflexivity].
    apply Qeq_bool_iff in E. contradiction.
Qed.

(** [<] orders the floats other than NaN. *)
Lemma ltb_neg (x y z : pyfloat) :
  y <> NaN -> ltb x z = true -> ltb x y = true \/ ltb y z = true.
Proof.
  intro Hy.
  destruct x as [a| | |], y as [b| | |], z as [c| | |]; cbn;
    try congruence; try tauto.
  intro H. apply Qltb_lt in H.
  destruct (Qlt_le_dec a b) as [L | L].
  - left. now apply Qltb_lt.
  - right. apply Qltb_lt. eapply Qle_lt_trans; eassumption.
Qed.

(** The order of polars is a strict weak order on all floats. *)
Lemma polars_ltb_asym (x y : pyfloat) :
  polars_ltb x y = true -> polars_ltb y x = false.
Proof.
  destruct x as [a| | |], y as [b| | |]; cbn; try congruence.
  intro H. apply Qltb_lt in H. apply Qltb_ge. now apply Qlt_le_weak.
Qed.

Lemma polars_ltb_trans (x y z : pyfloat) :
  polars_ltb x y = true -> polars_ltb y z = true -> polars_ltb x z = true.
Proof.
  destruct x as [a| | |], y as [b| | |], z as [c| | |]; cbn; try congruence.
  intros H1 H2. apply Qltb_lt in H1, H2. apply Qltb_lt.
  eapply Qlt_trans; eassumption.
Qed.

(** ** The range of a double *)

#[local] Arguments overflows : simpl never.
#[local] Arguments underflows : simpl never.

Lemma overflows_wd (e q : Q) : (e == q)%Q -> overflows e = overflows q.
Proof.
  intro E. unfold overflows.
  destruct (Qle_bool overflow_bound (Qabs e)) eqn:H1,
           (Qle_bool overflow_bound (Qabs q)) eqn:H2; try reflexivity.
  - apply Qle_bool_iff in H1. rewrite E in H1. apply Qle_bool_iff in H1.
    congruence.
  - apply Qle_bool_iff in H2. rewrite <- E in H2. apply Qle_bool_iff in H2.
    congruence.
Qed.

Lemma underflows_wd (e q : Q) : (e == q)%Q -> underflows e = underflows q.
Proof.
  intro E. unfold underflows.
  destruct (Qle_bool (Qabs e) underflow_bound) eqn:H1,
           (Qle_bool (Qabs q) underflow_bound) eqn:H2; try reflexivity.
  - apply Qle_bool_iff in H1. rewrite E in H1. apply Qle_bool_iff in H1.
    congruence.
  - apply Qle_bool_iff in H2. rewrite <- E in H2. apply Qle_bool_iff in H2.
    congruence.
Qed.

Lemma overflows_zero (q : Q) : (q == 0)%Q -> overflows q = false.
Proof. intro E. now rewrite (overflows_wd q 0 E). Qed.

Lemma underflows_zero (q : Q) : (q == 0)%Q -> underflows q = true.
Proof. intro E. now rewrite (underflows_wd q 0 E). Qed.

(** What is not rounded to zero is not zero. *)
Lemma not_underflows_nonzero (q : Q) : underflows q = false -> ~ (q == 0)%Q.
Proof. intros H E. now rewrite (underflows_zero q E) in H. Qed.

Lemma rounded_cases (q : Q) :
  (overflows q = true /\ rounded q = signed_inf (Qltb q 0))
  \/ (overflows q = false /\ underflows q = true /\ rounded q = Fin 0)
  \/ (overflows q = false /\ underflows q = false /\ rounded q = Fin q).
Proof.
  unfold rounded. destruct (overflows q); [now left | right].
  destruct (underflows q); [left | right]; repeat split.
Qed.

(** An exact result is the value of the operation. *)
Lemma rounded_exact (e q : Q) :
  FloatNotions.exact q = true -> (e == q)%Q ->
  FloatNotions.is_value (rounded e) q.
Proof.
  intros Hx E. unfold FloatNotions.exact in Hx.
  rewrite <- (overflows_wd e q E), <- (underflows_wd e q E) in Hx.
  unfold FloatNotions.is_value, rounded.
  apply orb_true_iff in Hx. destruct Hx as [Hz | Hr].
  - apply Qeq_bool_iff in Hz.
    assert (Ez : (e == 0)%Q) by now rewrite E.
    rewrite (overflows_zero e Ez), (underflows_zero e Ez).
    exists 0%Q. split; [reflexivity | now symmetry].
  - apply andb_true_iff in Hr. destruct Hr as [H1 H2].
    apply negb_true_iff in H1, H2. rewrite H1, H2.
    exists e. split; [reflexivity | exact E].
Qed.

(** Division raises on a zero divisor and on nothing else. *)
Lemma div_by_zero (x y : pyfloat) :
  is_zero y = true -> div x y = Raise ZeroDivisionError.
Proof. intro H. unfold div. now rewrite H. Qed.

Lemma div_defined (x y : pyfloat) :
  is_zero y = false -> exists v, div x y = Ok v.
Proof. intro H. unfold div. rewrite H. eexists. reflexivity. Qed.

Lemma div_Fin (a b : Q) :
  ~ (b == 0)%Q -> div (Fin a) (Fin b) = Ok (rounded (a / b)).
Proof.
  intro H. unfold div. now rewrite (proj2 (is_zero_Fin b) H).
Qed.

Lemma div_raises (x y : pyfloat) (e : exn) :
  div x y = Raise e -> e = ZeroDivisionError /\ is_zero y = true.
Proof.
  unfold div. destruct (is_zero y); [| discriminate].
  intros [= <-]. now split.
Qed.

Lemma positive_not_zero (x : pyfloat) :
  gtb x (Fin 0) = true -> is_zero x = false.
Proof.
  destruct x as [q| | |]; cbn; try reflexivity; try discriminate.
  intro H. apply Qltb_lt in H. apply is_zero_Fin.
  intro E. rewrite E in H. exact (Qlt_irrefl _ H).
Qed.

(** The sign of a rounded result is that of the exact one. *)
Lemma rounded_positive (q : Q) :
  (0 < q)%Q -> underflows q = false -> gtb (rounded q) (Fin 0) = true.
Proof.
  intros Hq Hu. unfold rounded. rewrite Hu.
  destruct (overflows q).
  - assert (E : Qltb q 0 = false) by (apply Qltb_ge; now apply Qlt_le_weak).
    rewrite E. reflexivity.
  - now apply gtb_zero.
Qed.

End FloatFacts.

Module SortFacts.
Import PyFloat PyData.

Section Generic.
Context {A : Type}.
Variable lt : A -> A -> bool.

Lemma insert_sorted_perm (x : A) (l : list A) :
  Permutation (insert_sorted lt x l) (x :: l).
Proof.
  induction l as [|y l IH]; cbn; [reflexivity |].
  destruct (lt x y); [reflexivity |].
  rewrite IH. apply perm_swap.
Qed.

Lemma fold_insert_perm (l acc : list A) :
  Permutation (fold_left (fun acc x => insert_sorted lt x acc) l acc) (acc ++ l).
Proof.
  revert acc. induction l as [|x l IH]; intro acc; cbn.
  - now rewrite app_nil_r.
  - rewrite IH, insert_sorted_perm.
    change (x :: acc) with ([x] ++ acc).
    rewrite (Permutation_app_comm [x] acc), <- app_assoc. reflexivity.
Qed.

Lemma sort_with_perm (l : list A) : Permutation (sort_with lt l) l.
Proof. unfold sort_with. now rewrite fold_insert_perm. Qed.

Lemma sort_with_In (l : list A) (x : A) : In x (sort_with lt l) <-> In x l.
Proof.
  split; apply Permutation_in;
    [apply sort_with_perm | symmetry; apply sort_with_perm].
Qed.

Lemma sort_with_nil (l : list A) : sort_with lt l = [] -> l = [].
Proof.
  intro H. apply Permutation_nil. rewrite <- H. apply sort_with_perm.
Qed.

(** Whatever the comparison answers, [sorted] returns the elements it
    was given. *)
Lemma ascending_run_app (l : list A) :
  forall prev run rest,
    ascending_run lt prev l = (run, rest) -> l = (run ++ rest)%list.
Proof.
  induction l as [|x l IH]; intros prev run rest; cbn [ascending_run].
  - now intros [= <- <-].
  - destruct (lt x prev); [now intros [= <- <-] |].
    destruct (ascending_run lt x l) as [run' rest'] eqn:E.
    intros [= <- <-]. cbn. f_equal. now apply (IH x).
Qed.

Lemma descending_run_app (l : list A) :
  forall prev run rest,
    descending_run lt prev l = (run, rest) -> l = (run ++ rest)%list.
Proof.
  induction l as [|x l IH]; intros prev run rest; cbn [descending_run].
  - now intros [= <- <-].
  - destruct (lt x prev); [| now intros [= <- <-]].
    destruct (descending_run lt x l) as [run' rest'] eqn:E.
    intros [= <- <-]. cbn. f_equal. now apply (IH x).
Qed.

Lemma count_run_perm (l run rest : list A) :
  count_run lt l = (run, rest) -> Permutation (run ++ rest) l.
Proof.
  unfold count_run. destruct l as [|x0 [|x1 l]].
  - now intros [= <- <-].
  - now intros [= <- <-].
  - destruct (lt x1 x0).
    + destruct (descending_run lt x1 l) as [run' rest'] eqn:E.
      intros [= <- <-]. apply descending_run_app in E. subst l.
      apply Permutation_trans with ((x0 :: x1 :: run') ++ rest')%list;
        [| reflexivity].
      apply Permutation_app_tail. symmetry. apply Permutation_rev.
    + destruct (ascending_run lt x1 l) as [run' rest'] eqn:E.
      intros [= <- <-]. apply ascending_run_app in E. subst l. reflexivity.
Qed.

Lemma binary_insert_perm (a : list A) (x : A) :
  Permutation (binary_insert lt a x) (x :: a).
Proof.
  unfold binary_insert. cbv zeta.
  set (k := bisect lt x a 0 (List.length a) (List.length a)).
  rewrite <- (firstn_skipn k a) at 3.
  symmetry. apply Permutation_middle.
Qed.

Lemma fold_binary_insert_perm (rest : list A) :
  forall acc,
    Permutation (fold_left (binary_insert lt) rest acc) (acc ++ rest).
Proof.
  induction rest as [|x rest IH]; intro acc; cbn [fold_left].
  - now rewrite app_nil_r.
  - rewrite IH, binary_insert_perm.
    change (x :: acc) with ([x] ++ acc)%list.
    rewrite (Permutation_app_comm [x] acc), <- app_assoc. reflexivity.
Qed.

Lemma py_sorted_perm (l : list A) : Permutation (py_sorted lt l) l.
Proof.
  unfold py_sorted. destruct (count_run lt l) as [run rest] eqn:E.
  rewrite fold_binary_insert_perm. now apply count_run_perm.
Qed.

Lemma py_sorted_In (l : list A) (x : A) : In x (py_sorted lt l) <-> In x l.
Proof.
  split; apply Permutation_in;
    [apply py_sorted_perm | symmetry; apply py_sorted_perm].
Qed.

Lemma py_sorted_nil (l : list A) : py_sorted lt l = [] -> l = [].
Proof.
  intro H. apply Permutation_nil. rewrite <- H. apply py_sorted_perm.
Qed.

Hypothesis lt_asym : forall x y, lt x y = true -> lt y x = false.
Hypothesis lt_trans : forall x y z, lt x y = true -> lt y z = true -> lt x z = true.

Lemma insert_sorted_sorted (x : A) (l : list A) :
  StronglySorted (not_after lt) l -> StronglySorted (not_after lt) (insert_sorted lt x l).
Proof.
  induction 1 as [|y l Hs IH Hy]; cbn.
  - constructor; constructor.
  - destruct (lt x y) eqn:E.
    + constructor; [constructor; assumption |].
      constructor; [apply lt_asym, E |].
      rewrite Forall_forall in *. intros z Hz. specialize (Hy z Hz).
      unfold not_after in *. destruct (lt z x) eqn:Ez; [| reflexivity].
      rewrite (lt_trans _ _ _ Ez E) in Hy. discriminate Hy.
    + constructor; [exact IH |].
      rewrite Forall_forall in *. intros z Hz.
      apply (Permutation_in _ (insert_sorted_perm x l)) in Hz.
      destruct Hz as [<- | Hz]; [exact E | now apply Hy].
Qed.

Lemma fold_insert_sorted (l acc : list A) :
  StronglySorted (not_after lt) acc ->
  StronglySorted (not_after lt)
    (fold_left (fun acc x => insert_sorted lt x acc) l acc).
Proof.
  revert acc. induction l as [|x l IH]; intros acc H; cbn; [exact H |].
  apply IH, insert_sorted_sorted, H.
Qed.

Lemma sort_with_sorted (l : list A) : StronglySorted (not_after lt) (sort_with lt l).
Proof. apply fold_insert_sorted. constructor. Qed.

(** In a sorted list, what stands later is not less. *)
Lemma sorted_before (l1 l2 l3 : list A) (x y : A) :
  StronglySorted (not_after lt) (l1 ++ x :: l2 ++ y :: l3) -> lt y x = false.
Proof.
  induction l1 as [|z l1 IH]; cbn; intro H.
  - apply StronglySorted_inv in H. destruct H as [_ H].
    rewrite Forall_forall in H. apply H.
    apply in_or_app. right. now left.
  - apply StronglySorted_inv in H. apply IH, H.
Qed.

Lemma sorted_head_last (x d : A) (l : list A) :
  StronglySorted (not_after lt) (x :: l) -> l <> [] -> lt (last l d) x = false.
Proof.
  intros H Hl. apply StronglySorted_inv in H. destruct H as [_ H].
  rewrite Forall_forall in H. apply H.
  destruct (exists_last Hl) as [l' [a ->]]. rewrite last_last.
  apply in_or_app. right. now left.
Qed.

(** *** CPython's steps give the stable sort where [<] orders the keys

    [P] singles out the elements whose keys [<] orders (for floats:
    those whose key is not NaN). *)
Variable P : A -> Prop.
Hypothesis lt_neg :
  forall x y z, P x -> P y -> P z ->
                lt x z = true -> lt x y = true \/ lt y z = true.

Lemma insert_at_end (x : A) (acc : list A) :
  (forall y, In y acc -> lt x y = false) ->
  insert_sorted lt x acc = (acc ++ [x])%list.
Proof.
  induction acc as [|y acc IH]; intro H; cbn; [reflexivity |].
  rewrite (H y (or_introl eq_refl)). f_equal. apply IH.
  intros z Hz. apply H. now right.
Qed.

(** Sorting a list that is in order leaves it as it is. *)
Lemma fold_insert_sorted_id (l : list A) :
  forall acc,
    StronglySorted (not_after lt) (acc ++ l) ->
    fold_left (fun acc x => insert_sorted lt x acc) l acc = (acc ++ l)%list.
Proof.
  induction l as [|x l IH]; intros acc H; cbn [fold_left].
  - now rewrite app_nil_r.
  - rewrite insert_at_end.
    + rewrite IH; rewrite <- app_assoc; [reflexivity | exact H].
    + intros y Hy. apply in_split in Hy. destruct Hy as (l1 & l2 & ->).
      rewrite <- app_assoc in H. cbn [app] in H.
      change (x :: l) with ([] ++ x :: l)%list in H.
      rewrite app_comm_cons in H.
      replace (l1 ++ y :: l2 ++ x :: l)%list
        with (l1 ++ y :: l2 ++ x :: l)%list in H by reflexivity.
      exact (sorted_before l1 l2 l y x H).
Qed.

Lemma sort_with_sorted_id (l : list A) :
  StronglySorted (not_after lt) l -> sort_with lt l = l.
Proof. intro H. unfold sort_with. now rewrite fold_insert_sorted_id. Qed.

Lemma ascending_run_sorted (l : list A) :
  forall prev run rest,
    Forall P (prev :: l) ->
    ascending_run lt prev l = (run, rest) ->
    StronglySorted (not_after lt) (prev :: run).
Proof.
  induction l as [|x l IH]; intros prev run rest HP; cbn [ascending_run].
  - intros [= <- <-]. repeat constructor.
  - destruct (lt x prev) eqn:E; [intros [= <- <-]; repeat constructor |].
    destruct (ascending_run lt x l) as [run' rest'] eqn:Er.
    intros [= <- <-].
    apply Forall_cons_iff in HP. destruct HP as [Pprev HP].
    assert (Hs := IH x run' rest' HP Er).
    constructor; [exact Hs |].
    constructor; [exact E |].
    apply StronglySorted_inv in Hs. destruct Hs as [_ Hx].
    rewrite Forall_forall in *. intros y Hy. specialize (Hx y Hy).
    unfold not_after in *.
    destruct (lt y prev) eqn:Ey; [| reflexivity].
    assert (Py : P y).
    { apply ascending_run_app in Er. subst l.
      apply HP. right. apply in_or_app. now left. }
    destruct (lt_neg y x prev Py (HP x (or_introl eq_refl)) Pprev Ey)
      as [H | H]; congruence.
Qed.

Lemma descending_run_rev (l : list A) :
  forall prev run rest acc,
    descending_run lt prev l = (run, rest) ->
    fold_left (fun acc x => insert_sorted lt x acc) run (prev :: acc)
    = (rev run ++ prev :: acc)%list.
Proof.
  induction l as [|x l IH]; intros prev run rest acc; cbn [descending_run].
  - now intros [= <- <-].
  - destruct (lt x prev) eqn:E; [| now intros [= <- <-]].
    destruct (descending_run lt x l) as [run' rest'] eqn:Er.
    intros [= <- <-]. cbn [fold_left insert_sorted rev]. rewrite E.
    rewrite (IH x run' rest' (prev :: acc) Er).
    now rewrite <- app_assoc.
Qed.

(** On the first run the stable sort does what [count_run] does. *)
Lemma count_run_sorted (l run rest : list A) :
  Forall P l ->
  count_run lt l = (run, rest) ->
  exists run0, l = (run0 ++ rest)%list /\ sort_with lt run0 = run.
Proof.
  intro HP. unfold count_run. destruct l as [|x0 [|x1 l]].
  - intros [= <- <-]. now exists [].
  - intros [= <- <-]. now exists [x0].
  - destruct (lt x1 x0) eqn:E.
    + destruct (descending_run lt x1 l) as [run' rest'] eqn:Er.
      intros [= <- <-]. exists (x0 :: x1 :: run'). split.
      * apply descending_run_app in Er. now subst l.
      * unfold sort_with. cbn [fold_left insert_sorted]. rewrite E.
        rewrite (descending_run_rev l x1 run' rest' [x0] Er).
        cbn [rev]. now rewrite <- !app_assoc.
    + destruct (ascending_run lt x1 l) as [run' rest'] eqn:Er.
      intros [= <- <-]. exists (x0 :: x1 :: run'). split.
      * apply ascending_run_app in Er. now subst l.
      * apply sort_with_sorted_id.
        apply Forall_cons_iff in HP. destruct HP as [P0 HP].
        assert (Hs := ascending_run_sorted l x1 run' rest' HP Er).
        constructor; [exact Hs |].
        constructor; [exact E |].
        apply StronglySorted_inv in Hs. destruct Hs as [_ Hx].
        rewrite Forall_forall in *. intros y Hy. specialize (Hx y Hy).
        unfold not_after in *.
        destruct (lt y x0) eqn:Ey; [| reflexivity].
        assert (Py : P y).
        { apply ascending_run_app in Er. subst l.
          apply HP. right. apply in_or_app. now left. }
        destruct (lt_neg y x1 x0 Py (HP x1 (or_introl eq_refl)) P0 Ey)
          as [H | H]; congruence.
Qed.

(** The place of [x] in [a]: the number of elements at the start of [a]
    that [x] is not less than. *)
Lemma insert_sorted_place (x : A) (a : list A) :
  exists k,
    insert_sorted lt x a = (firstn k a ++ x :: skipn k a)%list
    /\ (k <= List.length a)%nat
    /\ (forall i y, (i < k)%nat -> nth_error a i = Some y -> lt x y = false)
    /\ (forall y, nth_error a k = Some y -> lt x y = true).
Proof.
  induction a as [|h t IH]; cbn [insert_sorted].
  - exists 0%nat. repeat split; [lia | intros i y Hi; lia | discriminate].
  - destruct (lt x h) eqn:E.
    + exists 0%nat. repeat split; [cbn; lia | intros i y Hi; lia |].
      cbn. now intros y [= <-].
    + destruct IH as (k & Hk & Hlen & Hlow & Hat).
      exists (S k). cbn [firstn skipn app List.length]. rewrite Hk.
      repeat split; [lia | |].
      * intros [|i] y Hi; cbn [nth_error].
        -- now intros [= <-].
        -- apply Hlow. lia.
      * cbn [nth_error]. exact Hat.
Qed.

(** In a sorted list every element from the place of [x] on is greater
    than [x]. *)
Lemma sorted_above_place (x : A) (a : list A) :
  StronglySorted (not_after lt) a -> P x -> Forall P a ->
  forall k i y z,
    nth_error a k = Some y -> lt x y = true ->
    (k <= i)%nat -> nth_error a i = Some z -> lt x z = true.
Proof.
  intros Hs Px. induction Hs as [|h t Hs IH Hh]; intros HP k i y z.
  - now destruct k.
  - apply Forall_cons_iff in HP. destruct HP as [Ph HP].
    destruct k as [|k]; cbn [nth_error].
    + intros [= <-] Hy _. destruct i as [|i]; cbn [nth_error].
      * now intros [= <-].
      * intro Hz. apply nth_error_In in Hz.
        rewrite Forall_forall in Hh, HP.
        destruct (lt_neg x z h Px (HP z Hz) Ph Hy) as [H | H];
          [exact H |].
        rewrite (Hh z Hz) in H. discriminate H.
    + intros Hy Hlt Hi. destruct i as [|i]; [lia |]. cbn [nth_error].
      apply (IH HP k i y z Hy Hlt). lia.
Qed.

Lemma half_lt (d : nat) : (0 < d)%nat -> (d / 2 < d)%nat.
Proof. intro H. apply Nat.div_lt; lia. Qed.

(** The binary search finds the place of [x]. *)
Lemma bisect_place (x : A) (a : list A) (k : nat) :
  (k <= List.length a)%nat ->
  (forall i y, (i < k)%nat -> nth_error a i = Some y -> lt x y = false) ->
  (forall i y, (k <= i)%nat -> nth_error a i = Some y -> lt x y = true) ->
  forall fuel l r,
    (l <= k)%nat -> (k <= r)%nat -> (r <= List.length a)%nat ->
    (r - l <= fuel)%nat ->
    bisect lt x a l r fuel = k.
Proof.
  intros Hlen Hlow Hhigh. induction fuel as [|fuel IH]; intros l r Hl Hr Hn Hf.
  - cbn. lia.
  - cbn [bisect]. destruct (Nat.ltb_spec l r) as [Hlr | Hlr]; [| lia].
    pose proof (half_lt (r - l) ltac:(lia)) as Hhalf.
    set (p := (l + (r - l) / 2)%nat) in *.
    assert (Hp : (l <= p < r)%nat) by (unfold p; lia).
    destruct (nth_error a p) as [y|] eqn:Ey.
    2:{ apply nth_error_None in Ey. lia. }
    destruct (lt x y) eqn:E.
    + apply IH; try lia.
      destruct (Nat.le_gt_cases k p) as [H | H]; [exact H |].
      rewrite (Hlow p y H Ey) in E. discriminate E.
    + apply IH; try lia.
      destruct (Nat.le_gt_cases (S p) k) as [H | H]; [exact H |].
      rewrite (Hhigh p y ltac:(lia) Ey) in E. discriminate E.
Qed.

Lemma binary_insert_sorted (x : A) (a : list A) :
  StronglySorted (not_after lt) a -> P x -> Forall P a ->
  binary_insert lt a x = insert_sorted lt x a.
Proof.
  intros Hs Px HP.
  destruct (insert_sorted_place x a) as (k & Hk & Hlen & Hlow & Hat).
  unfold binary_insert. cbv zeta.
  rewrite (bisect_place x a k Hlen Hlow); try lia; [now rewrite Hk |].
  intros i z Hi Hz.
  destruct (nth_error a k) as [y|] eqn:Ey.
  - exact (sorted_above_place x a Hs Px HP k i y z Ey (Hat y eq_refl) Hi Hz).
  - apply nth_error_None in Ey.
    assert (Hsome : nth_error a i <> None) by congruence.
    apply nth_error_Some in Hsome. lia.
Qed.

Lemma fold_binary_insert_sorted (rest : list A) :
  forall acc,
    StronglySorted (not_after lt) acc -> Forall P acc -> Forall P rest ->
    fold_left (binary_insert lt) rest acc
    = fold_left (fun acc x => insert_sorted lt x acc) rest acc.
Proof.
  induction rest as [|x rest IH]; intros acc Hs HP Hrest; cbn [fold_left];
    [reflexivity |].
  apply Forall_cons_iff in Hrest. destruct Hrest as [Px Hrest].
  rewrite (binary_insert_sorted x acc Hs Px HP).
  apply IH; [now apply insert_sorted_sorted | | exact Hrest].
  rewrite Forall_forall in *. intros y Hy.
  apply (Permutation_in _ (insert_sorted_perm x acc)) in Hy.
  destruct Hy as [<- | Hy]; [exact Px | now apply HP].
Qed.

(** Where [<] orders the keys, [sorted] is the stable sort. *)
Lemma py_sorted_stable (l : list A) :
  Forall P l -> py_sorted lt l = sort_with lt l.
Proof.
  intro HP. unfold py_sorted.
  destruct (count_run lt l) as [run rest] eqn:E.
  destruct (count_run_sorted l run rest HP E) as (run0 & -> & Hrun).
  apply Forall_app in HP. destruct HP as [HP0 HPrest].
  assert (Hs : StronglySorted (not_after lt) run).
  { rewrite <- Hrun. apply sort_with_sorted. }
  assert (HPrun : Forall P run).
  { rewrite <- Hrun. rewrite Forall_forall in *. intros y Hy.
    apply HP0. exact (proj1 (sort_with_In run0 y) Hy). }
  rewrite (fold_binary_insert_sorted rest run Hs HPrun HPrest).
  rewrite <- Hrun. unfold sort_with. now rewrite fold_left_app.
Qed.

Lemma py_sorted_sorted (l : list A) :
  Forall P l -> StronglySorted (not_after lt) (py_sorted lt l).
Proof. intro HP. rewrite (py_sorted_stable l HP). apply sort_with_sorted. Qed.

End Generic.

Lemma dedup_In (l : list string) (x : string) :
  In x (dedup String.eqb l) <-> In x l.
Proof.
  induction l as [|y l IH]; cbn; [reflexivity |].
  rewrite filter_In, IH. split.
  - intros [H | [H _]]; [now left | now right].
  - intros [H | H]; [now left |].
    destruct (String.eqb_spec y x) as [E | E]; [now left | right].
    split; [exact H | reflexivity].
Qed.

Lemma sorted_set_In (l : list string) (x : string) :
  In x (sorted_str (py_set l)) <-> In x l.
Proof. unfold sorted_str, py_set. now rewrite py_sorted_In, dedup_In. Qed.

(** ** The order of strings *)

Lemma ascii_compare_lt_trans (a b c : ascii) :
  Ascii.compare a b = Lt -> Ascii.compare b c = Lt -> Ascii.compare a c = Lt.
Proof. unfold Ascii.compare. rewrite !N.compare_lt_iff. lia. Qed.

Lemma string_compare_lt_trans (x : string) :
  forall y z,
    String.compare x y = Lt -> String.compare y z = Lt -> String.compare x z = Lt.
Proof.
  induction x as [|a x IH]; intros [|b y] [|c z]; cbn; try congruence.
  destruct (Ascii.compare a b) eqn:Eab; try discriminate.
  - apply Ascii.compare_eq_iff in Eab. subst b.
    destruct (Ascii.compare a c); try congruence. apply IH.
  - intros _. destruct (Ascii.compare b c) eqn:Ebc; try discriminate.
    + apply Ascii.compare_eq_iff in Ebc. subst c. now rewrite Eab.
    + intros _. now rewrite (ascii_compare_lt_trans _ _ _ Eab Ebc).
Qed.

Lemma string_ltb_trans (x y z : string) :
  String.ltb x y = true -> String.ltb y z = true -> String.ltb x z = true.
Proof.
  unfold String.ltb. intros H1 H2.
  destruct (String.compare x y) eqn:E1; try discriminate.
  destruct (String.compare y z) eqn:E2; try discriminate.
  now rewrite (string_compare_lt_trans _ _ _ E1 E2).
Qed.

Lemma string_ltb_asym (x y : string) :
  String.ltb x y = true -> String.ltb y x = false.
Proof.
  unfold String.ltb. rewrite (String.compare_antisym x y).
  destruct (String.compare y x); cbn; congruence.
Qed.

Lemma string_ltb_irrefl (x : string) : String.ltb x x = false.
Proof.
  destruct (String.ltb x x) eqn:E; [| reflexivity].
  now rewrite (string_ltb_asym _ _ E) in E.
Qed.

Lemma string_ltb_neg (x y z : string) :
  String.ltb x z = true -> String.ltb x y = true \/ String.ltb y z = true.
Proof.
  intro H. destruct (String.ltb x y) eqn:Exy; [now left | right].
  unfold String.ltb in Exy. destruct (String.compare x y) eqn:E;
    try discriminate Exy.
  - apply String.compare_eq_iff in E. now subst y.
  - apply (string_ltb_trans y x z); [| exact H].
    unfold String.ltb. rewrite (String.compare_antisym y x), E. reflexivity.
Qed.

(** On strings [sorted] is the stable sort. *)
Lemma sorted_str_stable (l : list string) :
  sorted_str l = sort_with String.ltb l.
Proof.
  unfold sorted_str.
  apply (py_sorted_stable String.ltb string_ltb_asym string_ltb_trans
                          (fun _ => True)).
  - intros x y z _ _ _. apply string_ltb_neg.
  - apply Forall_forall. intros x _. exact I.
Qed.

Lemma sorted_str_sorted (l : list string) :
  StronglySorted (not_after String.ltb) (sorted_str l).
Proof.
  rewrite sorted_str_stable.
  apply sort_with_sorted; [apply string_ltb_asym | apply string_ltb_trans].
Qed.

(** ** Numeric keys without NaN *)

Lemma sorted_by_stable {A : Type} (key : A -> pyfloat) (l : list A) :
  (forall x, In x l -> key x <> NaN) ->
  sorted_by key l = sort_with (fun x y => ltb (key x) (key y)) l.
Proof.
  intro H. unfold sorted_by.
  apply (py_sorted_stable (fun x y => ltb (key x) (key y))
           (fun x y => FloatFacts.ltb_asym (key x) (key y))
           (fun x y z => FloatFacts.ltb_trans (key x) (key y) (key z))
           (fun x => key x <> NaN)).
  - intros x y z _ Hy _. now apply FloatFacts.ltb_neg.
  - now apply Forall_forall.
Qed.

Lemma sorted_by_sorted {A : Type} (key : A -> pyfloat) (l : list A) :
  (forall x, In x l -> key x <> NaN) ->
  StronglySorted (not_after (fun x y => ltb (key x) (key y))) (sorted_by key l).
Proof.
  intro H. rewrite (sorted_by_stable key l H).
  apply sort_with_sorted.
  - intros x y. apply FloatFacts.ltb_asym.
  - intros x y z. apply FloatFacts.ltb_trans.
Qed.

Lemma sorted_by_In {A : Type} (key : A -> pyfloat) (l : list A) (x : A) :
  In x (sorted_by key l) <-> In x l.
Proof. unfold sorted_by. apply py_sorted_In. Qed.

End SortFacts.

(* ================================================================== *)
(** * Size ordering: theorems *)
(* ================================================================== *)

Module OrderFacts.
Import PyStr PyFloat PyData Engine FloatFacts SortFacts.

(** C7, as the claim states it, fails for a parsable label of magnitude
    above 999: the unparsable label [big] has the key 999, not infinity,
    and sorts before [1000m]. *)
Lemma unparsable_before_large_size :
  py_float (remove_char "M" (remove_char "m" "big")) = None
  /\ py_float (remove_char "M" (remove_char "m" "1000m")) = Some (Fin 1000)
  /\ sorted_by size_sort_key ["1000m"; "big"] = ["big"; "1000m"].
Proof. repeat split. Qed.

Lemma four_sizes_distinct : NoDup ["default"; "0.1m"; "1m"; "10m"].
Proof.
  repeat constructor; cbn; intro H;
    repeat (destruct H as [H | H]; [discriminate H |]); exact H.
Qed.

(** C7 (amended): [default] has the key 0; any other label has as key
    the float read after every [m] and [M] is removed from it, and the
    key 999 when that text is not a float.  So the four labels [default],
    [0.1m], [1m], [10m] sort as given from whatever order they come in;
    in no sorted list of labels whose keys are all numbers does [10m]
    stand before [1m], while a label that reads as NaN (such as [nan])
    lets it: the list [10m], [nan], [1m] is returned as it is; and an
    unparsable label sorts after every label whose key is a number below
    999 (not after a label of larger magnitude). *)
Theorem size_ordering :
  size_sort_key "default" = Fin 0
  /\ (forall s v, s <> "default" ->
        py_float (remove_char "M" (remove_char "m" s)) = Some v ->
        size_sort_key s = v)
  /\ (forall s, s <> "default" ->
        py_float (remove_char "M" (remove_char "m" s)) = None ->
        size_sort_key s = Fin 999)
  /\ (forall l, Permutation l ["default"; "0.1m"; "1m"; "10m"] ->
        sorted_by size_sort_key l = ["default"; "0.1m"; "1m"; "10m"])
  /\ (forall l l1 l2 l3,
        (forall s, In s l -> size_sort_key s <> NaN) ->
        sorted_by size_sort_key l <> l1 ++ "10m" :: l2 ++ "1m" :: l3)
  /\ (size_sort_key "nan" = NaN
      /\ sorted_by size_sort_key ["10m"; "nan"; "1m"] = ["10m"; "nan"; "1m"])
  /\ (forall p u q,
        size_sort_key p = Fin q -> (q < 999)%Q ->
        size_sort_key u = Fin 999 ->
        sorted_by size_sort_key [u; p] = [p; u]
        /\ sorted_by size_sort_key [p; u] = [p; u]).
Proof.
  split; [reflexivity |].
  split.
  { intros s v Hs Hv. unfold size_sort_key.
    apply String.eqb_neq in Hs. now rewrite Hs, Hv. }
  split.
  { intros s Hs Hv. unfold size_sort_key.
    apply String.eqb_neq in Hs. now rewrite Hs, Hv. }
  split.
  { intros l H.
    assert (Hlen := Permutation_length H).
    assert (Hnd : NoDup l).
    { apply (Permutation_NoDup (Permutation_sym H)), four_sizes_distinct. }
    assert (Hin : forall x, In x l -> In x ["default"; "0.1m"; "1m"; "10m"]).
    { intros x. apply Permutation_in, H. }
    destruct l as [|w [|x [|y [|z [|]]]]]; try discriminate Hlen.
    assert (Hw := Hin w (or_introl eq_refl)).
    assert (Hx := Hin x (or_intror (or_introl eq_refl))).
    assert (Hy := Hin y (or_intror (or_intror (or_introl eq_refl)))).
    assert (Hz := Hin z (or_intror (or_intror (or_intror (or_introl eq_refl))))).
    clear Hin Hlen H.
    apply NoDup_cons_iff in Hnd. destruct Hnd as [Nw Hnd].
    apply NoDup_cons_iff in Hnd. destruct Hnd as [Nx Hnd].
    apply NoDup_cons_iff in Hnd. destruct Hnd as [Ny _].
    cbn in Hw, Hx, Hy, Hz, Nw, Nx, Ny.
    destruct Hw as [<- | [<- | [<- | [<- | []]]]];
      destruct Hx as [<- | [<- | [<- | [<- | []]]]];
      try (exfalso; apply Nw; tauto);
      destruct Hy as [<- | [<- | [<- | [<- | []]]]];
      try (exfalso; apply Nw; tauto); try (exfalso; apply Nx; tauto);
      destruct Hz as [<- | [<- | [<- | [<- | []]]]];
      try (exfalso; apply Nw; tauto); try (exfalso; apply Nx; tauto);
      try (exfalso; apply Ny; tauto);
      vm_compute; reflexivity. }
  split.
  { intros l l1 l2 l3 Hnan E.
    pose proof (sorted_by_sorted size_sort_key l Hnan) as Hs. rewrite E in Hs.
    apply sorted_before in Hs. vm_compute in Hs. discriminate Hs. }
  split.
  { split; vm_compute; reflexivity. }
  intros p u q Hp Hq Hu.
  assert (E1 : Qltb q 999 = true) by now apply Qltb_lt.
  assert (E2 : Qltb 999 q = false) by (apply Qltb_ge; now apply Qlt_le_weak).
  unfold sorted_by, py_sorted, count_run.
  rewrite Hp, Hu. cbn [ltb]. rewrite E1, E2.
  cbn [descending_run ascending_run rev app fold_left]. split; reflexivity.
Qed.

Lemma size_ordering_witness :
  sorted_by size_sort_key ["10m"; "default"; "1m"; "0.1m"]
  = ["default"; "0.1m"; "1m"; "10m"]
  /\ sorted_by size_sort_key ["huge"; "10m"] = ["10m"; "huge"].
Proof.
  destruct size_ordering as [_ [_ [_ [Hperm [_ [_ Hpair]]]]]]. split.
  - apply Hperm.
    apply (Permutation_trans (l' := ["default"; "10m"; "1m"; "0.1m"]));
      [apply perm_swap |].
    apply perm_skip.
    apply (Permutation_trans (l' := ["1m"; "10m"; "0.1m"]));
      [apply perm_swap |].
    apply (Permutation_trans (l' := ["1m"; "0.1m"; "10m"]));
      [apply perm_skip, perm_swap | apply perm_swap].
  - apply (proj1 (Hpair "10m" "huge" 10%Q eq_refl eq_refl eq_refl)).
Defined.

End OrderFacts.

(* ================================================================== *)
(** * Throughput: theorems *)
(* ================================================================== *)

Module ThroughputFacts.
Import Py PyStr PyFloat PyData Resolver Engine EngineSpec EngineExamples.
Import FloatNotions FloatFacts ResolverFacts.

#[local] Arguments overflows : simpl never.
#[local] Arguments underflows : simpl never.

(** C3, as the claim states it, fails on the unit: for a file of one GiB
    read in one second the derived throughput is 1 (GiB per second), not
    1073741824 (bytes per second). *)
Lemma throughput_is_in_gib_per_second :
  match plot_throughput gib_fixture
          [("1m_hot_raw", [timing "needletail" 1 0])]
          [("1m_hot_raw", "benchmark_results/run/1m/hot_raw.json")]
          "hot" "raw" with
  | Ok (Some chart) =>
      map (fun r => eqb (throughput_gbs r) (Fin 1)) (tc_rows chart) = [true]
      /\ map (fun r => eqb (throughput_gbs r) (Fin (1073741824 / 1)))
             (tc_rows chart) = [false]
  | _ => False
  end.
Proof. vm_compute. split; reflexivity. Qed.

Lemma rounded_normal (q : Q) :
  overflows q = false -> underflows q = false -> rounded q = Fin q.
Proof. intros H1 H2. unfold rounded. now rewrite H1, H2. Qed.

Lemma exact_no_overflow (q : Q) : exact q = true -> overflows q = false.
Proof.
  unfold exact. intro H. apply orb_true_iff in H. destruct H as [H | H].
  - apply Qeq_bool_iff in H. now apply overflows_zero.
  - apply andb_true_iff in H. destruct H as [H _]. now apply negb_true_iff.
Qed.

Lemma exact_nonzero (q : Q) :
  exact q = true -> ~ (q == 0)%Q -> overflows q = false /\ underflows q = false.
Proof.
  unfold exact. intros H Hne. apply orb_true_iff in H. destruct H as [H | H].
  - apply Qeq_bool_iff in H. contradiction.
  - apply andb_true_iff in H. destruct H as [H1 H2].
    split; now apply negb_true_iff.
Qed.

(** What rounds to zero does not round to an infinity. *)
Lemma underflows_no_overflow (q : Q) : underflows q = true -> overflows q = false.
Proof.
  unfold underflows, overflows. intro H. apply Qle_bool_iff in H.
  destruct (Qle_bool overflow_bound (Qabs q)) eqn:E; [| reflexivity].
  apply Qle_bool_iff in E.
  assert (L : (overflow_bound <= underflow_bound)%Q)
    by (eapply Qle_trans; eassumption).
  vm_compute in L. now elim L.
Qed.

Lemma int_truediv_exact (a b : Z) :
  exact (inject_Z a / inject_Z b) = true ->
  exists g, int_truediv a b = Ok (Fin g)
            /\ (g == inject_Z a / inject_Z b)%Q.
Proof.
  intro H. unfold int_truediv. rewrite (exact_no_overflow _ H).
  destruct (rounded_exact _ _ H (Qeq_refl _)) as (g & -> & E).
  now exists g.
Qed.

Lemma int_truediv_Fin (a b : Z) (v : pyfloat) :
  int_truediv a b = Ok v -> exists g, v = Fin g.
Proof.
  unfold int_truediv, rounded.
  destruct (overflows (inject_Z a / inject_Z b)); [discriminate |].
  destruct (underflows (inject_Z a / inject_Z b)); intros [= <-]; eauto.
Qed.

Lemma int_truediv_raises (a b : Z) (e : exn) :
  int_truediv a b = Raise e -> exists msg, e = OverflowError msg.
Proof.
  unfold int_truediv.
  destruct (overflows (inject_Z a / inject_Z b)); [| discriminate].
  intros [= <-]. eauto.
Qed.

Lemma pow2_raises (x : pyfloat) (e : exn) :
  pow2 x = Raise e -> exists msg, e = OverflowError msg.
Proof.
  destruct x as [q| | |]; cbn [pow2]; try discriminate.
  destruct (overflows (q * q)); [| discriminate].
  intros [= <-]. eauto.
Qed.

Lemma positive_mean (m : Q) : (0 < m)%Q -> ~ (m == 0)%Q /\ ~ (m * m == 0)%Q.
Proof.
  intro H.
  assert (Hne : ~ (m == 0)%Q).
  { intro E. rewrite E in H. exact (Qlt_irrefl _ H). }
  split; [exact Hne |]. intro E. apply Qmult_integral in E. tauto.
Qed.

(** C3 (amended): for a run record with resolved file size S bytes, mean
    time m > 0 and standard deviation s, the derived throughput is in GiB
    per second.  As long as the size in GiB and in MiB, the square of m
    and the product and quotients formed from them are within the range
    of a float, the throughput equals (S / 1024^3) / m, that is S / m
    bytes per second divided by 1024^3, and the propagated uncertainty
    equals (S / 1024^3) * s / m^2.  A mean so small that its square is
    rounded to zero makes the row raise [ZeroDivisionError], a mean so
    large that its square is out of range [OverflowError]. *)
Theorem throughput_formula
        (bytes : Z) (size_value : pyfloat) (size_display : string)
        (row : Row) (m s : Q) :
  mean row = Fin m -> (0 < m)%Q -> stddev_or_zero row = Fin s ->
  (exact (inject_Z bytes / inject_Z (1024 ^ 3)) = true ->
   exact (m * m) = true ->
   exact (inject_Z bytes / inject_Z (1024 ^ 3) / m) = true ->
   exact (inject_Z bytes / inject_Z (1024 ^ 3) * s) = true ->
   exact (inject_Z bytes / inject_Z (1024 ^ 3) * s / (m * m)) = true ->
   overflows (inject_Z bytes / inject_Z (1024 ^ 2)) = false ->
   exists gb t tp tsd,
     int_truediv bytes (1024 ^ 3) = Ok gb
     /\ throughput_of_row bytes gb size_value size_display row = Ok (Some t)
     /\ throughput_gbs t = Fin tp
     /\ throughput_stddev t = Fin tsd
     /\ (tp * inject_Z (1024 ^ 3) == inject_Z bytes / m)%Q
     /\ (tsd * inject_Z (1024 ^ 3) == inject_Z bytes * s / (m * m))%Q)
  /\ (forall gb,
        underflows (m * m) = true ->
        throughput_of_row bytes gb size_value size_display row
        = Raise ZeroDivisionError)
  /\ (forall gb,
        overflows (m * m) = true ->
        exists msg,
          throughput_of_row bytes gb size_value size_display row
          = Raise (OverflowError msg)).
Proof.
  intros Hm Hpos Hs.
  destruct (positive_mean m Hpos) as [Hne Hne2].
  assert (Hgt : gtb (Fin m) (Fin 0) = true) by now apply gtb_zero.
  split; [| split].
  - intros HG Hsq Hq Hp Hq2 Hmb.
    destruct (int_truediv_exact bytes (1024 ^ 3) HG) as (g & Hgb & Eg).
    destruct (exact_nonzero (m * m) Hsq Hne2) as [Ho Hu].
    assert (E1 : (g / m == inject_Z bytes / inject_Z (1024 ^ 3) / m)%Q)
      by now rewrite Eg.
    destruct (rounded_exact _ _ Hq E1) as (tp & Htp & Etp).
    assert (E2 : (g * s == inject_Z bytes / inject_Z (1024 ^ 3) * s)%Q)
      by now rewrite Eg.
    destruct (rounded_exact _ _ Hp E2) as (e1 & He1 & Ee1).
    assert (E3 : (e1 / (m * m)
                  == inject_Z bytes / inject_Z (1024 ^ 3) * s / (m * m))%Q)
      by now rewrite Ee1.
    destruct (rounded_exact _ _ Hq2 E3) as (tsd & Htsd & Etsd).
    exists (Fin g).
    unfold throughput_of_row. cbv zeta. rewrite Hm, Hs, Hgt.
    rewrite (div_Fin g m Hne). cbn [bind pow2]. rewrite Ho.
    rewrite (rounded_normal (m * m) Ho Hu). cbn [bind mul].
    rewrite He1, (div_Fin e1 (m * m) Hne2). cbn [bind].
    unfold int_truediv. rewrite Hmb. cbn [bind].
    rewrite Htp, Htsd.
    eexists. exists tp, tsd. split; [exact Hgb |].
    split; [reflexivity |]. cbn [throughput_gbs throughput_stddev].
    split; [reflexivity |]. split; [reflexivity |].
    assert (N : ~ (inject_Z (1024 ^ 3) == 0)%Q)
      by (intro E; vm_compute in E; discriminate E).
    split.
    + rewrite Etp. field. split; assumption.
    + rewrite Etsd. field. split; assumption.
  - intros gb Hu. unfold throughput_of_row. cbv zeta. rewrite Hm, Hgt.
    destruct (div_defined gb (Fin m) (proj2 (is_zero_Fin m) Hne)) as [v ->].
    cbn [bind pow2]. rewrite (underflows_no_overflow _ Hu). cbn [bind].
    unfold rounded. rewrite (underflows_no_overflow _ Hu), Hu.
    now rewrite div_by_zero.
  - intros gb Ho. unfold throughput_of_row. cbv zeta. rewrite Hm, Hgt.
    destruct (div_defined gb (Fin m) (proj2 (is_zero_Fin m) Hne)) as [v ->].
    cbn [bind pow2]. rewrite Ho. cbn [bind]. eauto.
Qed.

Lemma throughput_formula_witness :
  exists gb t tp tsd,
    int_truediv (1024 ^ 3) (1024 ^ 3) = Ok gb
    /\ throughput_of_row (1024 ^ 3) gb (Fin 1) "1M" (timing "needletail" 2 0.5)
       = Ok (Some t)
    /\ throughput_gbs t = Fin tp
    /\ throughput_stddev t = Fin tsd
    /\ (tp * inject_Z (1024 ^ 3) == inject_Z (1024 ^ 3) / 2)%Q
    /\ (tsd * inject_Z (1024 ^ 3) == inject_Z (1024 ^ 3) * 0.5 / (2 * 2))%Q.
Proof.
  apply (proj1 (throughput_formula (1024 ^ 3) (Fin 1) "1M"
                  (timing "needletail" 2 0.5) 2 0.5
                  eq_refl eq_refl eq_refl));
    vm_compute; reflexivity.
Defined.

(** A row whose mean time is not positive gives no entry. *)
Lemma throughput_of_row_skips
      (bytes : Z) (gb size_value : pyfloat) (size_display : string) (row : Row) :
  gtb (mean row) (Fin 0) = false ->
  throughput_of_row bytes gb size_value size_display row = Ok None.
Proof. intro H. unfold throughput_of_row. cbv zeta. now rewrite H. Qed.

(** What a row gives: an entry with its command and mean time, when its
    mean is positive; and the only exceptions are those of the square and
    of the divisions. *)
Lemma throughput_of_row_entry
      (bytes : Z) (gb size_value : pyfloat) (size_display : string)
      (row : Row) (r : ThroughputRow) :
  throughput_of_row bytes gb size_value size_display row = Ok (Some r) ->
  gtb (mean row) (Fin 0) = true
  /\ t_command r = command row
  /\ t_size_value r = size_value
  /\ t_size_display r = size_display
  /\ mean_time r = mean row.
Proof.
  unfold throughput_of_row. cbv zeta.
  destruct (gtb (mean row) (Fin 0)); [| discriminate].
  destruct (div gb (mean row)); [| discriminate]. cbn [bind].
  destruct (pow2 (mean row)); [| discriminate]. cbn [bind].
  destruct (div (mul gb (stddev_or_zero row)) a0); [| discriminate].
  cbn [bind].
  destruct (int_truediv bytes (1024 ^ 2)); [| discriminate]. cbn [bind].
  intros [= <-]. repeat split.
Qed.

Lemma throughput_of_row_positive
      (bytes : Z) (gb size_value : pyfloat) (size_display : string)
      (row : Row) (o : option ThroughputRow) :
  gtb (mean row) (Fin 0) = true ->
  throughput_of_row bytes gb size_value size_display row = Ok o ->
  exists r, o = Some r.
Proof.
  intro Hgt. unfold throughput_of_row. cbv zeta. rewrite Hgt.
  destruct (div gb (mean row)); [| discriminate]. cbn [bind].
  destruct (pow2 (mean row)); [| discriminate]. cbn [bind].
  destruct (div (mul gb (stddev_or_zero row)) a0); [| discriminate].
  cbn [bind].
  destruct (int_truediv bytes (1024 ^ 2)); [| discriminate]. cbn [bind].
  intros [= <-]. eauto.
Qed.

Lemma throughput_of_row_raises
      (bytes : Z) (gb size_value : pyfloat) (size_display : string)
      (row : Row) (e : exn) :
  throughput_of_row bytes gb size_value size_display row = Raise e ->
  e = ZeroDivisionError \/ exists msg, e = OverflowError msg.
Proof.
  unfold throughput_of_row. cbv zeta.
  destruct (gtb (mean row) (Fin 0)); [| discriminate].
  destruct (div gb (mean row)) as [v|e1] eqn:E1; cbn [bind].
  2:{ intros [= <-]. left. now apply div_raises in E1. }
  destruct (pow2 (mean row)) as [sq|e2] eqn:E2; cbn [bind].
  2:{ intros [= <-]. right. now apply pow2_raises in E2. }
  destruct (div (mul gb (stddev_or_zero row)) sq) as [w|e3] eqn:E3;
    cbn [bind].
  2:{ intros [= <-]. left. now apply div_raises in E3. }
  destruct (int_truediv bytes (1024 ^ 2)) as [mb|e4] eqn:E4; cbn [bind];
    [discriminate |].
  intros [= <-]. right. now apply int_truediv_raises in E4.
Qed.

Lemma throughput_of_rows_spec
      (bytes : Z) (gb size_value : pyfloat) (size_display : string) (df : Table) :
  forall acc,
    (forall out,
        throughput_of_rows bytes gb size_value size_display df acc = Ok out ->
        forall r, In r out ->
          In r acc
          \/ exists row, In row df
             /\ throughput_of_row bytes gb size_value size_display row
                = Ok (Some r))
    /\ (forall e,
          throughput_of_rows bytes gb size_value size_display df acc = Raise e ->
          e = ZeroDivisionError \/ exists msg, e = OverflowError msg).
Proof.
  induction df as [|row df IH]; intro acc; cbn [throughput_of_rows].
  - split; [intros out [= <-] r Hr; now left | discriminate].
  - destruct (throughput_of_row bytes gb size_value size_display row)
      as [o|e0] eqn:Ho; cbn [bind].
    2:{ split; [discriminate |]. intros e [= <-].
        now apply throughput_of_row_raises in Ho. }
    destruct (IH (match o with Some t => acc ++ [t] | None => acc end))
      as [Hok Hraise].
    split; [| exact Hraise].
    intros out E r Hr. destruct (Hok out E r Hr) as [Hacc | [row' [Hin Hrow]]].
    + destruct o as [t|]; [| now left].
      apply in_app_or in Hacc. destruct Hacc as [Hacc | [<- | []]];
        [now left | right].
      exists row. split; [now left | exact Ho].
    + right. exists row'. split; [now right | exact Hrow].
Qed.

Lemma entry_from_more_keys fs all_data avail key keys r :
  entry_from fs all_data avail keys r ->
  entry_from fs all_data avail (key :: keys) r.
Proof.
  intros (k & jp & b & gb & v & row & Hk & H). exists k, jp, b, gb, v, row.
  split; [now right | exact H].
Qed.

Lemma collect_throughput_spec
      (fs : FS) (all_data : DataDict) (avail : list (string * string))
      (keys : list string) :
  forall acc size_map,
    (forall out size_map',
        collect_throughput fs all_data avail keys acc size_map
        = Ok (out, size_map') ->
        forall r, In r out ->
          In r acc \/ entry_from fs all_data avail keys r)
    /\ (forall e,
          collect_throughput fs all_data avail keys acc size_map = Raise e ->
          e = ZeroDivisionError \/ exists msg, e = OverflowError msg).
Proof.
  induction keys as [|key keys IH]; intros acc size_map;
    cbn [collect_throughput].
  - split; [intros out sm [= <- <-] r Hr; now left | discriminate].
  - assert (Hskip :
              (forall out size_map',
                  collect_throughput fs all_data avail keys acc size_map
                  = Ok (out, size_map') ->
                  forall r, In r out ->
                    In r acc \/ entry_from fs all_data avail (key :: keys) r)
              /\ (forall e,
                    collect_throughput fs all_data avail keys acc size_map
                    = Raise e ->
                    e = ZeroDivisionError \/ exists msg, e = OverflowError msg)).
    { destruct (IH acc size_map) as [Hok Hraise]. split; [| exact Hraise].
      intros out sm E r Hr. destruct (Hok out sm E r Hr); [now left | right].
      now apply entry_from_more_keys. }
    destruct (dict_get String.eqb avail key) as [json_path|] eqn:Ejp;
      [| exact Hskip].
    destruct (get_file_size_bytes_total fs json_path) as [size Hsize].
    rewrite Hsize. cbn [bind].
    destruct size as [bytes|]; [| exact Hskip].
    destruct (Z.eqb_spec bytes 0) as [Hz | Hz]; [exact Hskip |].
    destruct (extract_size_info key) as [[size_value size_key] size_display]
      eqn:Einfo.
    destruct size_value as [v|]; [| exact Hskip].
    destruct (int_truediv bytes (1024 ^ 3)) as [gb|e0] eqn:Egb; cbn [bind].
    2:{ split; [discriminate |]. intros e [= <-]. right.
        now apply int_truediv_raises in Egb. }
    destruct (throughput_of_rows_spec bytes gb v size_display
                (table_of all_data key) acc) as [Rok Rraise].
    destruct (throughput_of_rows bytes gb v size_display
                (table_of all_data key) acc) as [rows|e1] eqn:Erows;
      cbn [bind].
    2:{ split; [discriminate |]. intros e [= <-]. now apply Rraise. }
    destruct (IH rows (dict_set eqb size_map v size_display))
      as [Hok Hraise].
    split; [| exact Hraise].
    intros out sm E r Hr. destruct (Hok out sm E r Hr) as [Hin | Hfrom].
    + destruct (Rok rows eq_refl r Hin) as [Hacc | [row [Hrow Hmk]]];
        [now left | right].
      exists key, json_path, bytes, gb, v, row. rewrite Einfo. cbn [fst snd].
      repeat split; try assumption; [now left |].
      now apply throughput_of_row_entry in Hmk.
    + right. now apply entry_from_more_keys.
Qed.

Lemma plot_throughput_spec
      (fs : FS) (all_data : DataDict) (avail : list (string * string))
      (cache_type file_format : string) :
  (forall chart,
      plot_throughput fs all_data avail cache_type file_format
      = Ok (Some chart) ->
      forall r, In r (tc_rows chart) ->
        entry_from fs all_data avail
                   (matching_keys all_data cache_type file_format) r)
  /\ (forall e,
        plot_throughput fs all_data avail cache_type file_format = Raise e ->
        e = ZeroDivisionError \/ exists msg, e = OverflowError msg).
Proof.
  unfold plot_throughput.
  destruct (matching_keys all_data cache_type file_format) as [|k ks] eqn:Ek.
  - split; discriminate.
  - destruct (collect_throughput_spec fs all_data avail (k :: ks) [] [])
      as [Hok Hraise].
    destruct (collect_throughput fs all_data avail (k :: ks) [] [])
      as [[rows sm]|e0]; cbn [bind].
    2:{ split; [discriminate |]. intros e [= <-]. now apply Hraise. }
    destruct rows as [|r0 rows]; [split; discriminate |].
    split; [| discriminate].
    intros chart [= <-] r Hr. cbn [tc_rows] in Hr.
    destruct (Hok _ _ eq_refl r Hr) as [[] | Hfrom]. exact Hfrom.
Qed.

Lemma rounded_not_nan (q : Q) : is_nan (rounded q) = false.
Proof.
  unfold rounded. destruct (overflows q); [now destruct (Qltb q 0) |].
  now destruct (underflows q).
Qed.

(** With finite timing values no NaN comes out of a row. *)
Lemma no_nan_entry
      (bytes : Z) (g : Q) (size_value : pyfloat) (size_display : string)
      (row : Row) (r : ThroughputRow) :
  is_finite (mean row) = true ->
  is_finite (stddev_or_zero row) = true ->
  throughput_of_row bytes (Fin g) size_value size_display row = Ok (Some r) ->
  is_nan (throughput_gbs r) = false /\ is_nan (throughput_stddev r) = false.
Proof.
  intros Hm Hs. unfold throughput_of_row. cbv zeta.
  destruct (mean row) as [m| | |]; try discriminate Hm.
  destruct (stddev_or_zero row) as [s| | |]; try discriminate Hs.
  destruct (gtb (Fin m) (Fin 0)) eqn:E; [| discriminate].
  apply gtb_zero in E. destruct (positive_mean m E) as [Hne _].
  rewrite (div_Fin g m Hne). cbn [bind pow2 mul].
  destruct (overflows (m * m)) eqn:Ho; [discriminate |]. cbn [bind].
  assert (Hsq : exists b, rounded (m * m) = Fin b).
  { unfold rounded. rewrite Ho. destruct (underflows (m * m)); eauto. }
  destruct Hsq as [b ->].
  unfold div.
  destruct (is_zero (Fin b)); [discriminate |]. cbn [bind].
  destruct (int_truediv bytes (1024 ^ 2)); [| discriminate]. cbn [bind].
  intros [= <-]. cbn [throughput_gbs throughput_stddev].
  split; [apply rounded_not_nan |].
  pose proof (rounded_not_nan (g * s)) as N2.
  destruct (rounded (g * s)) as [x1| | |];
    try discriminate N2; try apply rounded_not_nan.
  - now destruct (Qltb b 0).
  - now destruct (Qltb b 0).
Qed.

(** C4, as the claim states it, fails on finite timing values: for a
    file of one GiB, a mean time of 1e-160 seconds and a standard
    deviation of one second the uncertainty stored in the table is
    infinite. *)
Lemma throughput_can_be_infinite :
  match plot_throughput gib_fixture
          [("1m_hot_raw", [timing "needletail" (1 # 10 ^ 160) 1])]
          [("1m_hot_raw", "benchmark_results/run/1m/hot_raw.json")]
          "hot" "raw" with
  | Ok (Some chart) => map throughput_stddev (tc_rows chart) = [PInf]
  | _ => False
  end.
Proof. vm_compute. reflexivity. Qed.

(** C4 (amended): every entry of a returned throughput table comes from
    a row whose mean time is positive, under a key whose file size
    resolved to a known, non-zero number of bytes; a row whose mean time
    is zero, negative or NaN and a key of unknown size give no entry.
    The values are computed in floats without a check of their range:
    when the timing columns hold finite numbers no entry holds a NaN, but
    an entry may hold an infinity; and the only exceptions of the
    function are [ZeroDivisionError] and [OverflowError], which come from
    a mean whose square is out of range (or from a size too large for a
    float). *)
Theorem throughput_entries_are_defined
        (fs : FS) (all_data : DataDict) (avail : list (string * string))
        (cache_type file_format : string) :
  (forall chart r,
      plot_throughput fs all_data avail cache_type file_format = Ok (Some chart) ->
      In r (tc_rows chart) ->
      entry_from fs all_data avail
                 (matching_keys all_data cache_type file_format) r
      /\ gtb (mean_time r) (Fin 0) = true)
  /\
  (forall bytes gb size_value size_display row,
      gtb (mean row) (Fin 0) = false ->
      throughput_of_row bytes gb size_value size_display row = Ok None)
  /\
  (forall bytes gb size_value size_display row m,
      mean row = Fin m -> (m <= 0)%Q ->
      throughput_of_row bytes gb size_value size_display row = Ok None)
  /\
  (forall chart r,
      plot_throughput fs all_data avail cache_type file_format = Ok (Some chart) ->
      (forall key row, In row (table_of all_data key) ->
                       is_finite (mean row) = true
                       /\ is_finite (stddev_or_zero row) = true) ->
      In r (tc_rows chart) ->
      is_nan (throughput_gbs r) = false
      /\ is_nan (throughput_stddev r) = false)
  /\
  (forall e,
      plot_throughput fs all_data avail cache_type file_format = Raise e ->
      e = ZeroDivisionError \/ exists msg, e = OverflowError msg).
Proof.
  destruct (plot_throughput_spec fs all_data avail cache_type file_format)
    as [Hok Hraise].
  split.
  { intros chart r Hc Hr.
    pose proof (Hok chart Hc r Hr) as Hfrom. split; [exact Hfrom |].
    destruct Hfrom
      as (k & jp & b & gb & v & row & _ & _ & _ & _ & _ & _ & _ & Hpos & Hmk).
    apply throughput_of_row_entry in Hmk.
    destruct Hmk as (_ & _ & _ & _ & ->). exact Hpos. }
  split; [intros; now apply throughput_of_row_skips |].
  split.
  { intros bytes gb size_value size_display row m Hm Hle.
    apply throughput_of_row_skips. rewrite Hm. unfold gtb. cbn.
    now apply Qltb_ge. }
  split; [| exact Hraise].
  intros chart r Hc Hfin Hr.
  destruct (Hok chart Hc r Hr)
    as (k & jp & b & gb & v & row & _ & _ & _ & _ & Hgb & _ & Hrow & _ & Hmk).
  destruct (Hfin k row Hrow) as [Hm Hs].
  destruct (int_truediv_Fin _ _ _ Hgb) as [g ->].
  eapply no_nan_entry; eassumption.
Qed.

Lemma throughput_entries_are_defined_witness :
  throughput_of_row (1024 ^ 3) (Fin 1) (Fin 1) "1M" (timing "needletail" 0 0)
  = Ok None
  /\ match plot_throughput gib_fixture
             [("1m_hot_raw", [timing "needletail" 2 0.5; timing "stalled" 0 0])]
             [("1m_hot_raw", "benchmark_results/run/1m/hot_raw.json")]
             "hot" "raw" with
     | Ok (Some chart) =>
         Forall (fun r => gtb (mean_time r) (Fin 0) = true
                          /\ is_nan (throughput_gbs r) = false
                          /\ is_nan (throughput_stddev r) = false)
                (tc_rows chart)
     | _ => False
     end.
Proof.
  pose proof (throughput_entries_are_defined gib_fixture
                [("1m_hot_raw", [timing "needletail" 2 0.5; timing "stalled" 0 0])]
                [("1m_hot_raw", "benchmark_results/run/1m/hot_raw.json")]
                "hot" "raw") as (Hfrom & _ & Hskip & Hnan & _).
  split.
  - apply (Hskip (1024 ^ 3)%Z (Fin 1) (Fin 1) "1M" (timing "needletail" 0 0) 0%Q);
      [reflexivity | discriminate].
  - destruct (plot_throughput gib_fixture _ _ "hot" "raw") as [[chart|]|] eqn:E;
      [| vm_compute in E; discriminate E | vm_compute in E; discriminate E].
    apply Forall_forall. intros r Hr. split.
    + exact (proj2 (Hfrom chart r eq_refl Hr)).
    + apply (Hnan chart r eq_refl); [| exact Hr].
      intros key row Hrow. unfold table_of in Hrow. cbn in Hrow.
      destruct (String.eqb key "1m_hot_raw"); cbn in Hrow;
        [destruct Hrow as [<- | [<- | []]]; split; reflexivity | contradiction].
Defined.

End ThroughputFacts.

(* ================================================================== *)
(** * Scaling efficiency: theorems *)
(* ================================================================== *)

Module ScalingFacts.
Import Py PyStr PyFloat PyData Engine EngineSpec EngineExamples.
Import FloatNotions FloatFacts SortFacts.

#[local] Arguments overflows : simpl never.
#[local] Arguments underflows : simpl never.

Lemma parser_series_sorted (scaling_df : list ScalingRow) (parser : string) :
  StronglySorted
    (not_after (fun a b => polars_ltb (s_size_value a) (s_size_value b)))
    (parser_series scaling_df parser).
Proof.
  unfold parser_series. apply sort_with_sorted.
  - intros x y. apply polars_ltb_asym.
  - intros x y z. apply polars_ltb_trans.
Qed.

Lemma exact_wd (e q : Q) : (e == q)%Q -> exact e = exact q.
Proof.
  intro E. unfold exact.
  rewrite (overflows_wd e q E), (underflows_wd e q E). f_equal.
  destruct (Qeq_bool e 0) eqn:H1, (Qeq_bool q 0) eqn:H2; try reflexivity.
  - apply Qeq_bool_iff in H1. rewrite E in H1. apply Qeq_bool_iff in H1.
    congruence.
  - apply Qeq_bool_iff in H2. rewrite <- E in H2. apply Qeq_bool_iff in H2.
    congruence.
Qed.

(** A ratio of two sizes in ascending order is not rounded to zero. *)
Lemma size_ratio_not_small (ss sl : Q) :
  (0 < ss)%Q -> (ss <= sl)%Q ->
  (0 < sl / ss)%Q /\ underflows (sl / ss) = false.
Proof.
  intros Hs Hle.
  assert (H1 : (1 <= sl / ss)%Q).
  { apply Qle_shift_div_l; [exact Hs |]. now rewrite Qmult_1_l. }
  split.
  - eapply Qlt_le_trans; [| exact H1]. reflexivity.
  - unfold underflows.
    destruct (Qle_bool (Qabs (sl / ss)) underflow_bound) eqn:E;
      [| reflexivity].
    apply Qle_bool_iff in E.
    assert (L : (1 <= underflow_bound)%Q).
    { eapply Qle_trans; [exact H1 |].
      eapply Qle_trans; [apply Qle_Qabs | exact E]. }
    vm_compute in L. now elim L.
Qed.

(** What [scaling_ratio] gives for a series of two rows or more whose
    first row has a positive time and a positive size. *)
Lemma scaling_ratio_cases (first : ScalingRow) (rest : list ScalingRow) :
  rest <> [] ->
  gtb (s_mean first) (Fin 0) = true ->
  gtb (s_size_value first) (Fin 0) = true ->
  exists tr sr e,
    div (s_mean (last rest first)) (s_mean first) = Ok tr
    /\ div (s_size_value (last rest first)) (s_size_value first) = Ok sr
    /\ scaling_ratio (first :: rest) = Ok (Some (tr, sr, e))
    /\ ((gtb sr (Fin 0) = true /\ div tr sr = Ok e)
        \/ (gtb sr (Fin 0) = false /\ e = Fin 0)).
Proof.
  intros Hrest Pt Ps.
  destruct (div_defined (s_mean (last rest first)) (s_mean first)
              (positive_not_zero _ Pt)) as [tr Htr].
  destruct (div_defined (s_size_value (last rest first)) (s_size_value first)
              (positive_not_zero _ Ps)) as [sr Hsr].
  assert (Hunfold :
            forall e,
              (if gtb sr (Fin 0) then div tr sr else Ok (Fin 0)) = Ok e ->
              scaling_ratio (first :: rest) = Ok (Some (tr, sr, e))).
  { intros e He. destruct rest as [|second rest]; [contradiction |].
    unfold scaling_ratio.
    change (last (first :: second :: rest) first)
      with (last (second :: rest) first).
    rewrite Pt, Ps. cbn [andb]. rewrite Htr, Hsr. cbn [bind].
    rewrite He. reflexivity. }
  destruct (gtb sr (Fin 0)) eqn:Eg.
  - destruct (div_defined tr sr (positive_not_zero _ Eg)) as [e He].
    exists tr, sr, e. repeat split; try assumption.
    + now apply Hunfold.
    + left. now split.
  - exists tr, sr, (Fin 0). repeat split; try assumption.
    + now apply Hunfold.
    + right. now split.
Qed.

(** C8, as the claim states it, fails when the largest size of the series
    is NaN, the size read from a key such as [nan_hot_raw]: the series of
    the command has two sizes, a positive smallest time and a positive
    smallest size; the time ratio divided by the size ratio is NaN, and
    the efficiency printed is 0. *)
Lemma efficiency_with_nan_size :
  match plot_test_size_scaling
          [("1m_hot_raw", [timing "A" 2 0.1]);
           ("nan_hot_raw", [timing "A" 2 0.1])] "hot" "raw" with
  | Ok (Some chart) =>
      exists first final tr sr,
        parser_series (sc_rows chart) "A" = [first; final]
        /\ s_size_value first = Fin 1 /\ s_size_value final = NaN
        /\ gtb (s_mean first) (Fin 0) = true
        /\ gtb (s_size_value first) (Fin 0) = true
        /\ div (s_mean final) (s_mean first) = Ok tr
        /\ div (s_size_value final) (s_size_value first) = Ok sr
        /\ div tr sr = Ok NaN
        /\ In (EfficiencyLine (Fin 0)) (sc_report chart)
  | _ => False
  end.
Proof.
  vm_compute. do 4 eexists.
  repeat (split; [reflexivity |]). tauto.
Qed.

(** C8 (amended): for the series of one command, sorted by size, that
    holds at least two rows with a positive time and a positive size in
    its first row, the analysis prints the time ratio, last time divided
    by first time, and the size ratio, last size divided by first size,
    and no division raises.  When the two sizes are finite numbers the
    scaling efficiency printed is the time ratio divided by the size
    ratio; where the three quotients are within the range of a float it
    is (tl / ts) / (sl / ss), and with equal times and a last size ten
    times the first it is one tenth.  When the last size is NaN the
    efficiency printed is 0. *)
Theorem scaling_efficiency_formula
        (scaling_df : list ScalingRow) (parser : string)
        (first : ScalingRow) (rest : list ScalingRow) :
  parser_series scaling_df parser = first :: rest ->
  rest <> [] ->
  gtb (s_mean first) (Fin 0) = true ->
  gtb (s_size_value first) (Fin 0) = true ->
  exists tr sr e lines,
    div (s_mean (last rest first)) (s_mean first) = Ok tr
    /\ div (s_size_value (last rest first)) (s_size_value first) = Ok sr
    /\ scaling_ratio (first :: rest) = Ok (Some (tr, sr, e))
    /\ analyse_parser scaling_df parser
       = Ok (lines ++ [ScalingLine tr sr; EfficiencyLine e])
    /\ (is_finite (s_size_value first) = true ->
        is_finite (s_size_value (last rest first)) = true ->
        div tr sr = Ok e)
    /\ (s_size_value (last rest first) = NaN -> e = Fin 0)
    /\ (forall ts tl ss sl,
          s_mean first = Fin ts -> s_size_value first = Fin ss ->
          s_mean (last rest first) = Fin tl ->
          s_size_value (last rest first) = Fin sl ->
          exact (tl / ts) = true -> exact (sl / ss) = true ->
          exact ((tl / ts) / (sl / ss)) = true ->
          is_value tr (tl / ts) /\ is_value sr (sl / ss)
          /\ is_value e ((tl / ts) / (sl / ss)))
    /\ (forall ts tl ss sl,
          s_mean first = Fin ts -> s_size_value first = Fin ss ->
          s_mean (last rest first) = Fin tl ->
          s_size_value (last rest first) = Fin sl ->
          (tl == ts)%Q -> (sl == 10 * ss)%Q ->
          is_value e (1 # 10)).
Proof.
  intros Hseries Hrest Pt Ps.
  assert (Hsorted : polars_ltb (s_size_value (last rest first))
                               (s_size_value first) = false).
  { pose proof (parser_series_sorted scaling_df parser) as Hs.
    rewrite Hseries in Hs.
    now apply (sorted_head_last _ first first rest) in Hs. }
  destruct (scaling_ratio_cases first rest Hrest Pt Ps)
    as (tr & sr & e & Htr & Hsr & Hratio & Hcases).
  assert (Hfinite : is_finite (s_size_value first) = true ->
                    is_finite (s_size_value (last rest first)) = true ->
                    gtb sr (Fin 0) = true /\ div tr sr = Ok e).
  { intros F1 F2.
    destruct (s_size_value first) as [ss| | |]; try discriminate F1.
    destruct (s_size_value (last rest first)) as [sl| | |];
      try discriminate F2.
    apply gtb_zero in Ps. cbn in Hsorted. apply Qltb_ge in Hsorted.
    destruct (size_ratio_not_small ss sl Ps Hsorted) as [Hpos Hu].
    rewrite div_Fin in Hsr.
    2:{ intro E. rewrite E in Ps. exact (Qlt_irrefl _ Ps). }
    injection Hsr as <-.
    pose proof (rounded_positive _ Hpos Hu) as Hg.
    destruct Hcases as [[_ He] | [Hn _]]; [now split | congruence]. }
  assert (Hvalues :
            forall ts tl ss sl,
              s_mean first = Fin ts -> s_size_value first = Fin ss ->
              s_mean (last rest first) = Fin tl ->
              s_size_value (last rest first) = Fin sl ->
              exact (tl / ts) = true -> exact (sl / ss) = true ->
              exact ((tl / ts) / (sl / ss)) = true ->
              is_value tr (tl / ts) /\ is_value sr (sl / ss)
              /\ is_value e ((tl / ts) / (sl / ss))).
  { intros ts tl ss sl Hts Hss Htl Hsl X1 X2 X3.
    destruct Hfinite as [Hg He]; [now rewrite Hss | now rewrite Hsl |].
    rewrite Hts, Htl in Htr. rewrite Hss, Hsl in Hsr.
    rewrite Hts in Pt. rewrite Hss in Ps. apply gtb_zero in Pt, Ps.
    rewrite div_Fin in Htr.
    2:{ intro E. rewrite E in Pt. exact (Qlt_irrefl _ Pt). }
    rewrite div_Fin in Hsr.
    2:{ intro E. rewrite E in Ps. exact (Qlt_irrefl _ Ps). }
    injection Htr as <-. injection Hsr as <-.
    destruct (rounded_exact _ _ X1 (Qeq_refl _)) as (a & Ha & Ea).
    destruct (rounded_exact _ _ X2 (Qeq_refl _)) as (b & Hb & Eb).
    rewrite Ha, Hb in *.
    split; [now exists a |]. split; [now exists b |].
    apply gtb_zero in Hg.
    rewrite div_Fin in He.
    2:{ intro E. rewrite E in Hg. exact (Qlt_irrefl _ Hg). }
    injection He as <-. apply rounded_exact; [exact X3 |].
    now rewrite Ea, Eb. }
  exists tr, sr, e.
  exists (ParserHeader parser
          :: map (fun r => SizeLine (s_size_display r) (s_mean r) (s_stddev r))
                 (first :: rest)).
  split; [exact Htr |]. split; [exact Hsr |]. split; [exact Hratio |].
  split.
  { unfold analyse_parser. rewrite Hseries, Hratio. reflexivity. }
  split; [intros F1 F2; now apply Hfinite |].
  split.
  { intro Hnan. destruct Hcases as [[Hg _] | [_ He]]; [| exact He].
    rewrite Hnan in Hsr. unfold div in Hsr.
    destruct (is_zero (s_size_value first)); [discriminate |].
    injection Hsr as <-. discriminate Hg. }
  split; [exact Hvalues |].
  intros ts tl ss sl Hts Hss Htl Hsl E1 E2.
  rewrite Hts in Pt. rewrite Hss in Ps. apply gtb_zero in Pt, Ps.
  assert (Nt : ~ (ts == 0)%Q)
    by (intro E; rewrite E in Pt; exact (Qlt_irrefl _ Pt)).
  assert (Ns : ~ (ss == 0)%Q)
    by (intro E; rewrite E in Ps; exact (Qlt_irrefl _ Ps)).
  assert (R1 : (tl / ts == 1)%Q) by (rewrite E1; now field).
  assert (R2 : (sl / ss == 10)%Q) by (rewrite E2; now field).
  assert (R3 : ((tl / ts) / (sl / ss) == 1 # 10)%Q)
    by (rewrite R1, R2; reflexivity).
  destruct (Hvalues ts tl ss sl Hts Hss Htl Hsl) as (_ & _ & (x & Hx & Ex)).
  - now rewrite (exact_wd _ _ R1).
  - now rewrite (exact_wd _ _ R2).
  - now rewrite (exact_wd _ _ R3).
  - exists x. split; [exact Hx | now rewrite Ex].
Qed.

Lemma scaling_efficiency_formula_witness :
  exists e lines,
    analyse_parser
      [ {| s_size_value := Fin 10; s_size_display := "10M"; s_command := "A";
           s_mean := Fin 2; s_stddev := Fin 0.1 |};
        {| s_size_value := Fin 1; s_size_display := "1M"; s_command := "A";
           s_mean := Fin 2; s_stddev := Fin 0.1 |} ] "A"
    = Ok (lines ++ [ScalingLine (Fin (2 / 2)) (Fin (10 / 1));
                    EfficiencyLine e])
    /\ is_value e (1 # 10).
Proof.
  destruct (scaling_efficiency_formula
              [ {| s_size_value := Fin 10; s_size_display := "10M";
                   s_command := "A"; s_mean := Fin 2; s_stddev := Fin 0.1 |};
                {| s_size_value := Fin 1; s_size_display := "1M";
                   s_command := "A"; s_mean := Fin 2; s_stddev := Fin 0.1 |} ]
              "A"
              {| s_size_value := Fin 1; s_size_display := "1M";
                 s_command := "A"; s_mean := Fin 2; s_stddev := Fin 0.1 |}
              [ {| s_size_value := Fin 10; s_size_display := "10M";
                   s_command := "A"; s_mean := Fin 2; s_stddev := Fin 0.1 |} ]
              eq_refl ltac:(discriminate) eq_refl eq_refl)
    as (tr & sr & e & lines & Htr & Hsr & _ & Ha & _ & _ & _ & H10).
  exists e, lines. split.
  - vm_compute in Htr, Hsr. injection Htr as <-. injection Hsr as <-.
    exact Ha.
  - apply (H10 2 2 1 10); reflexivity.
Defined.

End ScalingFacts.

(* ================================================================== *)
(** * The grid and the scaling series: theorems *)
(* ================================================================== *)

Module GridFacts.
Import Py PyStr Key PyFloat PyData Engine EngineSpec EngineExamples.
Import SortFacts.

Lemma cell_key_eqb_eq (a b : cell_key) : cell_key_eqb a b = true -> a = b.
Proof.
  destruct a as [a1 a2], b as [b1 b2]. unfold cell_key_eqb. cbn.
  intro H. apply andb_true_iff in H. destruct H as [H1 H2].
  apply String.eqb_eq in H1, H2. now subst.
Qed.

Lemma cell_key_eqb_refl (k : cell_key) : cell_key_eqb k k = true.
Proof.
  destruct k as [a b]. unfold cell_key_eqb. cbn.
  now rewrite !String.eqb_refl.
Qed.

Lemma cell_key_eqb_neq (a b : cell_key) : a <> b -> cell_key_eqb a b = false.
Proof.
  intro H. destruct (cell_key_eqb a b) eqn:E; [| reflexivity].
  apply cell_key_eqb_eq in E. contradiction.
Qed.

Lemma dict_get_set_same {V : Type} (d : list (cell_key * V)) (k : cell_key) (v : V) :
  dict_get cell_key_eqb (dict_set cell_key_eqb d k v) k = Some v.
Proof.
  induction d as [|[k' v'] d IH]; cbn.
  - now rewrite cell_key_eqb_refl.
  - destruct (cell_key_eqb k k') eqn:E; cbn; rewrite E; [reflexivity | exact IH].
Qed.

Lemma dict_get_set_other {V : Type} (d : list (cell_key * V))
      (k k' : cell_key) (v : V) :
  k <> k' ->
  dict_get cell_key_eqb (dict_set cell_key_eqb d k' v) k
  = dict_get cell_key_eqb d k.
Proof.
  intro H. induction d as [|[k2 v2] d IH]; cbn.
  - now rewrite (cell_key_eqb_neq _ _ H).
  - destruct (cell_key_eqb k' k2) eqn:E; cbn.
    + apply cell_key_eqb_eq in E. subst k2.
      now rewrite (cell_key_eqb_neq _ _ H).
    + destruct (cell_key_eqb k k2); [reflexivity | exact IH].
Qed.

Lemma dict_set_In {V : Type} (d : list (cell_key * V)) (k : cell_key) (v : V)
      (e : cell_key * V) :
  In e (dict_set cell_key_eqb d k v) -> In e d \/ e = (k, v).
Proof.
  induction d as [|[k' v'] d IH]; cbn.
  - intros [<- | []]. now right.
  - destruct (cell_key_eqb k k') eqn:E.
    + apply cell_key_eqb_eq in E. subst k'.
      intros [<- | H]; [now right | left; now right].
    + intros [<- | H]; [left; now left |].
      destruct (IH H); [left; now right | now right].
Qed.

(** What is placed in the grid comes from the input: a non-empty table
    whose name parses to the requested cache state. *)
Lemma organize_sound (cache_type : string) (items : DataDict) :
  forall acc comp size name df,
    In ((comp, size), (name, df)) (fold_left (organize_step cache_type) items acc) ->
    In ((comp, size), (name, df)) acc
    \/ (In (name, df) items /\ df <> []
        /\ _parse_benchmark_key name = Some (size, cache_type, comp)).
Proof.
  induction items as [|[n t] items IH]; intros acc comp size name df; cbn [fold_left].
  - now left.
  - intro H. apply IH in H. destruct H as [H | (H1 & H2 & H3)].
    + unfold organize_step in H.
      destruct t as [|r t]; [now left |]. cbn [List.length Nat.eqb] in H.
      destruct (_parse_benchmark_key n) as [[[sz ca] co]|] eqn:Ep; [| now left].
      destruct (String.eqb_spec ca cache_type) as [-> | Hne]; cbn [negb] in H;
        [| now left].
      apply dict_set_In in H. destruct H as [H | H]; [now left | right].
      injection H as -> -> -> ->.
      repeat split; [now left | discriminate | exact Ep].
    + right. repeat split; [now right | exact H2 | exact H3].
Qed.

Lemma flat_map_rows {A B : Type} (f : A -> list B) (g : A -> B) (l : list A) :
  (forall x, In x l -> f x = [g x]) -> flat_map f l = map g l.
Proof.
  induction l as [|x l IH]; cbn; intro H; [reflexivity |].
  rewrite (H x (or_introl eq_refl)), IH; [reflexivity |].
  intros y Hy. apply H. now right.
Qed.

Lemma grid_compressions_In (org : Organized) (comp : string) :
  In comp (grid_compressions org) <-> exists size v, In ((comp, size), v) org.
Proof.
  unfold grid_compressions, py_set.
  rewrite sorted_by_In, dedup_In, in_map_iff. split.
  - intros [[[c s] v] [E H]]. cbn in E. subst. now exists s, v.
  - intros [s [v H]]. exists ((comp, s), v). now split.
Qed.

Lemma grid_sizes_In (org : Organized) (size : string) :
  In size (grid_sizes org) <-> exists comp v, In ((comp, size), v) org.
Proof.
  unfold grid_sizes, py_set.
  rewrite sorted_by_In, dedup_In, in_map_iff. split.
  - intros [[[c s] v] [E H]]. cbn in E. subst. now exists c, v.
  - intros [c [v H]]. exists ((c, size), v). now split.
Qed.

Lemma grid_parsers_In (org : Organized) (comp size name : string)
      (df : Table) (row : Row) :
  In ((comp, size), (name, df)) org -> In row df ->
  In (command row) (grid_parsers (combined_rows_of org)).
Proof.
  intros He Hr. unfold grid_parsers, sorted_str.
  rewrite py_sorted_In, dedup_In, in_map_iff.
  eexists. split; [| unfold combined_rows_of; apply in_flat_map;
                     exists ((comp, size), (name, df)); split; [exact He |];
                     apply in_map_iff; exists row; split; [reflexivity | exact Hr]].
  reflexivity.
Qed.

(** The grid is the matrix of panels over the sizes and compressions. *)
Lemma plot_mean_times_rows (data_dict : DataDict)
      (file_sizes : option (list (string * string))) (cache_type : string)
      (grid : list grid_row) :
  plot_mean_times data_dict file_sizes cache_type = Some grid ->
  let org := organize data_dict cache_type in
  grid = map (fun size =>
                {| row_label := size_row_label size;
                   row_charts :=
                     map (grid_cell org (combined_rows_of org)
                            (grid_parsers (combined_rows_of org)) file_sizes size)
                         (grid_compressions org) |})
             (grid_sizes org).
Proof.
  unfold plot_mean_times. cbv zeta.
  destruct (organize data_dict cache_type) as [|e0 org'] eqn:Eorg;
    [discriminate |].
  set (org := e0 :: org').
  destruct (combined_rows_of org) as [|c0 comb] eqn:Ecomb; [discriminate |].
  assert (Hc : grid_compressions org <> []).
  { intro E. destruct e0 as [[c s] v].
    assert (Hin : In c (grid_compressions org)).
    { apply grid_compressions_In. exists s, v. now left. }
    rewrite E in Hin. exact Hin. }
  rewrite (flat_map_rows _
             (fun size =>
                {| row_label := size_row_label size;
                   row_charts :=
                     map (grid_cell org (c0 :: comb) (grid_parsers (c0 :: comb))
                            file_sizes size) (grid_compressions org) |})).
  - destruct (map _ (grid_sizes org)) eqn:E; [discriminate |].
    intros [= <-]. reflexivity.
  - intros size _.
    destruct (grid_compressions org) as [|c cs]; [contradiction | reflexivity].
Qed.

Lemma grid_cell_cases (org : Organized) (combined : list CombinedRow)
      (domain : list string) (file_sizes : option (list (string * string)))
      (size comp : string) :
  (dict_get cell_key_eqb org (comp, size) = None
   /\ grid_cell org combined domain file_sizes size comp
      = NoData (compression_label comp))
  \/ (exists name df title,
         dict_get cell_key_eqb org (comp, size) = Some (name, df)
         /\ grid_cell org combined domain file_sizes size comp
            = BarChart title
                (filter (fun r => String.eqb (c_compression r) comp
                                  && String.eqb (c_size r) size) combined)
                domain).
Proof.
  unfold grid_cell.
  destruct (dict_get cell_key_eqb org (comp, size)) as [[name df]|];
    [right | left; now split].
  exists name, df. eexists. split; reflexivity.
Qed.

Lemma measured_more_keys all_data key keys r :
  measured_point all_data keys r -> measured_point all_data (key :: keys) r.
Proof.
  intros (k & row & Hk & H). exists k, row. split; [now right | exact H].
Qed.

Lemma collect_scaling_spec (all_data : DataDict) (keys : list string) :
  forall acc size_map r,
    In r (fst (collect_scaling all_data keys acc size_map)) ->
    In r acc \/ measured_point all_data keys r.
Proof.
  induction keys as [|key keys IH]; intros acc size_map r;
    cbn [collect_scaling].
  - cbn. tauto.
  - destruct (extract_size_info key) as [[size_value size_key] size_display]
      eqn:Einfo.
    destruct size_value as [v|].
    + intro H. apply IH in H. destruct H as [H | H].
      * apply in_app_or in H. destruct H as [H | H]; [now left | right].
        apply in_map_iff in H. destruct H as [row [<- Hrow]].
        exists key, row. rewrite Einfo. cbn.
        repeat split; [now left | exact Hrow].
      * right. now apply measured_more_keys.
    + intro H. apply IH in H. destruct H as [H | H]; [now left | right].
      now apply measured_more_keys.
Qed.

Lemma plot_test_size_scaling_rows (all_data : DataDict)
      (cache_type file_format : string) (chart : ScalingChart) :
  plot_test_size_scaling all_data cache_type file_format = Ok (Some chart) ->
  sc_rows chart
  = fst (collect_scaling all_data
           (matching_keys all_data cache_type file_format) [] []).
Proof.
  unfold plot_test_size_scaling.
  destruct (matching_keys all_data cache_type file_format) as [|k ks];
    [discriminate |].
  destruct (collect_scaling all_data (k :: ks) [] []) as [rows size_map].
  destruct rows as [|r rows]; [discriminate |].
  destruct (analyse_parsers _ _); cbn [bind]; [| discriminate].
  intros [= <-]. reflexivity.
Qed.

Lemma fold_organize_keeps (cache_type : string) (k : cell_key)
      (items : DataDict) :
  (forall n df, In (n, df) items -> df <> [] ->
                _parse_benchmark_key n <> Some (snd k, cache_type, fst k)) ->
  forall acc,
    dict_get cell_key_eqb (fold_left (organize_step cache_type) items acc) k
    = dict_get cell_key_eqb acc k.
Proof.
  induction items as [|[n df] items IH]; intros H acc; cbn [fold_left];
    [reflexivity |].
  rewrite IH by (intros n' df' Hin; apply H; now right).
  unfold organize_step.
  destruct df as [|r df]; [reflexivity |]. cbn [List.length Nat.eqb].
  destruct (_parse_benchmark_key n) as [[[sz ca] co]|] eqn:Ep; [| reflexivity].
  destruct (String.eqb_spec ca cache_type) as [-> | Hne]; [| reflexivity].
  cbn [negb]. apply dict_get_set_other.
  intro E. apply (H n (r :: df)); [now left | discriminate |].
  rewrite Ep, E. reflexivity.
Qed.

(** The table that stands last among those of its triple is the table
    of its cell. *)
Lemma organize_last
      (before after : DataDict) (name : string) (df : Table)
      (size cache_type compression : string) :
  df <> [] ->
  _parse_benchmark_key name = Some (size, cache_type, compression) ->
  (forall n' df', In (n', df') after -> df' <> [] ->
                  _parse_benchmark_key n' <> Some (size, cache_type, compression)) ->
  dict_get cell_key_eqb
           (organize (before ++ (name, df) :: after) cache_type)
           (compression, size)
  = Some (name, df).
Proof.
  intros Hdf Hp Hafter. unfold organize.
  rewrite fold_left_app. cbn [fold_left].
  rewrite (fold_organize_keeps cache_type (compression, size) after Hafter).
  unfold organize_step at 1.
  destruct df as [|r df]; [contradiction |]. cbn [List.length Nat.eqb].
  rewrite Hp, String.eqb_refl. cbn [negb]. apply dict_get_set_same.
Qed.

(** And the table of a cell stands last among those of its triple. *)
Lemma fold_organize_get (cache_type : string) (k : cell_key)
      (name : string) (df : Table) (items : DataDict) :
  forall acc,
    dict_get cell_key_eqb (fold_left (organize_step cache_type) items acc) k
    = Some (name, df) ->
    (dict_get cell_key_eqb acc k = Some (name, df)
     /\ forall n' df', In (n', df') items -> df' <> [] ->
          _parse_benchmark_key n' <> Some (snd k, cache_type, fst k))
    \/ exists before after,
         items = before ++ (name, df) :: after
         /\ df <> []
         /\ _parse_benchmark_key name = Some (snd k, cache_type, fst k)
         /\ (forall n' df', In (n', df') after -> df' <> [] ->
               _parse_benchmark_key n' <> Some (snd k, cache_type, fst k)).
Proof.
  induction items as [|[n t] items IH]; intros acc H; cbn [fold_left] in H.
  - left. split; [exact H | intros n' df' []].
  - apply IH in H.
    destruct H as [[Hget Hnone] | (before & after & -> & Hdf & Hp & Hafter)].
    2:{ right. exists ((n, t) :: before), after. now repeat split. }
    unfold organize_step in Hget.
    destruct t as [|r t].
    { left. split; [exact Hget |].
      intros n' df' [[= <- <-] | Hin] Hne; [now elim Hne | exact (Hnone n' df' Hin Hne)]. }
    cbn [List.length Nat.eqb] in Hget.
    destruct (_parse_benchmark_key n) as [[[sz ca] co]|] eqn:Ep.
    2:{ left. split; [exact Hget |].
        intros n' df' [[= <- <-] | Hin] Hne; [| exact (Hnone n' df' Hin Hne)].
        rewrite Ep. discriminate. }
    destruct (String.eqb_spec ca cache_type) as [-> | Hca]; cbn [negb] in Hget.
    2:{ left. split; [exact Hget |].
        intros n' df' [[= <- <-] | Hin] Hne; [| exact (Hnone n' df' Hin Hne)].
        rewrite Ep. intros [= _ E _]. contradiction. }
    destruct (cell_key_eqb k (co, sz)) eqn:Ek.
    + apply cell_key_eqb_eq in Ek. subst k.
      rewrite dict_get_set_same in Hget. injection Hget as <- <-.
      right. exists [], items. cbn [app fst snd].
      repeat split; [discriminate | exact Ep | exact Hnone].
    + assert (Hk : k <> (co, sz)).
      { intros ->. now rewrite cell_key_eqb_refl in Ek. }
      rewrite (dict_get_set_other _ _ _ _ Hk) in Hget.
      left. split; [exact Hget |].
      intros n' df' [[= <- <-] | Hin] Hne; [| exact (Hnone n' df' Hin Hne)].
      rewrite Ep. intros [= -> ->]. apply Hk. now destruct k.
Qed.

(** A dictionary holds a key once. *)
Lemma dict_set_keys {V : Type} (d : list (cell_key * V)) (k : cell_key) (v : V)
      (x : cell_key) :
  In x (map fst (dict_set cell_key_eqb d k v)) -> In x (map fst d) \/ x = k.
Proof.
  induction d as [|[k' v'] d IH]; cbn.
  - intros [<- | []]. now right.
  - destruct (cell_key_eqb k k') eqn:E; cbn.
    + intros [<- | H]; left; [now left | now right].
    + intros [<- | H]; [left; now left |].
      destruct (IH H); [left; now right | now right].
Qed.

Lemma dict_set_NoDup {V : Type} (d : list (cell_key * V)) (k : cell_key) (v : V) :
  NoDup (map fst d) -> NoDup (map fst (dict_set cell_key_eqb d k v)).
Proof.
  induction d as [|[k' v'] d IH]; cbn; intro H.
  - constructor; [intros [] | constructor].
  - apply NoDup_cons_iff in H. destruct H as [Hn Hd].
    destruct (cell_key_eqb k k') eqn:E; cbn.
    + now constructor.
    + constructor; [| now apply IH].
      intro Hin. apply dict_set_keys in Hin.
      destruct Hin as [Hin | ->]; [contradiction |].
      now rewrite cell_key_eqb_refl in E.
Qed.

Lemma organize_NoDup (data_dict : DataDict) (cache_type : string) :
  NoDup (map fst (organize data_dict cache_type)).
Proof.
  unfold organize.
  assert (G : forall acc : Organized,
             NoDup (map fst acc) ->
             NoDup (map fst (fold_left (organize_step cache_type) data_dict acc))).
  { induction data_dict as [|[n df] items IH]; intros acc H; cbn [fold_left];
      [exact H |].
    apply IH. unfold organize_step.
    destruct (List.length df =? 0)%nat; [exact H |].
    destruct (_parse_benchmark_key n) as [[[sz ca] co]|]; [| exact H].
    destruct (negb (String.eqb ca cache_type)); [exact H |].
    now apply dict_set_NoDup. }
  apply G. constructor.
Qed.

Lemma dict_get_iff_In {V : Type} (d : list (cell_key * V)) (k : cell_key) (v : V) :
  NoDup (map fst d) ->
  dict_get cell_key_eqb d k = Some v <-> In (k, v) d.
Proof.
  induction d as [|[k' v'] d IH]; cbn; intro H.
  - split; [discriminate | intros []].
  - apply NoDup_cons_iff in H. destruct H as [Hn Hd].
    destruct (cell_key_eqb k k') eqn:E.
    + apply cell_key_eqb_eq in E. subst k'. split.
      * intros [= ->]. now left.
      * intros [[= ->] | Hin]; [reflexivity |]. exfalso. apply Hn.
        apply in_map_iff. exists (k, v). now split.
    + rewrite (IH Hd). split; [intro; now right |].
      intros [[= -> ->] | Hin]; [| exact Hin].
      now rewrite cell_key_eqb_refl in E.
Qed.

Lemma placed_is_last (data_dict : DataDict) (cache_type : string)
      (comp size name : string) (df : Table) :
  In ((comp, size), (name, df)) (organize data_dict cache_type)
  <-> exists before after,
        data_dict = before ++ (name, df) :: after
        /\ df <> []
        /\ _parse_benchmark_key name = Some (size, cache_type, comp)
        /\ (forall n' df', In (n', df') after -> df' <> [] ->
              _parse_benchmark_key n' <> Some (size, cache_type, comp)).
Proof.
  rewrite <- (dict_get_iff_In _ _ _ (organize_NoDup data_dict cache_type)). split.
  - intro H. unfold organize in H. apply fold_organize_get in H.
    destruct H as [[H _] | H]; [discriminate H | exact H].
  - intros (before & after & -> & Hdf & Hp & Hafter).
    now apply organize_last.
Qed.

(** The rows of a panel are the rows of its table. *)
Lemma filter_shown_same (comp size name : string) (df : Table) :
  filter (fun r => String.eqb (c_compression r) comp
                   && String.eqb (c_size r) size)
         (map (shown_row comp size name) df)
  = map (shown_row comp size name) df.
Proof.
  induction df as [|r df IH]; cbn [map filter]; [reflexivity |].
  cbn [shown_row c_compression c_size]. rewrite !String.eqb_refl.
  cbn [andb]. now rewrite IH.
Qed.

Lemma filter_shown_other (comp size c s name : string) (df : Table) :
  (c, s) <> (comp, size) ->
  filter (fun r => String.eqb (c_compression r) comp
                   && String.eqb (c_size r) size)
         (map (shown_row c s name) df)
  = [].
Proof.
  intro H. induction df as [|r df IH]; cbn [map filter]; [reflexivity |].
  cbn [shown_row c_compression c_size].
  destruct (String.eqb_spec c comp) as [-> | Hc]; cbn [andb]; [| exact IH].
  destruct (String.eqb_spec s size) as [-> | Hs]; [now elim H | exact IH].
Qed.

Lemma combined_rows_cons (c s n : string) (d : Table) (org : Organized) :
  combined_rows_of (((c, s), (n, d)) :: org)
  = map (shown_row c s n) d ++ combined_rows_of org.
Proof. reflexivity. Qed.

Lemma cell_rows_absent (org : Organized) (comp size : string) :
  ~ In (comp, size) (map fst org) ->
  filter (fun r => String.eqb (c_compression r) comp
                   && String.eqb (c_size r) size)
         (combined_rows_of org)
  = [].
Proof.
  induction org as [|[[c s] [n d]] org IH]; intro H; [reflexivity |].
  rewrite combined_rows_cons, filter_app.
  rewrite filter_shown_other, IH; [reflexivity | |].
  - intro Hin. apply H. now right.
  - intro E. apply H. left. exact E.
Qed.

Lemma cell_rows (org : Organized) (comp size name : string) (df : Table) :
  NoDup (map fst org) ->
  In ((comp, size), (name, df)) org ->
  filter (fun r => String.eqb (c_compression r) comp
                   && String.eqb (c_size r) size)
         (combined_rows_of org)
  = map (shown_row comp size name) df.
Proof.
  induction org as [|[[c s] [n d]] org IH]; intros Hnd Hin; [destruct Hin |].
  cbn [map fst] in Hnd. apply NoDup_cons_iff in Hnd. destruct Hnd as [Hn Hd].
  rewrite combined_rows_cons, filter_app. destruct Hin as [E | Hin].
  - injection E as -> -> -> ->.
    rewrite filter_shown_same, (cell_rows_absent org comp size Hn).
    apply app_nil_r.
  - rewrite filter_shown_other, (IH Hd Hin); [reflexivity |].
    intro E. apply Hn. rewrite E. apply in_map_iff.
    exists ((comp, size), (name, df)). now split.
Qed.

Lemma grid_cell_shows (org : Organized)
      (domain : list string) (file_sizes : option (list (string * string)))
      (size comp : string) :
  NoDup (map fst org) ->
  (dict_get cell_key_eqb org (comp, size) = None
   /\ grid_cell org (combined_rows_of org) domain file_sizes size comp
      = NoData (compression_label comp))
  \/ (exists name df title,
         dict_get cell_key_eqb org (comp, size) = Some (name, df)
         /\ grid_cell org (combined_rows_of org) domain file_sizes size comp
            = BarChart title (map (shown_row comp size name) df) domain).
Proof.
  intro Hnd. unfold grid_cell.
  destruct (dict_get cell_key_eqb org (comp, size)) as [[name df]|] eqn:E;
    [right | left; now split].
  exists name, df. eexists. split; [reflexivity |].
  rewrite (cell_rows org comp size name df Hnd); [reflexivity |].
  now apply dict_get_iff_In.
Qed.

Lemma grid_parsers_from (org : Organized) (c : string) :
  In c (grid_parsers (combined_rows_of org)) ->
  exists comp size name df row,
    In ((comp, size), (name, df)) org /\ In row df /\ command row = c.
Proof.
  unfold grid_parsers, sorted_str.
  rewrite py_sorted_In, dedup_In, in_map_iff.
  intros [r [E Hr]]. unfold combined_rows_of in Hr.
  apply in_flat_map in Hr. destruct Hr as [[[comp size] [name df]] [He Hr]].
  apply in_map_iff in Hr. destruct Hr as [row [<- Hrow]].
  exists comp, size, name, df, row. now repeat split.
Qed.

(** C9, as the claim states it, fails for a command that is measured
    only in another cache state: with A measured hot and B measured cold,
    the hot grid has one panel and its colour domain lists A alone. *)
Lemma command_of_other_cache_state_not_listed :
  plot_mean_times hot_and_cold None "hot"
  = Some [{| row_label := "1M reads";
             row_charts :=
               [BarChart "Raw FASTQ"
                  [{| c_command := "A"; c_mean := Fin 1; c_stddev := Fin 0.1;
                      c_min := Fin 1; c_max := Fin 1; c_compression := "raw";
                      c_size := "1m"; c_benchmark_name := "1m_hot_raw" |}]
                  ["A"]] |}]
  /\ In "B" (map command (flat_map snd hot_and_cold)).
Proof. split; [reflexivity | cbn; tauto]. Qed.

(** C9 (amended): a grid view is the matrix of panels over the sizes
    and the compressions of the tables placed in it; the placed tables
    are the non-empty tables whose name parses to the requested cache
    state, the last one in the order of the dictionary winning for a pair
    of compression and size.  Every bar chart of the grid has the same
    colour domain, which lists the commands of the placed tables, all of
    them and no other (not a command seen only in a table of another
    cache state, in a table whose name does not parse or in an empty
    table); a pair of compression and size without a placed table is the
    panel [No Data], and a pair with one is a bar chart that shows the
    rows of that table and no other.  And every point of a scaling chart
    is a measured row of one of the matching tables, at the size of that
    table; the series of a command holds only points of that command. *)
Theorem grid_and_series_consistency :
  (forall (data_dict : DataDict) (file_sizes : option (list (string * string)))
          (cache_type : string) (grid : list grid_row),
      plot_mean_times data_dict file_sizes cache_type = Some grid ->
      let org := organize data_dict cache_type in
      let domain := grid_parsers (combined_rows_of org) in
      map row_charts grid
      = map (fun size =>
               map (grid_cell org (combined_rows_of org) domain file_sizes size)
                   (grid_compressions org))
            (grid_sizes org)
      /\ (forall name df row,
             placed data_dict cache_type name df -> In row df ->
             In (command row) domain)
      /\ (forall comp size name df,
             In ((comp, size), (name, df)) org ->
             In comp (grid_compressions org) /\ In size (grid_sizes org)
             /\ In (name, df) data_dict /\ df <> []
             /\ _parse_benchmark_key name = Some (size, cache_type, comp))
      /\ (forall comp size,
             (dict_get cell_key_eqb org (comp, size) = None
              /\ grid_cell org (combined_rows_of org) domain file_sizes size comp
                 = NoData (compression_label comp))
             \/ (exists name df title,
                    dict_get cell_key_eqb org (comp, size) = Some (name, df)
                    /\ grid_cell org (combined_rows_of org) domain file_sizes
                                 size comp
                       = BarChart title
                           (filter (fun r => String.eqb (c_compression r) comp
                                             && String.eqb (c_size r) size)
                                   (combined_rows_of org))
                           domain))
      /\ (forall comp,
             In comp (grid_compressions org)
             <-> exists size name df, In ((comp, size), (name, df)) org)
      /\ (forall size,
             In size (grid_sizes org)
             <-> exists comp name df, In ((comp, size), (name, df)) org)
      /\ (forall comp size name df,
             In ((comp, size), (name, df)) org
             <-> dict_get cell_key_eqb org (comp, size) = Some (name, df))
      /\ (forall comp size name df,
             In ((comp, size), (name, df)) org
             <-> exists before after,
                   data_dict = before ++ (name, df) :: after
                   /\ df <> []
                   /\ _parse_benchmark_key name = Some (size, cache_type, comp)
                   /\ (forall n' df',
                          In (n', df') after -> df' <> [] ->
                          _parse_benchmark_key n'
                          <> Some (size, cache_type, comp)))
      /\ (forall c,
             In c domain
             <-> exists name df row,
                   placed data_dict cache_type name df
                   /\ In row df /\ command row = c)
      /\ (forall comp size,
             (dict_get cell_key_eqb org (comp, size) = None
              /\ (forall name df, ~ In ((comp, size), (name, df)) org)
              /\ grid_cell org (combined_rows_of org) domain file_sizes size comp
                 = NoData (compression_label comp))
             \/ (exists name df title,
                    In ((comp, size), (name, df)) org
                    /\ grid_cell org (combined_rows_of org) domain file_sizes
                                 size comp
                       = BarChart title (map (shown_row comp size name) df)
                                  domain)))
  /\
  (forall (all_data : DataDict) (cache_type file_format : string)
          (chart : ScalingChart) (r : ScalingRow),
      plot_test_size_scaling all_data cache_type file_format = Ok (Some chart) ->
      In r (sc_rows chart) ->
      measured_point all_data (matching_keys all_data cache_type file_format) r)
  /\
  (forall (scaling_df : list ScalingRow) (parser : string) (r : ScalingRow),
      In r (parser_series scaling_df parser) ->
      In r scaling_df /\ s_command r = parser).
Proof.
  split; [| split].
  - intros data_dict file_sizes cache_type grid H org domain.
    pose proof (organize_NoDup data_dict cache_type) as Hnd.
    fold org in Hnd.
    split.
    { rewrite (plot_mean_times_rows _ _ _ _ H). rewrite map_map. reflexivity. }
    split.
    { intros name df row (comp & size & Hp) Hr.
      eapply grid_parsers_In; eassumption. }
    split.
    { intros comp size name df He.
      split; [apply grid_compressions_In; eauto |].
      split; [apply grid_sizes_In; eauto |].
      unfold org, organize in He. apply organize_sound in He.
      destruct He as [[] | He]. exact He. }
    split; [intros comp size; apply grid_cell_cases |].
    split.
    { intro comp. rewrite grid_compressions_In. split.
      - intros (size & [name df] & Hin). now exists size, name, df.
      - intros (size & name & df & Hin). now exists size, (name, df). }
    split.
    { intro size. rewrite grid_sizes_In. split.
      - intros (comp & [name df] & Hin). now exists comp, name, df.
      - intros (comp & name & df & Hin). now exists comp, (name, df). }
    split.
    { intros comp size name df. symmetry. now apply dict_get_iff_In. }
    split; [intros comp size name df; apply placed_is_last |].
    split.
    { intro c. split.
      - intro Hc. apply grid_parsers_from in Hc.
        destruct Hc as (comp & size & name & df & row & He & Hrow & E).
        exists name, df, row. split; [now exists comp, size | now split].
      - intros (name & df & row & (comp & size & Hp) & Hrow & <-).
        eapply grid_parsers_In; eassumption. }
    intros comp size.
    destruct (grid_cell_shows org domain file_sizes size comp Hnd)
      as [[Hget Hcell] | (name & df & title & Hget & Hcell)].
    + left. split; [exact Hget |]. split; [| exact Hcell].
      intros name df Hin. apply (dict_get_iff_In _ _ _ Hnd) in Hin. congruence.
    + right. exists name, df, title. split; [| exact Hcell].
      now apply (dict_get_iff_In _ _ _ Hnd).
  - intros all_data cache_type file_format chart r H Hr.
    rewrite (plot_test_size_scaling_rows _ _ _ _ H) in Hr.
    apply collect_scaling_spec in Hr. destruct Hr as [[] | Hr]. exact Hr.
  - intros scaling_df parser r H. unfold parser_series in H.
    apply sort_with_In in H. apply filter_In in H. destruct H as [H E].
    split; [exact H | now apply String.eqb_eq].
Qed.

Lemma grid_and_series_consistency_witness :
  In "B" (grid_parsers (combined_rows_of (organize two_parsers "hot")))
  /\ measured_point two_parsers (matching_keys two_parsers "hot" "raw")
       {| s_size_value := Fin 10; s_size_display := "10M"; s_command := "B";
          s_mean := Fin 9; s_stddev := Fin 0.5 |}.
Proof.
  split.
  - destruct (plot_mean_times two_parsers None "hot") as [grid|] eqn:E;
      [| discriminate E].
    apply (proj1 (proj2 (proj1 grid_and_series_consistency
                           two_parsers None "hot" grid E))
             "10m_hot_raw" [timing "B" 9 0.5] (timing "B" 9 0.5)).
    + exists "raw", "10m". vm_compute. tauto.
    + now left.
  - destruct (plot_test_size_scaling two_parsers "hot" "raw")
      as [[chart|]|] eqn:E; try discriminate E.
    apply (proj1 (proj2 grid_and_series_consistency)
             two_parsers "hot" "raw" chart _ E).
    vm_compute in E. injection E as <-. vm_compute. tauto.
Defined.

End GridFacts.

(* ================================================================== *)
(** * Benchmark keys: further properties *)
(* ================================================================== *)

Module KeyProperties.
Import PyStr Key StrFacts.

(** X1: a name that parses yields one of the three cache states and one
    of the three compressions; the cache state is [really_cold] exactly
    for the names that hold [really_cold] in any letter case. *)
Theorem parse_result_is_valid (name size cache compression : string) :
  _parse_benchmark_key name = Some (size, cache, compression) ->
  In cache ["hot"; "cold"; "really_cold"]
  /\ In compression ["raw"; "gz"; "bgz"]
  /\ (cache = "really_cold" <-> contains "really_cold" (lower name) = true).
Proof.
  unfold _parse_benchmark_key. cbv zeta.
  destruct (contains "really_cold" (lower name)) eqn:Hrc.
  - destruct (split "_really_cold_" (lower name)) as [|s [|c [|x l]]];
      try discriminate.
    destruct (in_tuple c ["raw"; "gz"; "bgz"]) eqn:Ec; [| discriminate].
    intros [= <- <- <-]. apply existsb_eqb_In in Ec.
    repeat split; auto. cbn. tauto.
  - assert (Hvalid : forall ca co,
               in_tuple ca ["hot"; "cold"] = true ->
               in_tuple co ["raw"; "gz"; "bgz"] = true ->
               In ca ["hot"; "cold"; "really_cold"]
               /\ In co ["raw"; "gz"; "bgz"]
               /\ (ca = "really_cold" <-> false = true)).
    { intros ca co Hca Hco. apply existsb_eqb_In in Hca, Hco.
      split; [cbn in *; tauto |]. split; [exact Hco |].
      split; [| discriminate].
      intros ->. cbn in Hca. destruct Hca as [H | [H | []]]; discriminate H. }
    destruct (split "_" (lower name)) as [|p0 [|p1 [|p2 l]]]; try discriminate.
    + destruct (in_tuple p0 ["hot"; "cold"]) eqn:E0; [| discriminate].
      destruct (in_tuple p1 ["raw"; "gz"; "bgz"]) eqn:E1; [| discriminate].
      cbn [andb]. intros [= <- <- <-]. now apply Hvalid.
    + destruct (in_tuple p1 ["hot"; "cold"]) eqn:E1;
        destruct (in_tuple p2 ["raw"; "gz"; "bgz"]) eqn:E2;
        try (destruct l; discriminate).
      intros [= <- <- <-]. now apply Hvalid.
Qed.

Lemma parse_result_is_valid_witness :
  In "cold" ["hot"; "cold"; "really_cold"]
  /\ In "bgz" ["raw"; "gz"; "bgz"]
  /\ ("cold" = "really_cold" <-> contains "really_cold" (lower "10M_Cold_BGZ") = true).
Proof.
  apply (parse_result_is_valid "10M_Cold_BGZ" "10m" "cold" "bgz"). reflexivity.
Defined.

Lemma lower_upper_char (c : ascii) : lower_char (upper_char c) = lower_char c.
Proof. destruct c as [[] [] [] [] [] [] [] []]; reflexivity. Qed.

Lemma lower_lower_char (c : ascii) : lower_char (lower_char c) = lower_char c.
Proof. destruct c as [[] [] [] [] [] [] [] []]; reflexivity. Qed.

Lemma lower_upper (s : string) : lower (upper s) = lower s.
Proof.
  unfold lower, upper. induction s as [|c s IH]; cbn [map_chars];
    [reflexivity | now rewrite lower_upper_char, IH].
Qed.

Lemma lower_lower (s : string) : lower (lower s) = lower s.
Proof.
  unfold lower. induction s as [|c s IH]; cbn [map_chars];
    [reflexivity | now rewrite lower_lower_char, IH].
Qed.

(** X2: parsing does not depend on the letter case of an ASCII name:
    the upper-cased and the lower-cased name parse as the name itself. *)
Theorem parse_ignores_case (name : string) :
  isascii name = true ->
  _parse_benchmark_key (upper name) = _parse_benchmark_key name
  /\ _parse_benchmark_key (lower name) = _parse_benchmark_key name.
Proof.
  intros _. unfold _parse_benchmark_key. cbv zeta.
  now rewrite lower_upper, lower_lower.
Qed.

Lemma parse_ignores_case_witness :
  _parse_benchmark_key (upper "1m_Hot_Raw") = _parse_benchmark_key "1m_Hot_Raw"
  /\ _parse_benchmark_key (lower "1m_Hot_Raw") = _parse_benchmark_key "1m_Hot_Raw".
Proof. apply parse_ignores_case. reflexivity. Defined.

Lemma split_underscore_cons (a s : string) :
  contains "_" a = false ->
  split "_" (a ++ "_" ++ s) = a :: split "_" s.
Proof.
  intro H. unfold split. rewrite split_go_pass_char by exact H. reflexivity.
Qed.

Lemma split_underscore_single (a : string) :
  contains "_" a = false -> split "_" a = [a].
Proof.
  intro H. unfold split. rewrite <- (append_empty_r a) at 1.
  rewrite split_go_pass_char by exact H. reflexivity.
Qed.

Lemma lower_name3 (a b c : string) :
  lower (a ++ "_" ++ b ++ "_" ++ c)
  = (lower a ++ "_" ++ lower b ++ "_" ++ lower c)%string.
Proof.
  rewrite lower_app. change ("_" ++ b ++ "_" ++ c)%string
    with (String "_" (b ++ String "_" c)).
  change (lower (String "_" (b ++ String "_" c)))
    with (String "_" (lower (b ++ String "_" c))).
  rewrite lower_app. reflexivity.
Qed.

Lemma lower_name4 (a b c d : string) :
  lower (a ++ "_" ++ b ++ "_" ++ c ++ "_" ++ d)
  = (lower a ++ "_" ++ lower b ++ "_" ++ lower c ++ "_" ++ lower d)%string.
Proof.
  rewrite lower_app.
  change (lower ("_" ++ b ++ "_" ++ c ++ "_" ++ d))
    with (String "_" (lower (b ++ "_" ++ c ++ "_" ++ d))).
  rewrite lower_name3. reflexivity.
Qed.

(** X3: a name of three underscore-free parts that does not hold
    [really_cold] is valid exactly when its second part is [hot] or
    [cold] and its third part is [raw], [gz] or [bgz], in any letter
    case; an unrecognized token makes it invalid. *)
Theorem parse_three_tokens (size cache compression : string) :
  contains "_" size = false ->
  contains "_" cache = false ->
  contains "_" compression = false ->
  contains "really_cold" (lower (size ++ "_" ++ cache ++ "_" ++ compression))
  = false ->
  _parse_benchmark_key (size ++ "_" ++ cache ++ "_" ++ compression)
  = if in_tuple (lower cache) ["hot"; "cold"]
       && in_tuple (lower compression) ["raw"; "gz"; "bgz"]
    then Some (lower size, lower cache, lower compression)
    else None.
Proof.
  intros Hs Hc Hco Hrc.
  apply lower_no_underscore in Hs, Hc, Hco.
  unfold _parse_benchmark_key. cbv zeta. rewrite Hrc.
  rewrite lower_name3.
  rewrite (split_underscore_cons _ _ Hs), (split_underscore_cons _ _ Hc),
    (split_underscore_single _ Hco).
  destruct (in_tuple (lower cache) ["hot"; "cold"]);
    destruct (in_tuple (lower compression) ["raw"; "gz"; "bgz"]); reflexivity.
Qed.

Lemma parse_three_tokens_witness :
  _parse_benchmark_key ("1m" ++ "_" ++ "warm" ++ "_" ++ "raw") = None.
Proof.
  apply (parse_three_tokens "1m" "warm" "raw"); reflexivity.
Defined.

(** X4: parts after the third are ignored: with a recognized cache
    state and compression the name parses as its first three parts do,
    whatever follows. *)
Theorem parse_ignores_trailing_parts (size cache compression tail : string) :
  contains "_" size = false ->
  In cache ["hot"; "cold"] ->
  In compression ["raw"; "gz"; "bgz"] ->
  contains "really_cold"
    (lower (size ++ "_" ++ cache ++ "_" ++ compression ++ "_" ++ tail)) = false ->
  _parse_benchmark_key (size ++ "_" ++ cache ++ "_" ++ compression ++ "_" ++ tail)
  = Some (lower size, cache, compression).
Proof.
  intros Hs Hc Hco Hrc.
  apply lower_no_underscore in Hs.
  assert (Fc : lower cache = cache /\ contains "_" cache = false
               /\ in_tuple cache ["hot"; "cold"] = true).
  { cbn in Hc. destruct Hc as [<- | [<- | []]]; repeat split. }
  assert (Fco : lower compression = compression
                /\ contains "_" compression = false
                /\ in_tuple compression ["raw"; "gz"; "bgz"] = true).
  { cbn in Hco. destruct Hco as [<- | [<- | [<- | []]]]; repeat split. }
  destruct Fc as (Lc & Uc & Vc). destruct Fco as (Lco & Uco & Vco).
  unfold _parse_benchmark_key. cbv zeta. rewrite Hrc. clear Hrc.
  rewrite lower_name4, Lc, Lco.
  rewrite (split_underscore_cons _ _ Hs), (split_underscore_cons _ _ Uc),
    (split_underscore_cons _ _ Uco).
  rewrite Vc, Vco. reflexivity.
Qed.

Lemma parse_ignores_trailing_parts_witness :
  _parse_benchmark_key ("1m" ++ "_" ++ "hot" ++ "_" ++ "raw" ++ "_" ++ "second_run")
  = Some (lower "1m", "hot", "raw").
Proof.
  apply (parse_ignores_trailing_parts "1m" "hot" "raw" "second_run");
    [reflexivity | cbn; tauto | cbn; tauto | reflexivity].
Defined.

(** X5: the legacy form: a name that is, up to letter case, a cache
    state in {hot, cold} followed by a compression in {raw, gz, bgz}
    parses with the size [default]. *)
Theorem parse_legacy_name (name cache compression : string) :
  In cache ["hot"; "cold"] ->
  In compression ["raw"; "gz"; "bgz"] ->
  lower name = (cache ++ "_" ++ compression)%string ->
  _parse_benchmark_key name = Some ("default", cache, compression).
Proof.
  intros Hc Hco E. unfold _parse_benchmark_key. cbv zeta. rewrite E.
  cbn in Hc, Hco.
  destruct Hc as [<- | [<- | []]];
    destruct Hco as [<- | [<- | [<- | []]]]; reflexivity.
Qed.

Lemma parse_legacy_name_witness :
  _parse_benchmark_key "Cold_GZ" = Some ("default", "cold", "gz").
Proof.
  apply (parse_legacy_name "Cold_GZ" "cold" "gz");
    [cbn; tauto | cbn; tauto | reflexivity].
Defined.

End KeyProperties.

(* ================================================================== *)
(** * Result loader: further properties *)
(* ================================================================== *)

Module LoaderProperties.
Import Py PyFloat PyData Resolver Loader LoaderNotions Examples.

Lemma collect_records_sound (results : list json) :
  forall records log recs,
    fst (collect_records results records log) = Ok recs ->
    forall r, In r recs ->
      In r records \/ exists d, In (JObj d) results /\ record_of d r.
Proof.
  induction results as [|e results IH]; intros records log recs;
    cbn [collect_records].
  - cbn. intros [= <-] r Hr. now left.
  - destruct e as [| | | | | |d]; try discriminate.
    destruct (failed_runs_of (get_default d "exit_codes" (JArr [])))
      as [[[failed total]|]|] eqn:Ef; [| | discriminate].
    + intros H r Hr. destruct (IH _ _ _ H r Hr) as [Hin | [d' [Hd Hrec]]];
        [now left | right]. exists d'. split; [now right | exact Hrec].
    + assert (Hskip : forall log',
                 fst (collect_records results records log') = Ok recs ->
                 forall r, In r recs ->
                   In r records
                   \/ exists d', In (JObj d') (JObj d :: results) /\ record_of d' r).
      { intros log' H r Hr.
        destruct (IH _ _ _ H r Hr) as [Hin | [d' [Hd Hrec]]];
          [now left | right]. exists d'. split; [now right | exact Hrec]. }
      destruct (get d "mean") as [m|] eqn:Em; [| apply Hskip].
      destruct (get d "command") as [c|] eqn:Ec.
      * assert (Hkeep : m <> JNull ->
                   fst (collect_records results (records ++ [make_record d c m]) log)
                   = Ok recs ->
                   forall r, In r recs ->
                     In r records
                     \/ exists d', In (JObj d') (JObj d :: results)
                                   /\ record_of d' r).
        { intros Hm H r Hr.
          destruct (IH _ _ _ H r Hr) as [Hin | [d' [Hd Hrec]]].
          - apply in_app_or in Hin. destruct Hin as [Hin | [<- | []]];
              [now left | right].
            exists d. split; [now left |].
            unfold record_of, make_record. cbn. repeat split; assumption.
          - right. exists d'. split; [now right | exact Hrec]. }
        destruct m; try (apply Hkeep; discriminate). apply Hskip.
      * destruct m; try discriminate. apply Hskip.
Qed.

(** X6: when every record made from an entry of the document has the
    types of the metrics schema (a string command, float timings and a
    non-empty list of floats as run times), every row of a loaded table
    is the record of an entry of the results array that has no failed
    run, a command and a non-null mean; the fields the entry omits take
    their defaults: 0 for the standard deviation, the mean for median,
    min and max, and the one-element list of the mean for the run
    times. *)
Theorem loaded_rows_are_records_of_entries
        (read_json : string -> res json)
        (polars : list record -> res (record -> record)) (fs : FS) (fmt : Fmt)
        (json_path : string) (data : json) (results : list json)
        (df : DataFrame) (r : record) :
  read_json json_path = Ok data ->
  (v <- subscript data "results" ;; iterate v) = Ok results ->
  (forall d r', In (JObj d) results -> record_of d r' ->
                typed_record r' = true) ->
  fst (parse_benchmark_data read_json polars fs fmt json_path) = Ok df ->
  In r (rows df) ->
  exists d, In (JObj d) results /\ record_of d r.
Proof.
  intros Hread Hres Htyped.
  unfold parse_benchmark_data, load_hyperfine_results.
  rewrite Hread. cbn [bind]. rewrite Hres.
  destruct (collect_records results [] []) as [[recs|e] log] eqn:Ec;
    [| discriminate].
  assert (Hs := collect_records_sound results [] [] recs).
  rewrite Ec in Hs. specialize (Hs eq_refl).
  assert (Ht : forallb typed_record recs = true).
  { apply forallb_forall. intros x Hx.
    destruct (Hs x Hx) as [[] | [d [Hd Hrec]]]. exact (Htyped d x Hd Hrec). }
  destruct recs as [|r0 recs]; cbn [fst]; [intros [= <-] [] |].
  unfold frame_of_records. rewrite Ht. intros [= <-] Hr.
  destruct (Hs r Hr) as [[] | [d [Hd Hrec]]].
  now exists d.
Qed.

Lemma loaded_rows_are_records_of_entries_witness :
  exists d,
    In (JObj d) sample_results
    /\ record_of d
         (make_record [("command", JStr "needletail");
                       ("mean", JFloat (Fin 1.5));
                       ("exit_codes", JArr [JInt 0; JInt 0])]
                      (JStr "needletail") (JFloat (Fin 1.5))).
Proof.
  apply (loaded_rows_are_records_of_entries
           (holds (JObj [("results", JArr sample_results)]))
           strict no_files plain_fmt "hot_raw.json"
           (JObj [("results", JArr sample_results)]) sample_results
           (FromRecords
              [make_record [("command", JStr "needletail");
                            ("mean", JFloat (Fin 1.5));
                            ("exit_codes", JArr [JInt 0; JInt 0])]
                           (JStr "needletail") (JFloat (Fin 1.5))]));
    [reflexivity | reflexivity | | reflexivity | now left].
  intros d r' Hin Hrec. unfold record_of in Hrec.
  destruct r' as [c m sd md mn mx ts].
  cbn [Loader.command Loader.mean Loader.stddev Loader.median Loader.min
       Loader.max Loader.times] in Hrec.
  destruct Hrec as (Hf & Hc & Hm & Hnull & -> & -> & -> & -> & ->).
  destruct Hin as [E | [E | [E | []]]]; injection E as <-.
  - vm_compute in Hc, Hm. injection Hc as <-. injection Hm as <-. reflexivity.
  - vm_compute in Hf. discriminate Hf.
  - vm_compute in Hm. injection Hm as <-. now elim Hnull.
Defined.

Lemma frame_of_records_len
      (polars : list record -> res (record -> record))
      (records : list record) (df : DataFrame) :
  frame_of_records polars records = Ok df -> len df = List.length records.
Proof.
  unfold frame_of_records.
  destruct (forallb typed_record records); [now intros [= <-] |].
  destruct (forallb (fun r => typed_record r || int_then_float r) records);
    [discriminate |].
  destruct (polars records) as [convert|e]; cbn [bind]; [| discriminate].
  intros [= <-]. cbn [len]. apply length_map.
Qed.

Lemma collect_records_accounting (results : list json) :
  forall records log recs log',
    collect_records results records log = (Ok recs, log') ->
    (List.length recs + List.length (filter is_drop_line log')
     = List.length records + List.length (filter is_drop_line log)
       + List.length results)%nat.
Proof.
  induction results as [|e results IH]; intros records log recs log';
    cbn [collect_records].
  - intros [= <- <-]. cbn. lia.
  - destruct e as [| | | | | |d]; try discriminate.
    destruct (failed_runs_of (get_default d "exit_codes" (JArr [])))
      as [[[failed total]|]|]; [| | discriminate].
    + intro H. apply IH in H. rewrite filter_app, length_app in H.
      cbn in H. cbn [List.length]. lia.
    + assert (Hskip : forall line,
                 is_drop_line line = true ->
                 collect_records results records (log ++ [line]) = (Ok recs, log') ->
                 (List.length recs + List.length (filter is_drop_line log')
                  = List.length records + List.length (filter is_drop_line log)
                    + List.length (JObj d :: results))%nat).
      { intros line Hl H. apply IH in H. rewrite filter_app, length_app in H.
        cbn [filter] in H. rewrite Hl in H. cbn in H. cbn [List.length]. lia. }
      destruct (get d "mean") as [m|]; [| now apply Hskip].
      destruct (get d "command") as [c|].
      * assert (Hkeep :
                 collect_records results (records ++ [make_record d c m]) log
                 = (Ok recs, log') ->
                 (List.length recs + List.length (filter is_drop_line log')
                  = List.length records + List.length (filter is_drop_line log)
                    + List.length (JObj d :: results))%nat).
        { intro H. apply IH in H. rewrite length_app in H. cbn in H.
          cbn [List.length]. lia. }
        destruct m; try exact Hkeep. now apply Hskip.
      * destruct m; try discriminate. now apply Hskip.
Qed.

(** X7: when the loader returns, every entry of the results array is
    accounted for: it is a row of the table or it has its own warning
    line, so the number of rows plus the number of drop warnings is the
    number of entries; and the closing line "no successful results" is
    printed exactly when the table is empty. *)
Theorem loader_accounts_for_every_entry
        (read_json : string -> res json)
        (polars : list record -> res (record -> record)) (fs : FS) (fmt : Fmt)
        (json_path : string) (data : json) (results : list json)
        (df : DataFrame) (log : list log_entry) :
  read_json json_path = Ok data ->
  (v <- subscript data "results" ;; iterate v) = Ok results ->
  parse_benchmark_data read_json polars fs fmt json_path = (Ok df, log) ->
  (len df + List.length (filter is_drop_line log) = List.length results)%nat
  /\ (In (NoSuccessfulResults json_path) log <-> len df = 0%nat).
Proof.
  intros Hread Hres. unfold parse_benchmark_data, load_hyperfine_results.
  rewrite Hread. cbn [bind]. rewrite Hres.
  destruct (collect_records results [] []) as [[recs|e] log0] eqn:Ec;
    [| discriminate].
  pose proof (collect_records_accounting _ _ _ _ _ Ec) as Hacc. cbn in Hacc.
  assert (Hno : ~ In (NoSuccessfulResults json_path) log0).
  { clear Hacc. intro Hin.
    assert (G : forall results records l recs l',
               collect_records results records l = (Ok recs, l') ->
               In (NoSuccessfulResults json_path) l' ->
               In (NoSuccessfulResults json_path) l).
    { clear. induction results as [|e results IH]; intros records l recs l';
        cbn [collect_records].
      - now intros [= <- <-].
      - destruct e as [| | | | | |d]; try discriminate.
        assert (Hline : forall line rec',
                   is_drop_line line = true ->
                   collect_records results rec' (l ++ [line]) = (Ok recs, l') ->
                   In (NoSuccessfulResults json_path) l' ->
                   In (NoSuccessfulResults json_path) l).
        { intros line rec' Hl H Hin. apply (IH _ _ _ _ H) in Hin.
          apply in_app_or in Hin. destruct Hin as [Hin | [E | []]];
            [exact Hin | rewrite E in Hl; discriminate Hl]. }
        destruct (failed_runs_of (get_default d "exit_codes" (JArr [])))
          as [[[failed total]|]|]; [| | discriminate].
        + now apply Hline.
        + destruct (get d "mean") as [m|]; [| now apply Hline].
          destruct (get d "command") as [c|].
          * destruct m; try (apply IH); now apply Hline.
          * destruct m; try discriminate. now apply Hline. }
    exact (G _ _ _ _ _ Ec Hin). }
  destruct recs as [|r0 recs].
  - intros [= <- <-]. split.
    + rewrite filter_app, length_app. cbn in *. lia.
    + split; [reflexivity |]. intros _. apply in_or_app. right. now left.
  - intros [= Hframe <-].
    assert (Hlen : len df = List.length (r0 :: recs)).
    { apply frame_of_records_len in Hframe. exact Hframe. }
    split; [rewrite Hlen; cbn [List.length] in *; lia |].
    split; [contradiction | rewrite Hlen; discriminate].
Qed.

Lemma loader_accounts_for_every_entry_witness :
  (len (FromRecords
          [make_record [("command", JStr "needletail"); ("mean", JFloat (Fin 1.5));
                        ("exit_codes", JArr [JInt 0; JInt 0])]
                       (JStr "needletail") (JFloat (Fin 1.5))])
   + List.length
       (filter is_drop_line
          [CommandFailed (JStr "biopython") 1 2; NoTimingData (JStr "kseq")])
   = List.length sample_results)%nat
  /\ (In (NoSuccessfulResults "hot_raw.json")
         [CommandFailed (JStr "biopython") 1 2; NoTimingData (JStr "kseq")]
      <-> len (FromRecords
                 [make_record [("command", JStr "needletail");
                               ("mean", JFloat (Fin 1.5));
                               ("exit_codes", JArr [JInt 0; JInt 0])]
                              (JStr "needletail") (JFloat (Fin 1.5))]) = 0%nat).
Proof.
  apply (loader_accounts_for_every_entry
           (holds (JObj [("results", JArr sample_results)]))
           strict no_files plain_fmt "hot_raw.json"
           (JObj [("results", JArr sample_results)]) sample_results
           (FromRecords
              [make_record [("command", JStr "needletail"); ("mean", JFloat (Fin 1.5));
                            ("exit_codes", JArr [JInt 0; JInt 0])]
                           (JStr "needletail") (JFloat (Fin 1.5))])
           [CommandFailed (JStr "biopython") 1 2; NoTimingData (JStr "kseq")]);
    reflexivity.
Defined.

End LoaderProperties.

(* ================================================================== *)
(** * File-size resolver: further properties *)
(* ================================================================== *)

Module ResolverProperties.
Import Py PyStr Resolver ResolverSpec Examples StrFacts ResolverFacts.

(** The suffix chosen past the really-cold tier. *)
Lemma body_past_tier (fs : FS) (json_path : string) :
  not_really_cold_tier json_path = true ->
  get_file_size_bytes_body fs json_path
  = match (if contains "raw" json_path then Some ".fastq"
           else if contains "bgz" json_path then Some ".fastq_bgzipped.gz"
           else if contains "gz" json_path then Some ".fastq.gz"
           else None) with
    | None => Ok None
    | Some file_suffix =>
        match test_size_of json_path with
        | Some ts =>
            dir_ok <- fs_exists fs "test-data" ;;
            if dir_ok then
              there <- fs_exists fs (fixture_path ts file_suffix) ;;
              if there then
                n <- fs_size fs (fixture_path ts file_suffix) ;; Ok (Some n)
              else Ok None
            else Ok None
        | None => Ok None
        end
    end.
Proof.
  unfold not_really_cold_tier. intro H.
  repeat (apply andb_true_iff in H; destruct H as [H ?]).
  repeat match goal with
         | H : negb _ = true |- _ => apply negb_true_iff in H
         end.
  unfold get_file_size_bytes_body. cbv zeta. rewrite raw_test.
  repeat match goal with
         | H : contains _ json_path = false |- _ => rewrite H; clear H
         end.
  reflexivity.
Qed.

(** X8: past the really-cold tier a resolved size is the size of a file
    that exists: the path has a parent directory whose name ends in [m]
    and holds a digit, and the size returned is the size on disk of the
    fixture named after that directory with one of the three suffixes. *)
Theorem resolved_size_is_a_fixture_size (fs : FS) (json_path : string) (n : Z) :
  not_really_cold_tier json_path = true ->
  get_file_size_bytes fs json_path = Ok (Some n) ->
  exists test_size suffix,
    parent_name json_path = test_size
    /\ endswith "m" test_size = true
    /\ any_char isdigit test_size = true
    /\ In suffix [".fastq"; ".fastq_bgzipped.gz"; ".fastq.gz"]
    /\ fs_exists fs "test-data" = Ok true
    /\ fs_exists fs (fixture_path test_size suffix) = Ok true
    /\ fs_size fs (fixture_path test_size suffix) = Ok n.
Proof.
  intros Htier. unfold get_file_size_bytes.
  rewrite (body_past_tier fs json_path Htier).
  set (chosen := if contains "raw" json_path then Some ".fastq"
                 else if contains "bgz" json_path then Some ".fastq_bgzipped.gz"
                 else if contains "gz" json_path then Some ".fastq.gz"
                 else None).
  assert (Hsuffix : forall sfx, chosen = Some sfx ->
                      In sfx [".fastq"; ".fastq_bgzipped.gz"; ".fastq.gz"]).
  { unfold chosen. intros sfx.
    destruct (contains "raw" json_path); [intros [= <-]; cbn; tauto |].
    destruct (contains "bgz" json_path); [intros [= <-]; cbn; tauto |].
    destruct (contains "gz" json_path); [intros [= <-]; cbn; tauto |].
    discriminate. }
  destruct chosen as [sfx|]; [| discriminate].
  specialize (Hsuffix sfx eq_refl).
  unfold test_size_of.
  destruct (2 <=? parts_len json_path)%nat; [| discriminate].
  destruct (endswith "m" (parent_name json_path)) eqn:Em; [| discriminate].
  destruct (any_char isdigit (parent_name json_path)) eqn:Ed; [| discriminate].
  cbn [andb].
  destruct (fs_exists fs "test-data") as [[]|] eqn:E1; cbn [bind try_except_None];
    try discriminate.
  destruct (fs_exists fs (fixture_path (parent_name json_path) sfx))
    as [[]|] eqn:E2; cbn [bind try_except_None]; try discriminate.
  destruct (fs_size fs (fixture_path (parent_name json_path) sfx))
    as [m|] eqn:E3; cbn [bind try_except_None]; try discriminate.
  intros [= <-]. exists (parent_name json_path), sfx. repeat split; assumption.
Qed.

Lemma resolved_size_is_a_fixture_size_witness :
  exists test_size suffix,
    parent_name "benchmark_results/run/1m/hot_raw.json" = test_size
    /\ endswith "m" test_size = true
    /\ any_char isdigit test_size = true
    /\ In suffix [".fastq"; ".fastq_bgzipped.gz"; ".fastq.gz"]
    /\ fs_exists one_fixture "test-data" = Ok true
    /\ fs_exists one_fixture (fixture_path test_size suffix) = Ok true
    /\ fs_size one_fixture (fixture_path test_size suffix) = Ok 42%Z.
Proof.
  apply (resolved_size_is_a_fixture_size one_fixture
           "benchmark_results/run/1m/hot_raw.json" 42%Z);
    reflexivity.
Defined.

Lemma split_char_single (c : ascii) (a : string) :
  contains (String c "") a = false -> split (String c "") a = [a].
Proof.
  intro H. unfold split. rewrite <- (append_empty_r a) at 1.
  rewrite split_go_pass_char by exact H. reflexivity.
Qed.

(** X9: a results path without any directory part (a bare file name)
    never resolves past the really-cold tier: the size is unknown
    whatever the file system holds. *)
Theorem bare_file_name_is_unknown (fs : FS) (json_path : string) :
  not_really_cold_tier json_path = true ->
  contains "/" json_path = false ->
  get_file_size_bytes fs json_path = Ok None.
Proof.
  intros Htier Hslash. unfold get_file_size_bytes.
  rewrite (body_past_tier fs json_path Htier).
  assert (Hts : test_size_of json_path = None).
  { unfold test_size_of, parts_len, path_components.
    rewrite (split_char_single "/" json_path Hslash).
    assert (Hroot : startswith "/" json_path = false).
    { apply (contains_false_suffix "/" "" json_path). exact Hslash. }
    rewrite Hroot. cbn [filter].
    destruct (negb (String.eqb json_path "") && negb (String.eqb json_path "."));
      reflexivity. }
  rewrite Hts.
  destruct (if contains "raw" json_path then Some ".fastq"
            else if contains "bgz" json_path then Some ".fastq_bgzipped.gz"
            else if contains "gz" json_path then Some ".fastq.gz"
            else None); reflexivity.
Qed.

Lemma bare_file_name_is_unknown_witness :
  get_file_size_bytes one_fixture "hot_raw.json" = Ok None.
Proof.
  apply bare_file_name_is_unknown; reflexivity.
Defined.

(** X10: in the really-cold tier the size is one of the four fixed
    sizes (10 MiB, 100 MiB, 1 GiB, 4 GiB) and does not depend on the
    file system. *)
Theorem really_cold_size_is_fixed (json_path : string) :
  not_really_cold_tier json_path = false ->
  exists n,
    In n [(10 * 1024 ^ 2)%Z; (100 * 1024 ^ 2)%Z; (1024 ^ 3)%Z; (4 * 1024 ^ 3)%Z]
    /\ forall fs, get_file_size_bytes fs json_path = Ok (Some n).
Proof.
  unfold not_really_cold_tier, get_file_size_bytes, get_file_size_bytes_body.
  cbv zeta. intro H.
  destruct (contains "really_cold_10mb" json_path);
    [eexists; split; [| intro; reflexivity]; cbn; tauto |].
  destruct (contains "really_cold_100mb" json_path);
    [eexists; split; [| intro; reflexivity]; cbn; tauto |].
  destruct (contains "really_cold_1gb" json_path);
    [eexists; split; [| intro; reflexivity]; cbn; tauto |].
  destruct (contains "really_cold_4gb" json_path);
    [eexists; split; [| intro; reflexivity]; cbn; tauto |].
  discriminate H.
Qed.

Lemma really_cold_size_is_fixed_witness :
  exists n,
    In n [(10 * 1024 ^ 2)%Z; (100 * 1024 ^ 2)%Z; (1024 ^ 3)%Z; (4 * 1024 ^ 3)%Z]
    /\ forall fs,
         get_file_size_bytes fs "benchmark_results/run/really_cold_1gb.json"
         = Ok (Some n).
Proof.
  apply really_cold_size_is_fixed. reflexivity.
Defined.

(** X11: the size description is available exactly when the size in
    bytes is: [get_file_size_from_results] and [get_file_size_bytes]
    resolve the same paths on the same file system. *)
Theorem description_iff_size (fs : FS) (fmt : Fmt) (json_path : string) :
  (exists n, get_file_size_bytes fs json_path = Ok (Some n))
  <-> (exists d, get_file_size_from_results fs fmt json_path = Ok (Some d)).
Proof.
  unfold get_file_size_bytes, get_file_size_from_results,
    get_file_size_bytes_body, get_file_size_from_results_body.
  cbv zeta.
  destruct (contains "really_cold_10mb" json_path);
    [split; intros _; eexists; reflexivity |].
  destruct (contains "really_cold_100mb" json_path);
    [split; intros _; eexists; reflexivity |].
  destruct (contains "really_cold_1gb" json_path);
    [split; intros _; eexists; reflexivity |].
  destruct (contains "really_cold_4gb" json_path);
    [split; intros _; eexists; reflexivity |].
  rewrite raw_test.
  assert (G : forall sfx ct,
             (exists n,
                 try_except_None
                   match test_size_of json_path with
                   | Some ts =>
                       dir_ok <- fs_exists fs "test-data" ;;
                       if dir_ok then
                         there <- fs_exists fs (fixture_path ts sfx) ;;
                         if there then
                           n <- fs_size fs (fixture_path ts sfx) ;; Ok (Some n)
                         else Ok None
                       else Ok None
                   | None => Ok None
                   end = Ok (Some n))
             <-> (exists d,
                     try_except_None
                       match test_size_of json_path with
                       | Some ts =>
                           dir_ok <- fs_exists fs "test-data" ;;
                           if dir_ok then
                             let file_path := fixture_path ts sfx in
                             there <- fs_exists fs file_path ;;
                             if there then
                               size_bytes <- fs_size fs file_path ;;
                               let size_str : string :=
                                 if (size_bytes <? 1024)%Z
                                 then (fmt_int fmt size_bytes ++ " B")%string
                                 else if (size_bytes <? 1024 ^ 2)%Z
                                 then (fmt_1f fmt (inject_Z size_bytes / inject_Z 1024)
                                       ++ " KB")%string
                                 else if (size_bytes <? 1024 ^ 3)%Z
                                 then (fmt_1f fmt (inject_Z size_bytes
                                                   / inject_Z (1024 ^ 2))
                                       ++ " MB")%string
                                 else (fmt_2f fmt (inject_Z size_bytes
                                                   / inject_Z (1024 ^ 3))
                                       ++ " GB")%string in
                               Ok (Some (size_str ++ ", " ++ ct)%string)
                             else Ok None
                           else Ok None
                       | None => Ok None
                       end = Ok (Some d))).
  { intros sfx ct. cbv zeta.
    destruct (test_size_of json_path) as [ts|];
      [| split; intros [x Hx]; discriminate Hx].
    destruct (fs_exists fs "test-data") as [[]|]; cbn [bind try_except_None];
      try (split; intros [x Hx]; discriminate Hx).
    destruct (fs_exists fs (fixture_path ts sfx)) as [[]|];
      cbn [bind try_except_None];
      try (split; intros [x Hx]; discriminate Hx).
    destruct (fs_size fs (fixture_path ts sfx)) as [m|];
      cbn [bind try_except_None];
      [split; intros _; eexists; reflexivity
      | split; intros [x Hx]; discriminate Hx]. }
  destruct (contains "raw" json_path); [apply G |].
  destruct (contains "bgz" json_path); [apply G |].
  destruct (contains "gz" json_path); [apply G |].
  split; intros [x Hx]; discriminate Hx.
Qed.

End ResolverProperties.

(* ================================================================== *)
(** * The mean-time grid: further properties *)
(* ================================================================== *)

Module GridProperties.
Import Py PyStr Key PyFloat PyData Engine EngineSpec EngineNotions EngineExamples.
Import StrFacts FloatFacts SortFacts GridFacts.

Lemma dict_set_nonempty {V : Type} (d : list (cell_key * V)) (k : cell_key) (v : V) :
  dict_set cell_key_eqb d k v <> [].
Proof.
  destruct d as [|[k' v'] d]; cbn; [discriminate |].
  destruct (cell_key_eqb k k'); discriminate.
Qed.

Lemma organize_step_nonempty (cache_type : string) (acc : Organized)
      (item : string * Table) :
  acc <> [] -> organize_step cache_type acc item <> [].
Proof.
  intro H. unfold organize_step. destruct item as [n t].
  destruct (List.length t =? 0)%nat; [exact H |].
  destruct (_parse_benchmark_key n) as [[[sz ca] co]|]; [| exact H].
  destruct (negb (String.eqb ca cache_type)); [exact H |].
  apply dict_set_nonempty.
Qed.

Lemma fold_organize_nonempty (cache_type : string) (items : DataDict) :
  forall acc, acc <> [] ->
              fold_left (organize_step cache_type) items acc <> [].
Proof.
  induction items as [|item items IH]; intros acc H; cbn; [exact H |].
  apply IH. now apply organize_step_nonempty.
Qed.

Lemma organize_complete (data_dict : DataDict) (cache_type : string) :
  eligible data_dict cache_type -> organize data_dict cache_type <> [].
Proof.
  intros (name & df & size & comp & Hin & Hdf & Hp). unfold organize.
  assert (G : forall acc : Organized,
             fold_left (organize_step cache_type) data_dict acc <> []).
  { induction data_dict as [|item items IH]; intro acc; [destruct Hin |].
    cbn [fold_left]. destruct Hin as [-> | Hin].
    - apply fold_organize_nonempty. unfold organize_step.
      destruct df as [|r df]; [contradiction |]. cbn [List.length Nat.eqb].
      rewrite Hp, String.eqb_refl. cbn [negb]. apply dict_set_nonempty.
    - now apply IH. }
  apply G.
Qed.

Lemma organized_tables_nonempty data_dict cache_type comp size name df :
  In ((comp, size), (name, df)) (organize data_dict cache_type) ->
  In (name, df) data_dict /\ df <> []
  /\ _parse_benchmark_key name = Some (size, cache_type, comp).
Proof.
  intro H. unfold organize in H. apply organize_sound in H.
  destruct H as [[] | H]. exact H.
Qed.

Lemma grid_exists (data_dict : DataDict)
      (file_sizes : option (list (string * string))) (cache_type : string) :
  organize data_dict cache_type <> [] ->
  plot_mean_times data_dict file_sizes cache_type <> None.
Proof.
  intro Hne.
  assert (Hfirst : exists c s n r df org',
             organize data_dict cache_type = ((c, s), (n, r :: df)) :: org').
  { destruct (organize data_dict cache_type) as [|[[c s] [n df]] org'] eqn:Eorg;
      [contradiction |].
    assert (He : In ((c, s), (n, df)) (organize data_dict cache_type)).
    { rewrite Eorg. now left. }
    destruct (organized_tables_nonempty _ _ _ _ _ _ He) as (_ & Hdf & _).
    destruct df as [|r df]; [contradiction |]. now exists c, s, n, r, df, org'. }
  destruct Hfirst as (c & s & n & r & df & org' & Eorg).
  assert (HR : combined_rows_of (organize data_dict cache_type) <> []).
  { rewrite Eorg. unfold combined_rows_of. cbn. discriminate. }
  assert (HS : grid_sizes (organize data_dict cache_type) <> []).
  { intro E. assert (Hs : In s (grid_sizes (organize data_dict cache_type))).
    { apply grid_sizes_In. exists c, (n, r :: df). rewrite Eorg. now left. }
    rewrite E in Hs. exact Hs. }
  assert (HC : grid_compressions (organize data_dict cache_type) <> []).
  { intro E.
    assert (Hc : In c (grid_compressions (organize data_dict cache_type))).
    { apply grid_compressions_In. exists s, (n, r :: df). rewrite Eorg. now left. }
    rewrite E in Hc. exact Hc. }
  unfold plot_mean_times. cbv zeta.
  destruct (organize data_dict cache_type) as [|e0 org0]; [contradiction |].
  destruct (combined_rows_of (e0 :: org0)) as [|c0 comb]; [contradiction |].
  destruct (grid_sizes (e0 :: org0)) as [|s0 ss]; [contradiction |].
  destruct (grid_compressions (e0 :: org0)) as [|k0 ks]; [contradiction |].
  cbn [flat_map map app]. discriminate.
Qed.

(** X12: the grid of a cache state is missing ([None]) exactly when no
    table can be shown for it, that is when every table is empty, has a
    name that does not parse, or belongs to another cache state. *)
Theorem no_grid_iff_nothing_eligible
        (data_dict : DataDict) (file_sizes : option (list (string * string)))
        (cache_type : string) :
  plot_mean_times data_dict file_sizes cache_type = None
  <-> ~ eligible data_dict cache_type.
Proof.
  split.
  - intros H Hel. apply organize_complete in Hel.
    exact (grid_exists data_dict file_sizes cache_type Hel H).
  - intro Hno. unfold plot_mean_times. cbv zeta.
    destruct (organize data_dict cache_type) as [|[[c s] [n df]] org'] eqn:Eorg;
      [reflexivity |].
    exfalso. apply Hno.
    assert (He : In ((c, s), (n, df)) (organize data_dict cache_type)).
    { rewrite Eorg. now left. }
    destruct (organized_tables_nonempty _ _ _ _ _ _ He) as (H1 & H2 & H3).
    exists n, df, s, c. repeat split; assumption.
Qed.

(** X13: when several tables fall on the same pair of compression and
    size, the grid keeps the last one in the order of the dictionary: a
    non-empty table whose name parses to the requested cache state, and
    after which no non-empty table parses to the same triple, is the
    table of its cell. *)
Theorem last_table_wins
        (before after : DataDict) (name : string) (df : Table)
        (size cache_type compression : string) :
  df <> [] ->
  _parse_benchmark_key name = Some (size, cache_type, compression) ->
  (forall n' df', In (n', df') after -> df' <> [] ->
                  _parse_benchmark_key n' <> Some (size, cache_type, compression)) ->
  dict_get cell_key_eqb
           (organize (before ++ (name, df) :: after) cache_type)
           (compression, size)
  = Some (name, df).
Proof.
  intros Hdf Hp Hafter. unfold organize.
  rewrite fold_left_app. cbn [fold_left].
  rewrite (fold_organize_keeps cache_type (compression, size) after Hafter).
  unfold organize_step at 1.
  destruct df as [|r df]; [contradiction |]. cbn [List.length Nat.eqb].
  rewrite Hp, String.eqb_refl. cbn [negb]. apply dict_get_set_same.
Qed.

Lemma last_table_wins_witness :
  dict_get cell_key_eqb
           (organize ([("1m_hot_raw", [timing "A" 1 0.1])]
                      ++ ("1M_HOT_RAW", [timing "B" 2 0.1])
                      :: [("1m_cold_raw", [timing "C" 3 0.1])]) "hot")
           ("raw", "1m")
  = Some ("1M_HOT_RAW", [timing "B" 2 0.1]).
Proof.
  apply last_table_wins; [discriminate | reflexivity |].
  intros n' df' [[= <- <-] | []] _. discriminate.
Defined.

Lemma dedup_NoDup (l : list string) : NoDup (dedup String.eqb l).
Proof.
  induction l as [|x l IH]; cbn; constructor.
  - rewrite filter_In. intros [_ H]. now rewrite String.eqb_refl in H.
  - now apply NoDup_filter.
Qed.

Lemma sorted_by_NoDup (key : string -> pyfloat) (l : list string) :
  NoDup (sorted_by key (py_set l)).
Proof.
  unfold sorted_by, py_set.
  eapply Permutation_NoDup; [symmetry; apply py_sorted_perm | apply dedup_NoDup].
Qed.

Lemma placed_compression_valid data_dict cache_type c :
  In c (grid_compressions (organize data_dict cache_type)) ->
  In c ["raw"; "gz"; "bgz"].
Proof.
  intro H. apply grid_compressions_In in H.
  destruct H as (s & [n df] & H).
  apply organized_tables_nonempty in H. destruct H as (_ & _ & Hp).
  unfold _parse_benchmark_key in Hp. cbv zeta in Hp.
  destruct (contains "really_cold" (lower n)).
  - destruct (split "_really_cold_" (lower n)) as [|a [|b [|x l]]];
      try discriminate Hp.
    destruct (in_tuple b ["raw"; "gz"; "bgz"]) eqn:E; [| discriminate Hp].
    injection Hp as _ _ <-. now apply existsb_eqb_In.
  - destruct (split "_" (lower n)) as [|p0 [|p1 [|p2 l]]]; try discriminate Hp.
    + destruct (in_tuple p0 ["hot"; "cold"]); [| discriminate Hp].
      destruct (in_tuple p1 ["raw"; "gz"; "bgz"]) eqn:E; [| discriminate Hp].
      cbn [andb] in Hp. injection Hp as _ _ <-. now apply existsb_eqb_In.
    + destruct (in_tuple p1 ["hot"; "cold"]);
        destruct (in_tuple p2 ["raw"; "gz"; "bgz"]) eqn:E;
        try (destruct l; discriminate Hp).
      injection Hp as _ _ <-. now apply existsb_eqb_In.
Qed.

Lemma has_compression_In (org : Organized) (c : string) :
  has_compression org c = true <-> In c (grid_compressions org).
Proof.
  unfold has_compression. rewrite existsb_exists, grid_compressions_In. split.
  - intros [[[c' s] v] [Hin E]]. cbn in E. apply String.eqb_eq in E. subst c'.
    now exists s, v.
  - intros (s & v & Hin). exists ((c, s), v). split; [exact Hin |].
    cbn. apply String.eqb_refl.
Qed.

Ltac absurd_columns :=
  exfalso;
  first
    [ repeat match goal with
             | H : NoDup (_ :: _) |- _ =>
                 let N := fresh "N" in
                 apply NoDup_cons_iff in H; destruct H as [N H]
             end;
      match goal with
      | N : ~ In _ _ |- _ => solve [apply N; cbn; auto 10]
      end
    | repeat match goal with
             | H : StronglySorted _ (_ :: _) |- _ =>
                 let F := fresh "F" in
                 apply StronglySorted_inv in H; destruct H as [H F]
             | F : Forall _ (_ :: _) |- _ =>
                 let R := fresh "R" in
                 apply Forall_cons_iff in F; destruct F as [R F]
             end;
      match goal with
      | R : not_after _ _ _ |- _ => vm_compute in R; discriminate R
      end ].

(** A list of compressions without repeats that is sorted by the
    compression key is the canonical list restricted to its members. *)
Lemma sorted_columns (l : list string) :
  (forall c, In c l -> In c ["raw"; "gz"; "bgz"]) ->
  NoDup l ->
  StronglySorted
    (not_after (fun x y => ltb (compression_sort_key x) (compression_sort_key y)))
    l ->
  l = filter (fun c => existsb (String.eqb c) l) ["raw"; "gz"; "bgz"].
Proof.
  intros Hvalid Hnd Hs.
  destruct l as [|a [|b [|c [|d l]]]].
  - reflexivity.
  - pose proof (Hvalid a (or_introl eq_refl)) as Ha. cbn in Ha.
    destruct Ha as [<- | [<- | [<- | []]]]; reflexivity.
  - pose proof (Hvalid a (or_introl eq_refl)) as Ha.
    pose proof (Hvalid b (or_intror (or_introl eq_refl))) as Hb.
    clear Hvalid. cbn in Ha, Hb.
    destruct Ha as [<- | [<- | [<- | []]]];
      destruct Hb as [<- | [<- | [<- | []]]];
      first [reflexivity | absurd_columns].
  - pose proof (Hvalid a (or_introl eq_refl)) as Ha.
    pose proof (Hvalid b (or_intror (or_introl eq_refl))) as Hb.
    pose proof (Hvalid c (or_intror (or_intror (or_introl eq_refl)))) as Hc.
    clear Hvalid. cbn in Ha, Hb, Hc.
    destruct Ha as [<- | [<- | [<- | []]]];
      destruct Hb as [<- | [<- | [<- | []]]];
      destruct Hc as [<- | [<- | [<- | []]]];
      first [reflexivity | absurd_columns].
  - pose proof (Hvalid a (or_introl eq_refl)) as Ha.
    pose proof (Hvalid b (or_intror (or_introl eq_refl))) as Hb.
    pose proof (Hvalid c (or_intror (or_intror (or_introl eq_refl)))) as Hc.
    pose proof (Hvalid d (or_intror (or_intror (or_intror (or_introl eq_refl)))))
      as Hd.
    clear Hvalid Hs. cbn in Ha, Hb, Hc, Hd.
    destruct Ha as [<- | [<- | [<- | []]]];
      destruct Hb as [<- | [<- | [<- | []]]];
      destruct Hc as [<- | [<- | [<- | []]]];
      destruct Hd as [<- | [<- | [<- | []]]];
      absurd_columns.
Qed.

(** X14: the columns of a grid are always in the order raw, gz, bgz:
    the list of compressions is the list [raw; gz; bgz] restricted to the
    compressions that some placed table has, without repeats. *)
Theorem grid_columns_in_fixed_order (data_dict : DataDict) (cache_type : string) :
  grid_compressions (organize data_dict cache_type)
  = filter (has_compression (organize data_dict cache_type))
           ["raw"; "gz"; "bgz"].
Proof.
  set (org := organize data_dict cache_type).
  rewrite (sorted_columns (grid_compressions org)) at 1.
  - apply filter_ext. intro c. apply eq_true_iff_eq.
    rewrite has_compression_In, existsb_exists. split.
    + intros [x [Hx E]]. apply String.eqb_eq in E. now subst.
    + intro H. exists c. split; [exact H | apply String.eqb_refl].
  - intro c. apply placed_compression_valid.
  - apply sorted_by_NoDup.
  - unfold grid_compressions. apply sorted_by_sorted.
    intros x _. unfold compression_sort_key.
    repeat match goal with
           | |- context [String.eqb ?a ?b] => destruct (String.eqb a b)
           end; discriminate.
Qed.

(** X15: a grid is rectangular: it has one row per distinct size of
    the placed tables, labelled by that size, and every row has one
    panel per column, of which there are between one and three. *)
Theorem grid_is_rectangular
        (data_dict : DataDict) (file_sizes : option (list (string * string)))
        (cache_type : string) (grid : list grid_row) :
  plot_mean_times data_dict file_sizes cache_type = Some grid ->
  let org := organize data_dict cache_type in
  map row_label grid = map size_row_label (grid_sizes org)
  /\ NoDup (grid_sizes org)
  /\ Forall (fun g => List.length (row_charts g)
                      = List.length (grid_compressions org)) grid
  /\ (1 <= List.length (grid_compressions org) <= 3)%nat.
Proof.
  intros H org.
  assert (Hne : org <> []).
  { unfold org. intro E. unfold plot_mean_times in H. cbv zeta in H.
    rewrite E in H. discriminate H. }
  pose proof (plot_mean_times_rows _ _ _ _ H) as Hrows. cbv zeta in Hrows.
  fold org in Hrows.
  split; [rewrite Hrows, map_map; reflexivity |].
  split; [apply sorted_by_NoDup |].
  split.
  { rewrite Hrows. apply Forall_forall. intros g Hg.
    apply in_map_iff in Hg. destruct Hg as [size [<- _]].
    cbn [row_charts]. apply length_map. }
  split.
  - assert (Hc : exists c, In c (grid_compressions org)).
    { destruct org as [|[[c s] v] org'] eqn:Eorg; [contradiction |].
      exists c. apply grid_compressions_In. exists s, v. now left. }
    destruct Hc as [c Hc].
    destruct (grid_compressions org); [destruct Hc | cbn; lia].
  - apply (NoDup_incl_length (l' := ["raw"; "gz"; "bgz"]));
      [apply sorted_by_NoDup |].
    intros c Hc. exact (placed_compression_valid _ _ _ Hc).
Qed.

Lemma grid_is_rectangular_witness :
  map row_label
      [{| row_label := "1M reads";
          row_charts :=
            [BarChart "Raw FASTQ"
               [{| c_command := "A"; c_mean := Fin 1; c_stddev := Fin 0.1;
                   c_min := Fin 1; c_max := Fin 1; c_compression := "raw";
                   c_size := "1m"; c_benchmark_name := "1m_hot_raw" |}]
               ["A"]] |}]
  = map size_row_label (grid_sizes (organize hot_and_cold "hot"))
  /\ NoDup (grid_sizes (organize hot_and_cold "hot"))
  /\ Forall (fun g => List.length (row_charts g)
                      = List.length (grid_compressions (organize hot_and_cold "hot")))
            [{| row_label := "1M reads";
                row_charts :=
                  [BarChart "Raw FASTQ"
                     [{| c_command := "A"; c_mean := Fin 1; c_stddev := Fin 0.1;
                         c_min := Fin 1; c_max := Fin 1; c_compression := "raw";
                         c_size := "1m"; c_benchmark_name := "1m_hot_raw" |}]
                     ["A"]] |}]
  /\ (1 <= List.length (grid_compressions (organize hot_and_cold "hot")) <= 3)%nat.
Proof.
  apply (grid_is_rectangular hot_and_cold None "hot"). reflexivity.
Defined.

End GridProperties.

(* ================================================================== *)
(** * Scaling and throughput series: further properties *)
(* ================================================================== *)

Module SeriesProperties.
Import Py PyStr Key PyFloat PyData Resolver Engine EngineSpec EngineExamples.
Import StrFacts FloatFacts SortFacts ThroughputFacts KeyProperties.

Lemma scaling_ratio_total (parser_data : list ScalingRow) :
  exists o, scaling_ratio parser_data = Ok o.
Proof.
  unfold scaling_ratio.
  destruct parser_data as [|first [|second rest]]; try (eexists; reflexivity).
  cbv zeta.
  destruct (gtb (s_mean first) (Fin 0)) eqn:Et; [| eexists; reflexivity].
  destruct (gtb (s_size_value first) (Fin 0)) eqn:Es; [| eexists; reflexivity].
  cbn [andb].
  pose proof (positive_not_zero _ Et) as Zt.
  pose proof (positive_not_zero _ Es) as Zs.
  unfold div at 1 2. rewrite Zt, Zs. cbn [bind].
  match goal with
  | |- context [gtb ?x (Fin 0)] => destruct (gtb x (Fin 0)) eqn:Er
  end.
  - pose proof (positive_not_zero _ Er) as Zr.
    unfold div. rewrite Zr. cbn [bind]. eexists. reflexivity.
  - cbn [bind]. eexists. reflexivity.
Qed.

Lemma analyse_parsers_total (scaling_df : list ScalingRow) (parsers : list string) :
  exists report, analyse_parsers scaling_df parsers = Ok report.
Proof.
  induction parsers as [|parser parsers IH]; cbn [analyse_parsers].
  - eexists. reflexivity.
  - assert (Hp : exists here, analyse_parser scaling_df parser = Ok here).
    { unfold analyse_parser.
      destruct (parser_series scaling_df parser) as [|r rs];
        [eexists; reflexivity |].
      destruct (scaling_ratio_total (r :: rs)) as [[[[tr sr] e]|] Ho];
        rewrite Ho; cbn [bind]; eexists; reflexivity. }
    destruct Hp as [here Hh]. destruct IH as [there Ht].
    rewrite Hh, Ht. cbn [bind]. eexists. reflexivity.
Qed.

Lemma scaling_analysis_never_raises_aux
      (all_data : DataDict) (cache_type file_format : string) :
  exists out, plot_test_size_scaling all_data cache_type file_format = Ok out.
Proof.
  unfold plot_test_size_scaling.
  destruct (matching_keys all_data cache_type file_format) as [|k ks];
    [eexists; reflexivity |].
  destruct (collect_scaling all_data (k :: ks) [] []) as [rows size_map].
  destruct rows as [|r rows]; [eexists; reflexivity |].
  destruct (analyse_parsers_total (r :: rows)
              (sorted_str (py_set (map s_command (r :: rows))))) as [rep Hr].
  rewrite Hr. cbn [bind]. eexists. reflexivity.
Qed.

(** X16: the scaling analysis never divides by zero, whatever the
    timings: [plot_test_size_scaling] returns for every input, and the
    report it prints holds a ratio line for a parser only when that
    parser's first (smallest-size) row has a positive time and a positive
    size. *)
Theorem scaling_analysis_never_raises
        (all_data : DataDict) (cache_type file_format : string) :
  (exists out, plot_test_size_scaling all_data cache_type file_format = Ok out)
  /\ (forall parser_data, exists o, scaling_ratio parser_data = Ok o)
  /\ (forall first rest tr sr e,
         scaling_ratio (first :: rest) = Ok (Some (tr, sr, e)) ->
         gtb (s_mean first) (Fin 0) = true
         /\ gtb (s_size_value first) (Fin 0) = true
         /\ rest <> []).
Proof.
  split; [apply scaling_analysis_never_raises_aux |].
  split; [apply scaling_ratio_total |].
  intros first rest tr sr e. unfold scaling_ratio.
  destruct rest as [|second rest]; [discriminate |]. cbv zeta.
  destruct (gtb (s_mean first) (Fin 0)); [| discriminate].
  destruct (gtb (s_size_value first) (Fin 0)); [| discriminate].
  intros _. repeat split. discriminate.
Qed.

Lemma collect_scaling_keeps (all_data : DataDict) (keys : list string) :
  forall acc size_map r,
    In r acc -> In r (fst (collect_scaling all_data keys acc size_map)).
Proof.
  induction keys as [|key keys IH]; intros acc size_map r H;
    cbn [collect_scaling]; [exact H |].
  destruct (extract_size_info key) as [[[v|] size_key] size_display].
  - apply IH. apply in_or_app. now left.
  - now apply IH.
Qed.

Lemma collect_scaling_complete (all_data : DataDict) (keys : list string) :
  forall acc size_map key row v,
    In key keys ->
    fst (fst (extract_size_info key)) = Some v ->
    In row (table_of all_data key) ->
    In {| s_size_value := v;
          s_size_display := snd (extract_size_info key);
          s_command := command row;
          s_mean := mean row;
          s_stddev := stddev_or_zero row |}
       (fst (collect_scaling all_data keys acc size_map)).
Proof.
  induction keys as [|k keys IH]; intros acc size_map key row v Hk Hv Hrow;
    [destruct Hk |].
  cbn [collect_scaling]. destruct Hk as [-> | Hk].
  - destruct (extract_size_info key) as [[size_value size_key] size_display].
    cbn [fst snd] in *. subst size_value.
    apply collect_scaling_keeps. apply in_or_app. right.
    apply in_map_iff. exists row. split; [reflexivity | exact Hrow].
  - destruct (extract_size_info k) as [[[v'|] size_key] size_display];
      now apply IH.
Qed.

Lemma startswith_app (p s : string) : startswith p (p ++ s) = true.
Proof.
  induction p as [|c p IH]; [reflexivity |].
  cbn. now rewrite Ascii.eqb_refl, IH.
Qed.

Lemma contains_unfold (p x : string) :
  contains p x
  = startswith p x
    || match x with
       | EmptyString => false
       | String _ x' => contains p x'
       end.
Proof. destruct x; reflexivity. Qed.

Lemma contains_middle (a p s : string) : contains p (a ++ p ++ s) = true.
Proof.
  apply contains_app_r. rewrite contains_unfold, startswith_app. reflexivity.
Qed.

Lemma endswith_app (a suffix : string) : endswith suffix (a ++ suffix) = true.
Proof.
  induction a as [|c a IH]; cbn [append endswith].
  - destruct suffix; cbn [endswith]; now rewrite String.eqb_refl.
  - rewrite IH. apply orb_true_r.
Qed.

(** A key of the form size_cache_format is selected for its cache
    state and format when its table is not empty. *)
Lemma three_part_key_matches (all_data : DataDict) (size cache format : string) :
  In (size ++ "_" ++ cache ++ "_" ++ format)%string (map fst all_data) ->
  contains "really_cold" (size ++ "_" ++ cache ++ "_" ++ format) = false ->
  table_of all_data (size ++ "_" ++ cache ++ "_" ++ format) <> [] ->
  In (size ++ "_" ++ cache ++ "_" ++ format)%string
     (matching_keys all_data cache format).
Proof.
  intros Hin Hrc Hne. unfold matching_keys. apply filter_In.
  split; [exact Hin |]. unfold key_matches. rewrite Hrc. cbn [negb].
  assert (E1 : contains ("_" ++ cache ++ "_")
                 (size ++ "_" ++ cache ++ "_" ++ format) = true).
  { replace (size ++ "_" ++ cache ++ "_" ++ format)%string
      with (size ++ ("_" ++ cache ++ "_") ++ format)%string.
    - apply contains_middle.
    - repeat (rewrite ?append_assoc; cbn [append]). reflexivity. }
  assert (E2 : endswith ("_" ++ format)
                 (size ++ "_" ++ cache ++ "_" ++ format) = true).
  { replace (size ++ "_" ++ cache ++ "_" ++ format)%string
      with ((size ++ "_" ++ cache) ++ "_" ++ format)%string.
    - apply endswith_app.
    - repeat (rewrite ?append_assoc; cbn [append]). reflexivity. }
  rewrite E1, E2. cbn [andb].
  destruct (table_of all_data (size ++ "_" ++ cache ++ "_" ++ format));
    [contradiction | reflexivity].
Qed.

Lemma extract_size_of_key (size rest : string) (v : pyfloat) :
  contains "_" size = false ->
  py_float (remove_char "M" (remove_char "m" size)) = Some v ->
  extract_size_info (size ++ "_" ++ rest) = (Some v, size, upper size).
Proof.
  intros Hu Hv. unfold extract_size_info.
  rewrite (split_underscore_cons _ _ Hu). cbn [hd]. now rewrite Hv.
Qed.

(** X17: no measured point is dropped from a scaling chart: for a key
    size_cache_format whose size label has no underscore and reads as a
    number, every row of its table is a point of the chart of that cache
    state and format, at that size and with the row's command and mean. *)
Theorem scaling_chart_has_every_measured_row
        (all_data : DataDict) (size cache format : string)
        (row : Row) (v : pyfloat) :
  In (size ++ "_" ++ cache ++ "_" ++ format)%string (map fst all_data) ->
  contains "_" size = false ->
  contains "really_cold" (size ++ "_" ++ cache ++ "_" ++ format) = false ->
  py_float (remove_char "M" (remove_char "m" size)) = Some v ->
  In row (table_of all_data (size ++ "_" ++ cache ++ "_" ++ format)) ->
  exists chart,
    plot_test_size_scaling all_data cache format = Ok (Some chart)
    /\ In {| s_size_value := v;
             s_size_display := upper size;
             s_command := command row;
             s_mean := mean row;
             s_stddev := stddev_or_zero row |} (sc_rows chart).
Proof.
  intros Hin Hu Hrc Hv Hrow.
  set (key := (size ++ "_" ++ cache ++ "_" ++ format)%string) in *.
  assert (Hkey : In key (matching_keys all_data cache format)).
  { apply three_part_key_matches; try assumption.
    intro E. fold key in E. rewrite E in Hrow. destruct Hrow. }
  assert (Hinfo : extract_size_info key = (Some v, size, upper size)).
  { apply extract_size_of_key; assumption. }
  pose proof (collect_scaling_complete all_data
                (matching_keys all_data cache format) [] [] key row v Hkey) as Hc.
  rewrite Hinfo in Hc. cbn [fst snd] in Hc. specialize (Hc eq_refl Hrow).
  destruct (scaling_analysis_never_raises_aux all_data cache format) as [out Hout].
  unfold plot_test_size_scaling in *.
  destruct (matching_keys all_data cache format) as [|k ks]; [destruct Hkey |].
  destruct (collect_scaling all_data (k :: ks) [] []) as [rows size_map].
  cbn [fst] in Hc. destruct rows as [|r rows]; [destruct Hc |].
  destruct (analyse_parsers (r :: rows) _) as [rep|e]; cbn [bind] in *;
    [| discriminate Hout].
  eexists. split; [reflexivity | exact Hc].
Qed.

Lemma scaling_chart_has_every_measured_row_witness :
  exists chart,
    plot_test_size_scaling two_parsers "hot" "raw" = Ok (Some chart)
    /\ In {| s_size_value := Fin 10;
             s_size_display := upper "10m";
             s_command := command (timing "B" 9 0.5);
             s_mean := mean (timing "B" 9 0.5);
             s_stddev := stddev_or_zero (timing "B" 9 0.5) |} (sc_rows chart).
Proof.
  apply (scaling_chart_has_every_measured_row two_parsers "10m" "hot" "raw"
           (timing "B" 9 0.5) (Fin 10));
    [cbn; tauto | reflexivity | reflexivity | reflexivity | cbn; tauto].
Defined.

Lemma throughput_of_rows_complete
      (bytes : Z) (gb size_value : pyfloat) (size_display : string) (df : Table) :
  forall acc out,
    throughput_of_rows bytes gb size_value size_display df acc = Ok out ->
    (forall x, In x acc -> In x out)
    /\ (forall row, In row df ->
          gtb (mean row) (Fin 0) = true ->
          exists r,
            throughput_of_row bytes gb size_value size_display row
            = Ok (Some r)
            /\ In r out).
Proof.
  induction df as [|row0 df IH]; intros acc out; cbn [throughput_of_rows].
  - intros [= <-]. split; [tauto | intros row []].
  - destruct (throughput_of_row bytes gb size_value size_display row0)
      as [o|e] eqn:E0; cbn [bind]; [| discriminate].
    intro H. apply IH in H. destruct H as [Hacc Hrows]. split.
    + intros x Hx. apply Hacc. destruct o; [apply in_or_app; now left | exact Hx].
    + intros row [<- | Hin] Hpos.
      * destruct (throughput_of_row_positive _ _ _ _ _ _ Hpos E0) as [r ->].
        exists r. split; [exact E0 |]. apply Hacc.
        apply in_or_app. right. now left.
      * now apply Hrows.
Qed.

Lemma collect_throughput_complete
      (fs : FS) (all_data : DataDict) (avail : list (string * string))
      (keys : list string) :
  forall acc size_map out size_map',
    collect_throughput fs all_data avail keys acc size_map = Ok (out, size_map') ->
    (forall x, In x acc -> In x out)
    /\ (forall key json_path bytes v row,
          In key keys ->
          dict_get String.eqb avail key = Some json_path ->
          get_file_size_bytes fs json_path = Ok (Some bytes) ->
          bytes <> 0%Z ->
          fst (fst (extract_size_info key)) = Some v ->
          In row (table_of all_data key) ->
          gtb (mean row) (Fin 0) = true ->
          exists gb r,
            int_truediv bytes (1024 ^ 3) = Ok gb
            /\ throughput_of_row bytes gb v
                                 (snd (extract_size_info key)) row
               = Ok (Some r)
            /\ In r out).
Proof.
  induction keys as [|k keys IH]; intros acc size_map out size_map';
    cbn [collect_throughput].
  - intros [= <- <-]. split; [tauto |]. intros key jp b v row [].
  - assert (Hskip :
              (forall key json_path bytes (v : pyfloat),
                  key = k ->
                  dict_get String.eqb avail key = Some json_path ->
                  get_file_size_bytes fs json_path = Ok (Some bytes) ->
                  bytes <> 0%Z ->
                  fst (fst (extract_size_info key)) = Some v -> False) ->
              collect_throughput fs all_data avail keys acc size_map
              = Ok (out, size_map') ->
              (forall x, In x acc -> In x out)
              /\ (forall key json_path bytes v row,
                    In key (k :: keys) ->
                    dict_get String.eqb avail key = Some json_path ->
                    get_file_size_bytes fs json_path = Ok (Some bytes) ->
                    bytes <> 0%Z ->
                    fst (fst (extract_size_info key)) = Some v ->
                    In row (table_of all_data key) ->
                    gtb (mean row) (Fin 0) = true ->
                    exists gb r,
                      int_truediv bytes (1024 ^ 3) = Ok gb
                      /\ throughput_of_row bytes gb v
                                           (snd (extract_size_info key)) row
                         = Ok (Some r)
                      /\ In r out)).
    { intros Hno H. apply IH in H. destruct H as [Hacc Hk]. split; [exact Hacc |].
      intros key jp b v row [<- | Hin] H1 H2 H3 H4 H5 H6.
      - exfalso. eapply (Hno k jp b v); eauto.
      - eapply Hk; eassumption. }
    destruct (dict_get String.eqb avail k) as [json_path|] eqn:Ejp.
    2:{ apply Hskip. intros key jp b v -> H. rewrite Ejp in H.
        discriminate H. }
    destruct (get_file_size_bytes fs json_path) as [[bytes|]|e] eqn:Esize;
      cbn [bind]; [| | discriminate].
    2:{ apply Hskip. intros key jp b v -> H1 H2. rewrite Ejp in H1.
        injection H1 as <-. rewrite Esize in H2. discriminate H2. }
    destruct (Z.eqb_spec bytes 0) as [Hz | Hz].
    { apply Hskip. intros key jp b v -> H1 H2 H3. rewrite Ejp in H1.
      injection H1 as <-. rewrite Esize in H2. injection H2 as <-.
      contradiction. }
    destruct (extract_size_info k) as [[size_value size_key] size_display]
      eqn:Einfo.
    destruct size_value as [v0|].
    2:{ apply Hskip. intros key jp b v -> _ _ _ H. rewrite Einfo in H.
        discriminate H. }
    destruct (int_truediv bytes (1024 ^ 3)) as [gb0|e] eqn:Egb; cbn [bind];
      [| discriminate].
    destruct (throughput_of_rows bytes gb0 v0
                size_display (table_of all_data k) acc) as [rows|e] eqn:Erows;
      cbn [bind]; [| discriminate].
    intro H. apply IH in H. destruct H as [Hacc Hk].
    apply throughput_of_rows_complete in Erows. destruct Erows as [Racc Rrows].
    split; [intros x Hx; apply Hacc, Racc, Hx |].
    intros key jp b v row [<- | Hin] H1 H2 H3 H4 H5 H6.
    + rewrite Ejp in H1. injection H1 as <-. rewrite Esize in H2.
      injection H2 as <-. rewrite Einfo in H4 |- *. cbn [fst snd] in H4 |- *.
      injection H4 as <-.
      destruct (Rrows row H5 H6) as (r & Hr & Hin).
      exists gb0, r. split; [exact Egb |]. split; [exact Hr |].
      now apply Hacc.
    + eapply Hk; eassumption.
Qed.

(** X18: no measurable entry is dropped from a throughput table: for a
    key size_cache_format whose size label has no underscore and reads as
    a number, whose results file is known and whose file size resolves to
    a non-zero number of bytes, every row with a positive mean time has
    its entry in the table of that cache state and format, whenever
    [plot_throughput] returns (it raises when the square of some mean
    time is out of the range of a float). *)
Theorem throughput_table_has_every_measured_row
        (fs : FS) (all_data : DataDict) (avail : list (string * string))
        (size cache format json_path : string) (bytes : Z)
        (row : Row) (v : pyfloat) (m : Q)
        (out : option ThroughputChart) :
  In (size ++ "_" ++ cache ++ "_" ++ format)%string (map fst all_data) ->
  contains "_" size = false ->
  contains "really_cold" (size ++ "_" ++ cache ++ "_" ++ format) = false ->
  py_float (remove_char "M" (remove_char "m" size)) = Some v ->
  dict_get String.eqb avail (size ++ "_" ++ cache ++ "_" ++ format)%string
  = Some json_path ->
  get_file_size_bytes fs json_path = Ok (Some bytes) ->
  bytes <> 0%Z ->
  In row (table_of all_data (size ++ "_" ++ cache ++ "_" ++ format)%string) ->
  mean row = Fin m -> (0 < m)%Q ->
  plot_throughput fs all_data avail cache format = Ok out ->
  exists chart r,
    out = Some chart
    /\ In r (tc_rows chart)
    /\ t_command r = command row
    /\ t_size_value r = v
    /\ mean_time r = Fin m.
Proof.
  intros Hin Hu Hrc Hv Hjp Hsize Hz Hrow Hm Hpos E.
  set (key := (size ++ "_" ++ cache ++ "_" ++ format)%string) in *.
  assert (Hkey : In key (matching_keys all_data cache format)).
  { apply three_part_key_matches; try assumption.
    intro E0. fold key in E0. rewrite E0 in Hrow. destruct Hrow. }
  assert (Hinfo : extract_size_info key = (Some v, size, upper size)).
  { apply extract_size_of_key; assumption. }
  assert (Hgt : gtb (mean row) (Fin 0) = true).
  { rewrite Hm. now apply gtb_zero. }
  unfold plot_throughput in E.
  destruct (matching_keys all_data cache format) as [|k ks] eqn:Ek;
    [destruct Hkey |].
  destruct (collect_throughput fs all_data avail (k :: ks) [] [])
    as [[rows size_map]|e] eqn:Ec; cbn [bind] in E; [| discriminate E].
  apply collect_throughput_complete in Ec. destruct Ec as [_ Hall].
  destruct (Hall key json_path bytes v row Hkey Hjp Hsize Hz
              ltac:(now rewrite Hinfo) Hrow Hgt) as (gb & r & _ & Hr & Hinr).
  apply throughput_of_row_entry in Hr.
  destruct Hr as (_ & Hc & Hsv & _ & Hmt).
  destruct rows as [|r0 rows]; [destruct Hinr |].
  injection E as <-.
  eexists. exists r. split; [reflexivity |].
  repeat split; try assumption. now rewrite Hmt.
Qed.

Lemma throughput_table_has_every_measured_row_witness :
  exists chart r,
    plot_throughput gib_fixture
      [("1m_hot_raw", [timing "needletail" 2 0.5])]
      [("1m_hot_raw", "benchmark_results/run/1m/hot_raw.json")] "hot" "raw"
    = Ok (Some chart)
    /\ In r (tc_rows chart)
    /\ t_command r = command (timing "needletail" 2 0.5)
    /\ t_size_value r = Fin 1
    /\ mean_time r = Fin 2.
Proof.
  destruct (plot_throughput gib_fixture
              [("1m_hot_raw", [timing "needletail" 2 0.5])]
              [("1m_hot_raw", "benchmark_results/run/1m/hot_raw.json")]
              "hot" "raw") as [out|e] eqn:E;
    [| vm_compute in E; discriminate E].
  destruct (throughput_table_has_every_measured_row gib_fixture
              [("1m_hot_raw", [timing "needletail" 2 0.5])]
              [("1m_hot_raw", "benchmark_results/run/1m/hot_raw.json")]
              "1m" "hot" "raw" "benchmark_results/run/1m/hot_raw.json"
              (1024 ^ 3)%Z (timing "needletail" 2 0.5) (Fin 1) 2%Q out)
    as (chart & r & -> & H);
    first [reflexivity | discriminate | (cbn; tauto) | exact E | idtac].
  now exists chart, r.
Defined.

End SeriesProperties.

(* ================================================================== *)
(** * Result discovery: properties *)
(* ================================================================== *)

Module DiscoveryProperties.
Import Py PyData Discovery SortFacts.

(** The last element of a sorted list of strings is less than none of
    its elements. *)
Lemma sorted_last_greatest (l : list string) (d : string) :
  StronglySorted (not_after String.ltb) l ->
  forall x, In x l -> String.ltb (last l d) x = false.
Proof.
  induction 1 as [|y l Hs IH Hy]; intros x Hx; [destruct Hx |].
  destruct l as [|z l].
  - destruct Hx as [<- | []]. apply string_ltb_irrefl.
  - change (last (y :: z :: l) d) with (last (z :: l) d).
    destruct Hx as [<- | Hx]; [| now apply IH].
    rewrite Forall_forall in Hy. apply Hy.
    destruct (exists_last (l := z :: l)) as [l' [a E]]; [discriminate |].
    rewrite E, last_last. apply in_or_app. right. now left.
Qed.

Lemma last_In (l : list string) (d : string) : l <> [] -> In (last l d) l.
Proof.
  intro H. destruct (exists_last H) as [l' [a ->]].
  rewrite last_last. apply in_or_app. right. now left.
Qed.

Lemma subdirs_In (entries : list (string * bool)) (n : string) :
  In n (map fst (filter snd entries)) <-> In (n, true) entries.
Proof.
  rewrite in_map_iff. split.
  - intros [[n' b] [E H]]. cbn in E. subst n'.
    apply filter_In in H. destruct H as [H Hb]. cbn in Hb. now subst b.
  - intro H. exists (n, true). split; [reflexivity |].
    apply filter_In. now split.
Qed.

(** X19: the directory found is the subdirectory of benchmark_results
    whose name is greatest in the order of strings: when the directory
    has a subdirectory the result is one of them and no subdirectory has
    a greater name; when it has none (only files, or nothing) the result
    is [None]. *)
Theorem latest_is_greatest_subdirectory (entries : list (string * bool)) :
  match find_latest_results_dir (Directory entries) with
  | Ok (Some latest) =>
      exists d, latest = ("benchmark_results/" ++ d)%string
                /\ In (d, true) entries
                /\ forall n, In (n, true) entries -> String.ltb d n = false
  | Ok None => forall n, ~ In (n, true) entries
  | Raise _ => False
  end.
Proof.
  unfold find_latest_results_dir.
  destruct (map fst (filter snd entries)) as [|d0 ds] eqn:E.
  - intros n Hn. apply subdirs_In in Hn. rewrite E in Hn. destruct Hn.
  - cbv zeta.
    assert (Hne : sorted_str (d0 :: ds) <> []).
    { intro Hnil. apply py_sorted_nil in Hnil. discriminate Hnil. }
    exists (last (sorted_str (d0 :: ds)) d0). split; [reflexivity |]. split.
    + apply subdirs_In. rewrite E.
      apply (py_sorted_In String.ltb). now apply last_In.
    + intros n Hn. apply subdirs_In in Hn. rewrite E in Hn.
      apply sorted_last_greatest; [apply sorted_str_sorted |].
      now apply (py_sorted_In String.ltb).
Qed.

End DiscoveryProperties.

(* ================================================================== *)
(** * The really-cold series: properties *)
(* ================================================================== *)

Module ColdProperties.
Import Py PyStr PyFloat PyData Engine ReallyCold ReallyColdNotions.
Import EngineExamples ReallyColdExamples.
Import FloatFacts SortFacts.

(** A key that contains really_cold is found in the filtered dictionary
    as in the whole one. *)
Lemma cold_lookup (all_data : DataDict) (k : string) :
  contains "really_cold" k = true ->
  dict_get String.eqb (really_cold_results all_data) k
  = dict_get String.eqb all_data k.
Proof.
  intro Hk. unfold really_cold_results.
  induction all_data as [|[k' v] d IH]; [reflexivity |].
  cbn [filter fst dict_get].
  destruct (contains "really_cold" k') eqn:E; cbn [dict_get].
  - now rewrite IH.
  - destruct (String.eqb_spec k k') as [-> | _]; [congruence | exact IH].
Qed.

Lemma cold_key (size_key : string) :
  contains "really_cold" ("really_cold_" ++ size_key) = true.
Proof. reflexivity. Qed.

Lemma collect_cold_step (all_data : DataDict) (size_key display : string)
      (rest : list string) (acc : list ColdRow) :
  dict_get String.eqb size_display size_key = Some display ->
  collect_cold (really_cold_results all_data) (size_key :: rest) acc
  = collect_cold (really_cold_results all_data) rest
                 (acc ++ rows_of_size all_data size_key display).
Proof.
  intro Hd. cbn [collect_cold]. cbv zeta.
  rewrite (cold_lookup all_data _ (cold_key size_key)).
  unfold rows_of_size, table_of.
  destruct (dict_get String.eqb all_data ("really_cold_" ++ size_key)%string)
    as [[|row df]|]; cbn [List.length Nat.eqb map];
    rewrite ?app_nil_r; try reflexivity.
  rewrite Hd. reflexivity.
Qed.

Lemma collect_cold_spec (all_data : DataDict) :
  collect_cold (really_cold_results all_data) size_order []
  = Ok (rows_by_size all_data).
Proof.
  unfold size_order, rows_by_size.
  rewrite (collect_cold_step all_data "10mb" "10 MB") by reflexivity.
  rewrite (collect_cold_step all_data "100mb" "100 MB") by reflexivity.
  rewrite (collect_cold_step all_data "1gb" "1 GB") by reflexivity.
  rewrite (collect_cold_step all_data "4gb" "4 GB") by reflexivity.
  cbn [collect_cold app]. now rewrite <- !app_assoc.
Qed.

(** Without a key that contains really_cold none of the four tables is
    there. *)
Lemma no_cold_results (all_data : DataDict) :
  really_cold_results all_data = [] -> rows_by_size all_data = [].
Proof.
  intro H.
  assert (T : forall size_key,
             table_of all_data ("really_cold_" ++ size_key)%string = []).
  { intro size_key. unfold table_of.
    rewrite <- (cold_lookup all_data _ (cold_key size_key)), H. reflexivity. }
  unfold rows_by_size, rows_of_size. now rewrite !T.
Qed.

Lemma fold_max_In (rest : list (string * pyfloat)) :
  forall x,
    In (fold_left (fun best item =>
                     if gtb (snd item) (snd best) then item else best) rest x)
       (x :: rest).
Proof.
  induction rest as [|y rest IH]; intro x; cbn [fold_left]; [now left |].
  destruct (gtb (snd y) (snd x)).
  - right. apply IH.
  - destruct (IH x) as [H | H]; [now left | right; now right].
Qed.

Lemma fold_min_In (rest : list (string * pyfloat)) :
  forall x,
    In (fold_left (fun best item =>
                     if ltb (snd item) (snd best) then item else best) rest x)
       (x :: rest).
Proof.
  induction rest as [|y rest IH]; intro x; cbn [fold_left]; [now left |].
  destruct (ltb (snd y) (snd x)).
  - right. apply IH.
  - destruct (IH x) as [H | H]; [now left | right; now right].
Qed.

(** The analysis of one size raises nothing but a division by zero, and
    that only when a row of the size has a mean of zero. *)
Lemma analyse_size_cases (scaling_df : list ColdRow) (parsers : list string)
      (size : string) :
  (exists lines, analyse_size scaling_df parsers size = Ok lines)
  \/ (analyse_size scaling_df parsers size = Raise ZeroDivisionError
      /\ exists r, In r scaling_df /\ rc_size r = size
                   /\ is_zero (rc_mean r) = true).
Proof.
  unfold analyse_size. cbv zeta.
  destruct (filter (fun r => String.eqb (rc_size r) size) scaling_df)
    as [|r0 rs] eqn:E; [left; eauto |].
  destruct (2 <=? List.length (r0 :: rs))%nat; [| left; eauto].
  cbn [map py_max py_min bind].
  match goal with
  | |- context [gtb (snd ?s) (Fin 0)] => destruct (gtb (snd s) (Fin 0))
  end; [| left; eauto].
  match goal with
  | |- context [div ?a (snd ?f)] =>
      pose proof (fold_min_In (map (fun r => (rc_command r, rc_mean r)) rs)
                              (rc_command r0, rc_mean r0)) as Hin;
      destruct (is_zero (snd f)) eqn:Ez
  end.
  - right. unfold div. rewrite Ez. cbn [bind]. split; [reflexivity |].
    change ((rc_command r0, rc_mean r0)
            :: map (fun r => (rc_command r, rc_mean r)) rs)
      with (map (fun r => (rc_command r, rc_mean r)) (r0 :: rs)) in Hin.
    apply in_map_iff in Hin. destruct Hin as (r & Er & Hr).
    rewrite <- Er in Ez. cbn [snd] in Ez.
    rewrite <- E in Hr. apply filter_In in Hr. destruct Hr as [Hr Hs].
    exists r. repeat split; try assumption. now apply String.eqb_eq.
  - left. unfold div. rewrite Ez. cbn [bind]. eauto.
Qed.

Lemma analyse_sizes_cases (scaling_df : list ColdRow) (parsers sizes : list string) :
  (exists lines, analyse_sizes scaling_df parsers sizes = Ok lines)
  \/ (analyse_sizes scaling_df parsers sizes = Raise ZeroDivisionError
      /\ exists r, In r scaling_df /\ In (rc_size r) sizes
                   /\ is_zero (rc_mean r) = true).
Proof.
  induction sizes as [|size sizes IH]; cbn [analyse_sizes]; [left; eauto |].
  destruct (analyse_size_cases scaling_df parsers size)
    as [[lines ->] | [-> (r & Hr & Hs & Hz)]]; cbn [bind].
  - destruct IH as [[there ->] | [-> (r & Hr & Hs & Hz)]]; cbn [bind].
    + left. eauto.
    + right. split; [reflexivity |]. exists r. repeat split; try assumption.
      now right.
  - right. split; [reflexivity |]. exists r. repeat split; try assumption.
    now left.
Qed.

(** What [plot_really_cold_scaling] returns, in terms of the four tables. *)
Lemma plot_really_cold_scaling_cases (all_data : DataDict) :
  (plot_really_cold_scaling all_data = Ok None /\ rows_by_size all_data = [])
  \/ (exists chart, plot_really_cold_scaling all_data = Ok (Some chart)
                    /\ cc_rows chart = rows_by_size all_data
                    /\ rows_by_size all_data <> [])
  \/ (plot_really_cold_scaling all_data = Raise ZeroDivisionError
      /\ exists r, In r (rows_by_size all_data) /\ is_zero (rc_mean r) = true).
Proof.
  unfold plot_really_cold_scaling. cbv zeta.
  destruct (really_cold_results all_data) as [|kv d] eqn:E.
  - left. split; [reflexivity | now apply no_cold_results].
  - rewrite <- E, collect_cold_spec. cbn [bind].
    destruct (rows_by_size all_data) as [|r0 rs] eqn:Er;
      [left; now split |].
    right.
    destruct (analyse_sizes_cases (r0 :: rs)
                (sorted_str (py_set (map rc_command (r0 :: rs))))
                ["10 MB"; "100 MB"; "1 GB"; "4 GB"]%string)
      as [[lines ->] | [-> (r & Hr & _ & Hz)]]; cbn [bind].
    + left. eexists. split; [reflexivity |]. split; [reflexivity | discriminate].
    + right. split; [reflexivity |]. exists r. now split.
Qed.

(** X20: the really-cold chart shows the rows of the four tables
    really_cold_10mb, really_cold_100mb, really_cold_1gb and
    really_cold_4gb, in that order whatever the order of the loaded data,
    each under its size label; no other table is shown.  There is no
    chart exactly when the four tables have no row, and the only
    exception is a division by zero. *)
Theorem really_cold_chart_rows (all_data : DataDict) :
  match plot_really_cold_scaling all_data with
  | Ok (Some chart) =>
      cc_rows chart = rows_by_size all_data /\ rows_by_size all_data <> []
  | Ok None => rows_by_size all_data = []
  | Raise e => e = ZeroDivisionError
  end.
Proof.
  destruct (plot_really_cold_scaling_cases all_data)
    as [[-> H] | [(chart & -> & H1 & H2) | [-> _]]].
  - exact H.
  - now split.
  - reflexivity.
Qed.

Lemma positive_mean_not_zero (x : pyfloat) :
  gtb x (Fin 0) = true -> is_zero x = false.
Proof.
  destruct x as [q| | |]; cbn; try reflexivity; try discriminate.
  intro H. apply gtb_zero in H. apply is_zero_Fin.
  intro E. rewrite E in H. exact (Qlt_irrefl _ H).
Qed.

Lemma rows_by_size_In (all_data : DataDict) (r : ColdRow) :
  In r (rows_by_size all_data) ->
  exists size_key display row,
    In (size_key, display) size_display
    /\ In row (table_of all_data ("really_cold_" ++ size_key)%string)
    /\ rc_size r = display
    /\ rc_mean r = mean row.
Proof.
  unfold rows_by_size. rewrite !in_app_iff. unfold rows_of_size.
  rewrite !in_map_iff.
  intros [(row & <- & H) | [(row & <- & H) | [(row & <- & H) | (row & <- & H)]]].
  - exists "10mb"%string, "10 MB"%string, row. cbn. tauto.
  - exists "100mb"%string, "100 MB"%string, row. cbn. tauto.
  - exists "1gb"%string, "1 GB"%string, row. cbn. tauto.
  - exists "4gb"%string, "4 GB"%string, row. cbn. tauto.
Qed.

(** X21: when every row of the four really-cold tables has a positive
    mean time, [plot_really_cold_scaling] raises no exception. *)
Theorem really_cold_analysis_is_safe_on_positive_means (all_data : DataDict) :
  (forall size_key row,
      In size_key size_order ->
      In row (table_of all_data ("really_cold_" ++ size_key)%string) ->
      gtb (mean row) (Fin 0) = true) ->
  exists out, plot_really_cold_scaling all_data = Ok out.
Proof.
  intro Hpos.
  destruct (plot_really_cold_scaling_cases all_data)
    as [[-> _] | [(chart & -> & _) | [_ (r & Hr & Hz)]]]; eauto.
  exfalso. apply rows_by_size_In in Hr.
  destruct Hr as (size_key & display & row & Hk & Hrow & _ & Hm).
  rewrite Hm in Hz.
  rewrite (positive_mean_not_zero (mean row)) in Hz; [discriminate Hz |].
  apply (Hpos size_key); [| exact Hrow].
  cbn in Hk. cbn.
  repeat (destruct Hk as [Hk | Hk]; [injection Hk as <- _; tauto |]).
  destruct Hk.
Qed.

Lemma really_cold_analysis_is_safe_on_positive_means_witness :
  exists out, plot_really_cold_scaling cold_pair = Ok out.
Proof.
  apply (really_cold_analysis_is_safe_on_positive_means cold_pair).
  intros size_key row Hk Hrow. cbn in Hk.
  repeat (destruct Hk as [<- | Hk];
          [cbn in Hrow;
           repeat (destruct Hrow as [<- | Hrow]; [reflexivity |]);
           destruct Hrow |]).
  destruct Hk.
Defined.

Lemma fold_max_ge (rest : list (string * pyfloat)) :
  forall x,
    (forall y, In y (x :: rest) -> exists q, snd y = Fin q) ->
    exists M,
      snd (fold_left (fun best item =>
                        if gtb (snd item) (snd best) then item else best)
                     rest x) = Fin M
      /\ forall y q, In y (x :: rest) -> snd y = Fin q -> (q <= M)%Q.
Proof.
  induction rest as [|y rest IH]; intros x Hfin; cbn [fold_left].
  - destruct (Hfin x (or_introl eq_refl)) as [q Hq]. exists q.
    split; [exact Hq |]. intros y q' [<- | []] Hy.
    rewrite Hq in Hy. injection Hy as <-. apply Qle_refl.
  - destruct (Hfin x (or_introl eq_refl)) as [qx Hx].
    destruct (Hfin y (or_intror (or_introl eq_refl))) as [qy Hy].
    destruct (gtb (snd y) (snd x)) eqn:E; rewrite Hx, Hy in E;
      unfold gtb in E; cbn in E.
    + apply Qltb_lt in E.
      destruct (IH y) as (M & HM & Hall).
      { intros z [<- | Hz]; [eauto | apply Hfin; right; now right]. }
      exists M. split; [exact HM |].
      intros z q [<- | [<- | Hz]] Hq.
      * rewrite Hx in Hq. injection Hq as <-.
        apply Qle_trans with qy; [now apply Qlt_le_weak |].
        apply (Hall y); [now left | exact Hy].
      * apply (Hall y); [now left | exact Hq].
      * apply (Hall z); [now right | exact Hq].
    + apply Qltb_ge in E.
      destruct (IH x) as (M & HM & Hall).
      { intros z [<- | Hz]; [eauto | apply Hfin; right; now right]. }
      exists M. split; [exact HM |].
      intros z q [<- | [<- | Hz]] Hq.
      * apply (Hall x); [now left | exact Hq].
      * rewrite Hy in Hq. injection Hq as <-.
        apply Qle_trans with qx; [exact E |].
        apply (Hall x); [now left | exact Hx].
      * apply (Hall z); [now right | exact Hq].
Qed.

Lemma fold_min_le (rest : list (string * pyfloat)) :
  forall x,
    (forall y, In y (x :: rest) -> exists q, snd y = Fin q) ->
    exists M,
      snd (fold_left (fun best item =>
                        if ltb (snd item) (snd best) then item else best)
                     rest x) = Fin M
      /\ forall y q, In y (x :: rest) -> snd y = Fin q -> (M <= q)%Q.
Proof.
  induction rest as [|y rest IH]; intros x Hfin; cbn [fold_left].
  - destruct (Hfin x (or_introl eq_refl)) as [q Hq]. exists q.
    split; [exact Hq |]. intros y q' [<- | []] Hy.
    rewrite Hq in Hy. injection Hy as <-. apply Qle_refl.
  - destruct (Hfin x (or_introl eq_refl)) as [qx Hx].
    destruct (Hfin y (or_intror (or_introl eq_refl))) as [qy Hy].
    destruct (ltb (snd y) (snd x)) eqn:E; rewrite Hx, Hy in E; cbn in E.
    + apply Qltb_lt in E.
      destruct (IH y) as (M & HM & Hall).
      { intros z [<- | Hz]; [eauto | apply Hfin; right; now right]. }
      exists M. split; [exact HM |].
      intros z q [<- | [<- | Hz]] Hq.
      * rewrite Hx in Hq. injection Hq as <-.
        apply Qle_trans with qy; [| now apply Qlt_le_weak].
        apply (Hall y); [now left | exact Hy].
      * apply (Hall y); [now left | exact Hq].
      * apply (Hall z); [now right | exact Hq].
    + apply Qltb_ge in E.
      destruct (IH x) as (M & HM & Hall).
      { intros z [<- | Hz]; [eauto | apply Hfin; right; now right]. }
      exists M. split; [exact HM |].
      intros z q [<- | [<- | Hz]] Hq.
      * apply (Hall x); [now left | exact Hq].
      * rewrite Hy in Hq. injection Hq as <-.
        apply Qle_trans with qx; [| exact E].
        apply (Hall x); [now left | exact Hx].
      * apply (Hall z); [now right | exact Hq].
Qed.

Lemma two_rows_length {A : Type} (l : list A) (a b : A) :
  In a l -> In b l -> a <> b -> (2 <=? List.length l)%nat = true.
Proof.
  destruct l as [|x [|y l]]; cbn; try reflexivity.
  - intros [].
  - intros [<- | []] [<- | []] H. now elim H.
Qed.

Lemma filter_rows_of_size (all_data : DataDict) (size_key display label : string) :
  filter (fun r => String.eqb (rc_size r) label)
         (rows_of_size all_data size_key display)
  = if String.eqb display label then rows_of_size all_data size_key display
    else [].
Proof.
  unfold rows_of_size.
  induction (table_of all_data ("really_cold_" ++ size_key)) as [|row df IH];
    cbn [map filter rc_size].
  - now destruct (String.eqb display label).
  - rewrite IH. now destruct (String.eqb display label).
Qed.

Lemma size_data_of_label (all_data : DataDict) (size_key display : string) :
  In (size_key, display) size_display ->
  filter (fun r => String.eqb (rc_size r) display) (rows_by_size all_data)
  = rows_of_size all_data size_key display.
Proof.
  intro H. unfold rows_by_size. rewrite !filter_app, !filter_rows_of_size.
  cbn in H.
  repeat (destruct H as [H | H];
          [injection H as <- <-; cbn; now rewrite ?app_nil_r |]).
  destruct H.
Qed.

Lemma analyse_sizes_ok (scaling_df : list ColdRow) (parsers sizes : list string)
      (lines : list cold_line) :
  analyse_sizes scaling_df parsers sizes = Ok lines ->
  forall size, In size sizes ->
               exists l, analyse_size scaling_df parsers size = Ok l.
Proof.
  revert lines. induction sizes as [|s sizes IH]; intros lines H size Hin;
    [destruct Hin |].
  cbn [analyse_sizes] in H.
  destruct (analyse_size scaling_df parsers s) as [here|e] eqn:E;
    cbn [bind] in H; [| discriminate H].
  destruct (analyse_sizes scaling_df parsers sizes) as [there|e];
    cbn [bind] in H; [| discriminate H].
  destruct Hin as [<- | Hin]; [eauto | eapply IH; eauto].
Qed.

(** X22: the speed-up of a size is computed whenever the slowest mean
    is positive, without a look at the fastest: when a really-cold table
    has a row with a mean of zero beside a row with a positive mean (and
    no negative or non-finite mean), [plot_really_cold_scaling] raises
    [ZeroDivisionError] instead of returning the chart. *)
Theorem really_cold_speedup_divides_by_zero
        (all_data : DataDict) (size_key display : string)
        (fast slow : Row) (m : Q) :
  In (size_key, display) size_display ->
  In fast (table_of all_data ("really_cold_" ++ size_key)%string) ->
  mean fast = Fin 0 ->
  In slow (table_of all_data ("really_cold_" ++ size_key)%string) ->
  mean slow = Fin m -> (0 < m)%Q ->
  (forall row, In row (table_of all_data ("really_cold_" ++ size_key)%string) ->
               exists q, mean row = Fin q /\ (0 <= q)%Q) ->
  plot_really_cold_scaling all_data = Raise ZeroDivisionError.
Proof.
  intros Hk Hfast Hzero Hslow Hm Hpos Hall.
  set (to_row := fun row : Row =>
                   {| rc_size := display; rc_command := command row;
                      rc_mean := mean row; rc_stddev := stddev_or_zero row |}).
  assert (Hdata : forall row,
             In row (table_of all_data ("really_cold_" ++ size_key)%string) ->
             In (to_row row) (rows_of_size all_data size_key display)).
  { intros row H. unfold rows_of_size. apply in_map_iff. now exists row. }
  assert (Hlen : (2 <=? List.length (rows_of_size all_data size_key display))%nat
                 = true).
  { apply (two_rows_length _ (to_row fast) (to_row slow)); auto.
    intro E. apply (f_equal rc_mean) in E. cbn in E.
    rewrite Hzero, Hm in E. injection E as E. rewrite <- E in Hpos.
    exact (Qlt_irrefl _ Hpos). }
  assert (Hraise : forall parsers,
             analyse_size (rows_by_size all_data) parsers display
             = Raise ZeroDivisionError).
  { intro parsers. unfold analyse_size. cbv zeta.
    rewrite (size_data_of_label all_data size_key display Hk), Hlen.
    destruct (rows_of_size all_data size_key display) as [|r0 rs] eqn:Erows;
      [destruct (Hdata fast Hfast) |].
    cbn [map py_max py_min bind].
    assert (Hfin : forall y,
               In y ((rc_command r0, rc_mean r0)
                     :: map (fun r => (rc_command r, rc_mean r)) rs) ->
               exists q, snd y = Fin q /\ (0 <= q)%Q).
    { intros y Hy.
      change (In y (map (fun r => (rc_command r, rc_mean r)) (r0 :: rs))) in Hy.
      apply in_map_iff in Hy. destruct Hy as (r & <- & Hr).
      rewrite <- Erows in Hr. unfold rows_of_size in Hr.
      apply in_map_iff in Hr. destruct Hr as (row & <- & Hrow).
      cbn. now apply Hall. }
    assert (Hin : forall row,
               In row (table_of all_data ("really_cold_" ++ size_key)%string) ->
               In (command row, mean row)
                  ((rc_command r0, rc_mean r0)
                   :: map (fun r => (rc_command r, rc_mean r)) rs)).
    { intros row Hrow.
      change (In (command row, mean row)
                 (map (fun r => (rc_command r, rc_mean r)) (r0 :: rs))).
      apply in_map_iff. exists (to_row row). split; [reflexivity |].
      now apply Hdata. }
    destruct (fold_max_ge (map (fun r => (rc_command r, rc_mean r)) rs)
                          (rc_command r0, rc_mean r0)) as (M & HM & Hmax).
    { intros y Hy. destruct (Hfin y Hy) as (q & Hq & _). eauto. }
    destruct (fold_min_le (map (fun r => (rc_command r, rc_mean r)) rs)
                          (rc_command r0, rc_mean r0)) as (L & HL & Hmin).
    { intros y Hy. destruct (Hfin y Hy) as (q & Hq & _). eauto. }
    rewrite HM.
    assert (HMpos : gtb (Fin M) (Fin 0) = true).
    { apply gtb_zero. apply Qlt_le_trans with m; [exact Hpos |].
      apply (Hmax (command slow, mean slow)); [now apply Hin | exact Hm]. }
    rewrite HMpos. unfold div. rewrite HL.
    assert (HLzero : is_zero (Fin L) = true).
    { unfold is_zero. cbn. apply Qeq_bool_iff. apply Qle_antisym.
      - apply (Hmin (command fast, mean fast)); [now apply Hin | exact Hzero].
      - pose proof (fold_min_In (map (fun r => (rc_command r, rc_mean r)) rs)
                                (rc_command r0, rc_mean r0)) as Hf.
        destruct (Hfin _ Hf) as (q & Hq & Hq0).
        rewrite HL in Hq. injection Hq as <-. exact Hq0. }
    rewrite HLzero. reflexivity. }
  assert (Hlabel : In display ["10 MB"; "100 MB"; "1 GB"; "4 GB"]%string).
  { cbn in Hk. cbn.
    repeat (destruct Hk as [Hk | Hk]; [injection Hk as _ <-; tauto |]).
    destruct Hk. }
  destruct (plot_really_cold_scaling_cases all_data)
    as [[_ Hnil] | [(chart & Hplot & _) | [Hplot _]]].
  - specialize (Hdata fast Hfast). exfalso.
    assert (Hr : In (to_row fast) (rows_by_size all_data)).
    { rewrite <- (size_data_of_label all_data size_key display Hk) in Hdata.
      apply filter_In in Hdata. tauto. }
    rewrite Hnil in Hr. destruct Hr.
  - exfalso. unfold plot_really_cold_scaling in Hplot. cbv zeta in Hplot.
    destruct (really_cold_results all_data) as [|kv d] eqn:E;
      [discriminate Hplot |].
    rewrite <- E, collect_cold_spec in Hplot. cbn [bind] in Hplot.
    destruct (rows_by_size all_data) as [|r0 rs] eqn:Er; [discriminate Hplot |].
    destruct (analyse_sizes (r0 :: rs)
                (sorted_str (py_set (map rc_command (r0 :: rs))))
                ["10 MB"; "100 MB"; "1 GB"; "4 GB"]%string) as [lines|e] eqn:Ea;
      cbn [bind] in Hplot; [| discriminate Hplot].
    destruct (analyse_sizes_ok _ _ _ _ Ea display Hlabel) as [l Hl].
    rewrite Hraise in Hl. discriminate Hl.
  - exact Hplot.
Qed.

Lemma really_cold_speedup_divides_by_zero_witness :
  plot_really_cold_scaling cold_zero = Raise ZeroDivisionError.
Proof.
  apply (really_cold_speedup_divides_by_zero cold_zero "1gb" "1 GB"
           (timing "needletail" 0 0) (timing "seqio" 3 0.5) 3%Q).
  - cbn. tauto.
  - cbn. tauto.
  - reflexivity.
  - cbn. tauto.
  - reflexivity.
  - reflexivity.
  - intros row Hrow. cbn in Hrow.
    destruct Hrow as [<- | [<- | []]]; eexists; (split; [reflexivity |]);
      discriminate.
Defined.

End ColdProperties.

(* ================================================================== *)
(** * Individual runs: properties *)
(* ================================================================== *)

Module RunsProperties.
Import Py PyStr Key PyFloat PyData Engine EngineNotions Runs RunsNotions.
Import RunsExamples.
Import SortFacts GridFacts GridProperties DiscoveryProperties.

(** The tables the two functions place are those of the mean-time grid
    of the hot cache. *)
Lemma hot_step_fst (state : Organized * list string) (item : string * Table) :
  fst (hot_step state item) = organize_step "hot" (fst state) item.
Proof.
  destruct state as [org added], item as [name df].
  unfold hot_step, organize_step. cbn [fst].
  destruct (List.length df =? 0)%nat; [reflexivity |].
  destruct (_parse_benchmark_key name) as [[[size cache] comp]|];
    [| reflexivity].
  now destruct (negb (String.eqb cache "hot")).
Qed.

Lemma fold_hot_fst (data_dict : DataDict) :
  forall state,
    fst (fold_left hot_step data_dict state)
    = fold_left (organize_step "hot") data_dict (fst state).
Proof.
  induction data_dict as [|item items IH]; intro state; cbn [fold_left];
    [reflexivity |].
  now rewrite IH, hot_step_fst.
Qed.

Lemma organize_hot_fst (data_dict : DataDict) :
  fst (organize_hot data_dict) = organize data_dict "hot".
Proof. unfold organize_hot, organize. now rewrite fold_hot_fst. Qed.

(** The commands added to [all_parsers]. *)
Lemma fold_hot_snd (data_dict : DataDict) (c : string) :
  forall state,
    In c (snd (fold_left hot_step data_dict state))
    <-> In c (snd state)
        \/ exists name df size compression,
            In (name, df) data_dict /\ df <> []
            /\ _parse_benchmark_key name = Some (size, "hot"%string, compression)
            /\ In c (map command df).
Proof.
  induction data_dict as [|[name df] items IH]; intro state; cbn [fold_left].
  - split; [now left | intros [H | (n & d & s & k & [] & _)]; exact H].
  - rewrite IH. clear IH. destruct state as [org added].
    unfold hot_step.
    destruct df as [|r df].
    { cbn [List.length Nat.eqb snd]. split.
      - intros [H | (n & d & s & k & Hin & Hrest)]; [now left | right].
        exists n, d, s, k. split; [now right | exact Hrest].
      - intros [H | (n & d & s & k & [E | Hin] & Hdf & Hrest)]; [now left | |].
        + injection E as <- <-. now elim Hdf.
        + right. exists n, d, s, k. now split. }
    cbn [List.length Nat.eqb].
    destruct (_parse_benchmark_key name) as [[[size cache] comp]|] eqn:Ep.
    2:{ cbn [snd]. split.
        - intros [H | (n & d & s & k & Hin & Hrest)]; [now left | right].
          exists n, d, s, k. split; [now right | exact Hrest].
        - intros [H | (n & d & s & k & [E | Hin] & Hdf & Hp & Hc)];
            [now left | |].
          + injection E as <- <-. rewrite Ep in Hp. discriminate Hp.
          + right. exists n, d, s, k. now repeat split. }
    destruct (String.eqb_spec cache "hot") as [-> | Hne]; cbn [negb snd].
    + rewrite in_app_iff. split.
      * intros [[H | H] | (n & d & s & k & Hin & Hrest)].
        -- now left.
        -- right. exists name, (r :: df), size, comp.
           repeat split; [now left | discriminate | exact Ep | exact H].
        -- right. exists n, d, s, k. split; [now right | exact Hrest].
      * intros [H | (n & d & s & k & [E | Hin] & Hdf & Hp & Hc)].
        -- left. now left.
        -- injection E as <- <-. left. now right.
        -- right. exists n, d, s, k. now repeat split.
    + split.
      * intros [H | (n & d & s & k & Hin & Hrest)]; [now left | right].
        exists n, d, s, k. split; [now right | exact Hrest].
      * intros [H | (n & d & s & k & [E | Hin] & Hdf & Hp & Hc)];
          [now left | |].
        -- injection E as <- <-. rewrite Ep in Hp. injection Hp as _ E _.
           now elim Hne.
        -- right. exists n, d, s, k. now repeat split.
Qed.

(** The grid of the scatter plots over the placed tables. *)
Lemma scatter_grid_shape (data_dict : DataDict)
      (file_sizes : option (list (string * string))) :
  organize data_dict "hot" <> [] ->
  plot_scatter_runs data_dict file_sizes
  = Some (ScatterGrid
            (map (fun size =>
                    {| scatter_label := size_display size;
                       scatter_charts :=
                         map (scatter_cell
                                (organize data_dict "hot")
                                (sorted_str (py_set (snd (organize_hot data_dict))))
                                size)
                             (grid_compressions (organize data_dict "hot")) |})
                 (grid_sizes (organize data_dict "hot"))))
  /\ grid_sizes (organize data_dict "hot") <> []
  /\ grid_compressions (organize data_dict "hot") <> [].
Proof.
  intro Hne. unfold plot_scatter_runs.
  rewrite <- organize_hot_fst in *.
  destruct (organize_hot data_dict) as [org added]. cbn [fst snd] in *.
  assert (HS : grid_sizes org <> []).
  { intro E. destruct org as [|e org'] eqn:Eo; [contradiction |].
    rewrite <- Eo in E.
    assert (H : In (snd (fst e)) (grid_sizes org)).
    { apply grid_sizes_In. exists (fst (fst e)), (snd e). rewrite Eo. left.
      now destruct e as [[c s] v]. }
    rewrite E in H. destruct H. }
  assert (HC : grid_compressions org <> []).
  { intro E. destruct org as [|e org'] eqn:Eo; [contradiction |].
    rewrite <- Eo in E.
    assert (H : In (fst (fst e)) (grid_compressions org)).
    { apply grid_compressions_In. exists (snd (fst e)), (snd e). rewrite Eo.
      left. now destruct e as [[c s] v]. }
    rewrite E in H. destruct H. }
  destruct org as [|e org']; [contradiction |].
  cbv zeta.
  destruct (grid_compressions (e :: org')) as [|k0 ks]; [contradiction |].
  destruct (grid_sizes (e :: org')) as [|s0 ss]; [contradiction |].
  split; [| split; discriminate].
  assert (G : forall sizes,
             flat_map
               (fun size =>
                  match map (scatter_cell (e :: org')
                                          (sorted_str (py_set added)) size)
                            (k0 :: ks) with
                  | [] => []
                  | _ :: _ =>
                      [{| scatter_label := size_display size;
                          scatter_charts :=
                            map (scatter_cell (e :: org')
                                              (sorted_str (py_set added)) size)
                                (k0 :: ks) |}]
                  end) sizes
             = map (fun size =>
                      {| scatter_label := size_display size;
                         scatter_charts :=
                           map (scatter_cell (e :: org')
                                             (sorted_str (py_set added)) size)
                               (k0 :: ks) |}) sizes).
  { induction sizes as [|x xs IH]; [reflexivity |].
    cbn [flat_map map app]. cbn [flat_map map] in IH. now rewrite IH. }
  rewrite G. reflexivity.
Qed.

Lemma organize_nonempty_eligible (data_dict : DataDict) (cache_type : string) :
  organize data_dict cache_type <> [] -> eligible data_dict cache_type.
Proof.
  destruct (organize data_dict cache_type) as [|[[c s] [n df]] org'] eqn:Eorg;
    [contradiction |].
  intros _.
  assert (He : In ((c, s), (n, df)) (organize data_dict cache_type)).
  { rewrite Eorg. now left. }
  destruct (organized_tables_nonempty _ _ _ _ _ _ He) as (H1 & H2 & H3).
  exists n, df, s, c. repeat split; assumption.
Qed.

Lemma scatter_without_hot (data_dict : DataDict)
      (file_sizes : option (list (string * string))) :
  organize data_dict "hot" = [] ->
  plot_scatter_runs data_dict file_sizes
  = _plot_scatter_runs_simple data_dict file_sizes.
Proof.
  intro H. unfold plot_scatter_runs. rewrite <- organize_hot_fst in H.
  destruct (organize_hot data_dict) as [org added]. cbn [fst] in H.
  now rewrite H.
Qed.

Lemma simple_is_not_a_grid (data_dict : DataDict)
      (file_sizes : option (list (string * string))) (rows : list scatter_row) :
  _plot_scatter_runs_simple data_dict file_sizes <> Some (ScatterGrid rows).
Proof.
  unfold _plot_scatter_runs_simple. cbv zeta.
  match goal with |- context [match ?l with [] => None | _ => _ end] =>
    destruct l end; discriminate.
Qed.

(** X23: [plot_scatter_runs] draws the grid exactly when some table can
    be shown for the hot cache (it is not empty and its name parses to
    that cache state); the grid then has at least one row and every row
    at least one panel, so that the second fall-back of the function is
    never taken.  Otherwise the result is that of the simple layout. *)
Theorem scatter_grid_iff_hot_table
        (data_dict : DataDict) (file_sizes : option (list (string * string))) :
  (eligible data_dict "hot"
   <-> exists rows,
        plot_scatter_runs data_dict file_sizes = Some (ScatterGrid rows)
        /\ rows <> []
        /\ forall r, In r rows -> scatter_charts r <> [])
  /\ (~ eligible data_dict "hot"
      <-> plot_scatter_runs data_dict file_sizes
          = _plot_scatter_runs_simple data_dict file_sizes).
Proof.
  destruct (organize data_dict "hot") as [|e org'] eqn:Eorg.
  - assert (Hno : ~ eligible data_dict "hot").
    { intro H. apply organize_complete in H. contradiction. }
    pose proof (scatter_without_hot data_dict file_sizes Eorg) as Hs.
    split; split.
    + intro H. contradiction.
    + intros (rows & H & _). rewrite Hs in H.
      now apply simple_is_not_a_grid in H.
    + intros _. exact Hs.
    + intros _. exact Hno.
  - assert (Hne : organize data_dict "hot" <> []) by (rewrite Eorg; discriminate).
    pose proof (organize_nonempty_eligible _ _ Hne) as Hel.
    destruct (scatter_grid_shape data_dict file_sizes Hne) as (Hplot & HS & HC).
    split; split.
    + intros _. eexists. split; [exact Hplot |]. split.
      * destruct (grid_sizes (organize data_dict "hot")); [contradiction |].
        discriminate.
      * intros r Hr. apply in_map_iff in Hr. destruct Hr as (size & <- & _).
        cbn [scatter_charts].
        destruct (grid_compressions (organize data_dict "hot"));
          [contradiction | discriminate].
    + intros _. exact Hel.
    + intro H. contradiction.
    + intro H. rewrite Hplot in H. symmetry in H.
      now apply simple_is_not_a_grid in H.
Qed.

Lemma grid_of_scatter (data_dict : DataDict)
      (file_sizes : option (list (string * string))) (rows : list scatter_row) :
  plot_scatter_runs data_dict file_sizes = Some (ScatterGrid rows) ->
  organize data_dict "hot" <> [].
Proof.
  intros H E. rewrite (scatter_without_hot _ _ E) in H.
  now apply simple_is_not_a_grid in H.
Qed.

Lemma sorted_set_NoDup (l : list string) : NoDup (sorted_str (py_set l)).
Proof.
  unfold sorted_str, py_set.
  apply (Permutation_NoDup (l := dedup String.eqb l));
    [symmetry; apply py_sorted_perm | apply dedup_NoDup].
Qed.

(** X24: the colour scale of every panel of the scatter grid has the
    same domain: the commands of all non-empty tables whose name parses
    to the hot cache, without repeats and in the order of strings.  A
    table that another table has replaced on its panel still contributes
    its commands. *)
Theorem scatter_colour_domain
        (data_dict : DataDict) (file_sizes : option (list (string * string)))
        (rows : list scatter_row) (r : scatter_row)
        (title : string) (points : list RunPoint) (domain : list string) :
  plot_scatter_runs data_dict file_sizes = Some (ScatterGrid rows) ->
  In r rows ->
  In (RunsChart title points domain) (scatter_charts r) ->
  NoDup domain
  /\ StronglySorted (not_after String.ltb) domain
  /\ forall c,
      In c domain
      <-> exists name df size compression,
          In (name, df) data_dict /\ df <> []
          /\ _parse_benchmark_key name = Some (size, "hot"%string, compression)
          /\ In c (map command df).
Proof.
  intros Hplot Hr Hpanel.
  pose proof (grid_of_scatter _ _ _ Hplot) as Hne.
  destruct (scatter_grid_shape data_dict file_sizes Hne) as (Hshape & _ & _).
  rewrite Hshape in Hplot. injection Hplot as <-.
  apply in_map_iff in Hr. destruct Hr as (size & <- & _).
  cbn [scatter_charts] in Hpanel.
  apply in_map_iff in Hpanel. destruct Hpanel as (comp & Hcell & _).
  unfold scatter_cell in Hcell.
  destruct (dict_get cell_key_eqb (organize data_dict "hot") (comp, size))
    as [[name df]|]; [| discriminate Hcell].
  injection Hcell as _ _ <-.
  split; [apply sorted_set_NoDup |]. split; [apply sorted_str_sorted |].
  intro c. rewrite sorted_set_In. unfold organize_hot.
  rewrite fold_hot_snd. cbn [snd In]. tauto.
Qed.

Lemma scatter_colour_domain_witness :
  NoDup ["needletail"; "seqio"]%string
  /\ StronglySorted (not_after String.ltb) ["needletail"; "seqio"]%string
  /\ forall c,
      In c ["needletail"; "seqio"]%string
      <-> exists name df size compression,
          In (name, df) overlapping /\ df <> []
          /\ _parse_benchmark_key name = Some (size, "hot"%string, compression)
          /\ In c (map command df).
Proof.
  eapply (scatter_colour_domain overlapping None).
  - reflexivity.
  - left. reflexivity.
  - left. reflexivity.
Defined.

Lemma enumerate_In {A : Type} (l : list A) :
  forall start i x,
    In (i, x) (enumerate start l)
    <-> (start <= i)%nat /\ nth_error l (i - start) = Some x.
Proof.
  induction l as [|y l IH]; intros start i x; cbn [enumerate In].
  - split; [intros [] |]. intros [_ H]. now destruct (i - start)%nat.
  - rewrite IH. split.
    + intros [E | [Hle Hn]].
      * injection E as <- <-. split; [lia |]. now rewrite Nat.sub_diag.
      * split; [lia |].
        replace (i - start)%nat with (S (i - S start)) by lia. exact Hn.
    + intros [Hle Hn]. destruct (i - start)%nat as [|k] eqn:E.
      * left. injection Hn as <-. f_equal. lia.
      * right. split; [lia |]. replace (i - S start)%nat with k by lia.
        exact Hn.
Qed.

(** The points drawn from a table: one per run of each of its rows,
    numbered from 0 by its position among the runs of the row. *)
Lemma expand_runs_In (df : Table) (p : RunPoint) :
  In p (expand_runs df)
  <-> exists row, In row df
                  /\ p_command p = command row
                  /\ p_mean p = mean row
                  /\ nth_error (times row) (p_run p) = Some (p_time p).
Proof.
  unfold expand_runs. rewrite in_flat_map. split.
  - intros (row & Hrow & Hp). exists row. split; [exact Hrow |].
    apply in_map_iff in Hp. destruct Hp as ([i t] & <- & Hit).
    apply enumerate_In in Hit. destruct Hit as [_ Hn].
    rewrite Nat.sub_0_r in Hn. cbn. auto.
  - intros (row & Hrow & Hc & Hm & Hn). exists row. split; [exact Hrow |].
    apply in_map_iff. exists (p_run p, p_time p). split.
    + destruct p. cbn in *. now subst.
    + apply enumerate_In. split; [lia |]. now rewrite Nat.sub_0_r.
Qed.

Lemma dict_get_In {V : Type} (d : list (cell_key * V)) (k : cell_key) (v : V) :
  dict_get cell_key_eqb d k = Some v -> In (k, v) d.
Proof.
  induction d as [|[k' v'] d IH]; cbn [dict_get]; [discriminate |].
  destruct (cell_key_eqb k k') eqn:E.
  - intros [= <-]. apply cell_key_eqb_eq in E. subst k'. now left.
  - intro H. right. now apply IH.
Qed.

Lemma placed_last (before after : DataDict) (name : string) (df : Table)
      (size cache_type compression : string) :
  df <> [] ->
  _parse_benchmark_key name = Some (size, cache_type, compression) ->
  (forall n' df', In (n', df') after -> df' <> [] ->
                  _parse_benchmark_key n' <> Some (size, cache_type, compression)) ->
  dict_get cell_key_eqb
           (organize (before ++ (name, df) :: after) cache_type)
           (compression, size)
  = Some (name, df).
Proof.
  intros Hdf Hp Hafter. unfold organize.
  rewrite fold_left_app. cbn [fold_left].
  rewrite (fold_organize_keeps cache_type (compression, size) after Hafter).
  unfold organize_step at 1.
  destruct df as [|r df]; [contradiction |]. cbn [List.length Nat.eqb].
  rewrite Hp, String.eqb_refl. cbn [negb]. apply dict_get_set_same.
Qed.

(** X25: every run is drawn.  For a non-empty table of the hot cache
    that no later table replaces, the scatter grid has, in the row of its
    size, the panel of its compression, and the points of that panel are
    exactly the runs of the table: each run time of each row, with the
    command and the mean of the row and the position of the run among
    the times of the row, counted from 0. *)
Theorem scatter_shows_every_run
        (before after : DataDict) (file_sizes : option (list (string * string)))
        (name : string) (df : Table) (size compression : string) :
  df <> [] ->
  _parse_benchmark_key name = Some (size, "hot"%string, compression) ->
  (forall n' df', In (n', df') after -> df' <> [] ->
                  _parse_benchmark_key n'
                  <> Some (size, "hot"%string, compression)) ->
  exists rows r points domain,
    plot_scatter_runs (before ++ (name, df) :: after) file_sizes
    = Some (ScatterGrid rows)
    /\ In r rows
    /\ scatter_label r = size_display size
    /\ In (RunsChart (short_label compression) points domain)
          (scatter_charts r)
    /\ forall p,
        In p points
        <-> exists row, In row df
                        /\ p_command p = command row
                        /\ p_mean p = mean row
                        /\ nth_error (times row) (p_run p) = Some (p_time p).
Proof.
  intros Hdf Hp Hafter.
  set (data_dict := (before ++ (name, df) :: after)%list).
  pose proof (placed_last before after name df size "hot" compression
                          Hdf Hp Hafter) as Hget.
  fold data_dict in Hget.
  pose proof (dict_get_In _ _ _ Hget) as Hin.
  assert (Hne : organize data_dict "hot" <> []).
  { intro E. rewrite E in Hin. destruct Hin. }
  destruct (scatter_grid_shape data_dict file_sizes Hne) as (Hshape & _ & _).
  eexists. eexists. exists (expand_runs df). eexists.
  split; [exact Hshape |]. split.
  - apply in_map_iff. exists size. split; [reflexivity |].
    apply grid_sizes_In. now exists compression, (name, df).
  - cbn [scatter_label scatter_charts]. split; [reflexivity |]. split.
    + apply in_map_iff. exists compression. split.
      * unfold scatter_cell. rewrite Hget. reflexivity.
      * apply grid_compressions_In. now exists size, (name, df).
    + intro p. apply expand_runs_In.
Qed.

Lemma scatter_shows_every_run_witness :
  exists rows r points domain,
    plot_scatter_runs
      ([("1m_hot_raw"%string, [three_runs "needletail" 1 2 3])]
       ++ ("1M_HOT_RAW"%string, [three_runs "seqio" 4 5 6])
       :: [("1m_cold_raw"%string, [three_runs "kseq" 7 8 9])]) None
    = Some (ScatterGrid rows)
    /\ In r rows
    /\ scatter_label r = size_display "1m"
    /\ In (RunsChart (short_label "raw") points domain) (scatter_charts r)
    /\ forall p,
        In p points
        <-> exists row, In row [three_runs "seqio" 4 5 6]
                        /\ p_command p = command row
                        /\ p_mean p = mean row
                        /\ nth_error (times row) (p_run p) = Some (p_time p).
Proof.
  apply scatter_shows_every_run; [discriminate | reflexivity |].
  intros n' df' [[= <- <-] | []] _. discriminate.
Defined.

Lemma simple_none (data_dict : DataDict)
      (file_sizes : option (list (string * string))) :
  _plot_scatter_runs_simple data_dict file_sizes = None
  <-> forall name df, In (name, df) data_dict -> df = [].
Proof.
  unfold _plot_scatter_runs_simple. cbv zeta.
  induction data_dict as [|[n t] items IH]; cbn [flat_map].
  - split; [intros _ name df [] | reflexivity].
  - destruct t as [|row t]; cbn [List.length Nat.eqb app].
    + rewrite IH. split.
      * intros H name df [[= <- <-] | Hin]; [reflexivity | eapply H; eauto].
      * intros H name df Hin. apply (H name). now right.
    + split; [discriminate |]. intro H.
      specialize (H n (row :: t) (or_introl eq_refl)). discriminate H.
Qed.

(** X26: [plot_scatter_runs] returns [None] only when every table is
    empty: tables that cannot be placed on the grid of the hot cache
    (other cache states, names that do not parse) are still drawn, by the
    simple layout. *)
Theorem scatter_none_iff_all_tables_empty
        (data_dict : DataDict) (file_sizes : option (list (string * string))) :
  plot_scatter_runs data_dict file_sizes = None
  <-> forall name df, In (name, df) data_dict -> df = [].
Proof.
  destruct (organize data_dict "hot") as [|e org'] eqn:Eorg.
  - rewrite (scatter_without_hot _ _ Eorg). apply simple_none.
  - assert (Hne : organize data_dict "hot" <> []) by (rewrite Eorg; discriminate).
    destruct (scatter_grid_shape data_dict file_sizes Hne) as (Hshape & _ & _).
    rewrite Hshape. split; [discriminate |]. intro H.
    destruct (organize_nonempty_eligible _ _ Hne)
      as (name & df & size & comp & Hin & Hdf & _).
    elim Hdf. eapply H; eauto.
Qed.

Lemma map_snd_enumerate {A : Type} (l : list A) :
  forall start, map snd (enumerate start l) = l.
Proof.
  induction l as [|x l IH]; intro start; cbn; [reflexivity |]. now rewrite IH.
Qed.

Lemma expand_times_of_runs (df : Table) :
  expand_times df = map sample_of (expand_runs df).
Proof.
  unfold expand_times, expand_runs.
  induction df as [|row df IH]; [reflexivity |].
  cbn [flat_map]. rewrite map_app, <- IH. f_equal.
  rewrite map_map. unfold sample_of. cbn [p_command p_time].
  rewrite <- (map_snd_enumerate (times row) 0) at 1.
  now rewrite map_map.
Qed.

Lemma horizontal_of_simple (data_dict : DataDict)
      (file_sizes : option (list (string * string))) :
  _plot_distributions_horizontal data_dict file_sizes
  = option_map dist_result_of (_plot_scatter_runs_simple data_dict file_sizes).
Proof.
  unfold _plot_distributions_horizontal, _plot_scatter_runs_simple. cbv zeta.
  assert (G : flat_map
                (fun item : string * Table =>
                   let (name, df) := item in
                   if (List.length df =? 0)%nat then []
                   else [{| simple_dist_title := chart_title name file_sizes;
                            simple_dist_df := expand_times df |}]) data_dict
              = map simple_dist_of
                    (flat_map
                       (fun item : string * Table =>
                          let (name, df) := item in
                          if (List.length df =? 0)%nat then []
                          else [{| simple_title := chart_title name file_sizes;
                                   simple_run_df := expand_runs df |}])
                       data_dict)).
  { induction data_dict as [|[n t] items IH]; [reflexivity |].
    cbn [flat_map]. rewrite map_app, <- IH. f_equal.
    destruct (List.length t =? 0)%nat; [reflexivity |].
    cbn [map]. unfold simple_dist_of. cbn [simple_title simple_run_df].
    now rewrite expand_times_of_runs. }
  rewrite G.
  match goal with
  | |- context [map simple_dist_of ?l] => destruct l; reflexivity
  end.
Qed.

Lemma dist_cell_of_scatter (org : Organized) (parsers : list string)
      (size compression : string) :
  dist_cell org parsers size compression
  = dist_panel_of (scatter_cell org parsers size compression).
Proof.
  unfold dist_cell, scatter_cell.
  destruct (dict_get cell_key_eqb org (compression, size)) as [[name df]|];
    [| reflexivity].
  cbn [dist_panel_of]. now rewrite expand_times_of_runs.
Qed.

(** X27: the two charts of individual runs always agree.  On the same
    data [plot_distributions] and [plot_scatter_runs] choose the same
    layout, with the same rows, panels, titles and colour domains, and
    the samples of every box plot are the points of the corresponding
    scatter panel without their run numbers. *)
Theorem distributions_agree_with_scatter
        (data_dict : DataDict) (file_sizes : option (list (string * string))) :
  plot_distributions data_dict file_sizes
  = option_map dist_result_of (plot_scatter_runs data_dict file_sizes).
Proof.
  unfold plot_distributions, plot_scatter_runs.
  destruct (organize_hot data_dict) as [org added].
  destruct org as [|e org']; [apply horizontal_of_simple |].
  cbv zeta.
  set (parsers := sorted_str (py_set added)).
  set (comps := grid_compressions (e :: org')).
  assert (G : forall sizes,
             flat_map
               (fun size =>
                  match map (dist_cell (e :: org') parsers size) comps with
                  | [] => []
                  | _ :: _ =>
                      [{| dist_label := size_display size;
                          dist_charts :=
                            map (dist_cell (e :: org') parsers size) comps |}]
                  end) sizes
             = map dist_row_of
                   (flat_map
                      (fun size =>
                         match map (scatter_cell (e :: org') parsers size)
                                   comps with
                         | [] => []
                         | _ :: _ =>
                             [{| scatter_label := size_display size;
                                 scatter_charts :=
                                   map (scatter_cell (e :: org') parsers size)
                                       comps |}]
                         end) sizes)).
  { induction sizes as [|x xs IH]; [reflexivity |].
    cbn [flat_map]. rewrite map_app, <- IH. f_equal.
    assert (M : map (dist_cell (e :: org') parsers x) comps
                = map dist_panel_of
                      (map (scatter_cell (e :: org') parsers x) comps)).
    { rewrite map_map. apply map_ext. intro a. apply dist_cell_of_scatter. }
    rewrite M.
    destruct (map (scatter_cell (e :: org') parsers x) comps); reflexivity. }
  rewrite G.
  match goal with
  | |- context [map dist_row_of ?l] => destruct l
  end; [apply horizontal_of_simple | reflexivity].
Qed.

End RunsProperties.
